(** * pymedphys: DICOM dose toolbox and Pinnacle export facade

    A shallow embedding of

    - [pymedphys_dicom/dicom/dose.py] (dose interpolation, depth doses and
      profiles, structure masks, dose volume histograms), and
    - [pymedphys_pinnacle/exporttool/pinnacle.py] (the [Pinnacle] class),

    together with the properties the specification states about them.

    Conventions.
    - A Python exception is a value of [exn]; a call that can raise returns
      [result A].  Code that also mutates an object or calls a collaborator
      with an effect runs in a state monad whose state survives an exception,
      as a Python object does.
    - numpy's float64 numbers are modelled by exact rationals [Q]; a quotient
      that numpy evaluates to nan is [None] in [option Q].  Comparisons are
      the numeric ones ([Qeq_bool], [Qle_bool]).
    - Library calls (numpy, scipy, matplotlib) are modelled after their
      documented behaviour; collaborators of the repository whose code is not
      part of the sources ([pull_structure], [require_gantries_be_zero],
      [pinn_to_dict], ...) are parameters. *)

From Stdlib Require Import String Ascii List ZArith QArith Qround Lia Lqa Bool.
From stdpp Require Import base list strings gmap pretty.
Import ListNotations.

Set Warnings "-register-all".
#[local] Open Scope string_scope.

(** ** Python exceptions and results *)

Module py.

Inductive exn :=
| ValueError (msg : string)
| TypeError (msg : string)
| IndexError (msg : string)
| KeyError (key : string)
| AttributeError (msg : string)
| AssertionError
| Raised (msg : string).  (* an exception raised inside a collaborator *)

Inductive result (A : Type) :=
| Ok (a : A)
| Error (e : exn).
Arguments Ok {A} a.
Arguments Error {A} e.

Definition bind {A B} (m : result A) (k : A -> result B) : result B :=
  match m with
  | Ok a => k a
  | Error e => Error e
  end.

Definition is_error {A} (m : result A) : Prop :=
  match m with Ok _ => False | Error _ => True end.

(** [a + b] on [str]. *)
Definition str_add (a b : string) : string := String.append a b.

(** [c in s] for a one-character string [c]. *)
Fixpoint str_contains (c : ascii) (s : string) : bool :=
  match s with
  | EmptyString => false
  | String a s' => if Ascii.eqb a c then true else str_contains c s'
  end.

(** [s.split(c)] for a one-character separator: every occurrence of the
    separator ends a component, and the components may be empty. *)
Fixpoint str_split (c : ascii) (s : string) : list string :=
  match s with
  | EmptyString => [EmptyString]
  | String a s' =>
      if Ascii.eqb a c then EmptyString :: str_split c s'
      else match str_split c s' with
           | h :: t => String a h :: t
           | [] => [String a EmptyString]
           end
  end.

(** [sub in s] for strings. *)
Fixpoint str_prefix (p s : string) : bool :=
  match p, s with
  | EmptyString, _ => true
  | String a p', String b s' => Ascii.eqb a b && str_prefix p' s'
  | String _ _, EmptyString => false
  end.

Fixpoint str_in (sub s : string) : bool :=
  str_prefix sub s ||
  match s with
  | EmptyString => false
  | String _ s' => str_in sub s'
  end.

(** [posixpath.join(a, b)]. *)
Definition str_last (s : string) : option ascii :=
  match String.length s with
  | O => None
  | S n => String.get n s
  end.

Definition path_join (a b : string) : string :=
  match b with
  | String "/"%char _ => b
  | _ =>
      match str_last a with
      | None => b
      | Some "/"%char => str_add a b
      | Some _ => str_add a (str_add "/" b)
      end
  end.

End py.
Export py.

Declare Scope py_scope.
Delimit Scope py_scope with py.
Notation "'let*' x ':=' m 'in' k" := (py.bind m (fun x => k))
  (at level 10, x pattern, m at level 100, k at level 200) : py_scope.
#[local] Open Scope py_scope.

(** ** Python values held in the Pinnacle patient record *)

Module pyobj.

(** What [pinn_to_dict] produces: strings, integers, nested records and
    lists. *)
Inductive pyval :=
| PStr (s : string)
| PInt (z : Z)
| PDict (d : gmap string pyval)
| PList (l : list pyval).

Abbreviation dict := (gmap string pyval).

(** [str(v)]; the text of a record or a list is not needed by any caller
    modelled here and is left to the parameter [repr]. *)
Definition py_str (repr : pyval -> string) (v : pyval) : string :=
  match v with
  | PStr s => s
  | PInt z => pretty z
  | _ => repr v
  end.

(** [d[key]]. *)
Definition getitem (d : dict) (key : string) : result pyval :=
  match d !! key with
  | Some v => Ok v
  | None => Error (KeyError key)
  end.

(** [v[key]] for a string key on an arbitrary value. *)
Definition subscript_str (v : pyval) (key : string) : result pyval :=
  match v with
  | PDict d => getitem d key
  | PStr _ => Error (TypeError "string indices must be integers")
  | PList _ => Error (TypeError "list indices must be integers or slices, not str")
  | PInt _ => Error (TypeError "'int' object is not subscriptable")
  end.

Fixpoint chars (s : string) : list pyval :=
  match s with
  | EmptyString => []
  | String a s' => PStr (String a EmptyString) :: chars s'
  end.

(** The items a [for] loop over [v] visits.  (CPython visits the keys of a
    dict in insertion order, which a [gmap] does not record; the keys are
    listed in the map's own order.) *)
Definition iterate (v : pyval) : result (list pyval) :=
  match v with
  | PList l => Ok l
  | PStr s => Ok (chars s)
  | PDict d => Ok (PStr <$> (map_to_list d).*1)
  | PInt _ => Error (TypeError "'int' object is not iterable")
  end.

(** [a == b] where [b] is a [str]. *)
Definition eq_str (a : pyval) (b : string) : bool :=
  match a with
  | PStr s => String.eqb s b
  | _ => false
  end.

End pyobj.
Export pyobj.

(** ** pinnacle.py: the [Pinnacle] class *)

Module pinnacle.

(** [PinnaclePlan(pinnacle, path, plan)] and [PinnacleImage(pinnacle, path,
    image)]: the objects keep the path and the entry of the patient record
    they were built from (the back reference to the facade is the facade
    itself). *)
Record PinnaclePlan := mkPlan { plan_path : string; plan_entry : pyval }.
Record PinnacleImage := mkImage { image_path : string; image_entry : pyval }.

(** Mutable objects live in a store and are handed around by reference, so
    that two accesses can be told to return the same object or not. *)
Inductive obj :=
| ODict (d : dict)
| OPlans (l : list PinnaclePlan)
| OImages (l : list PinnacleImage).

Abbreviation ref := nat.

(** Calls that leave the facade. *)
Inductive event :=
| EvDebug (msg : string)                       (* self.logger.debug(msg) *)
| EvPinnToDict (path : string)                 (* pinn_to_dict(path) *)
| EvConvertImage (im : PinnacleImage) (export_path : string).

(** The attributes of an instance; [None] is Python's [None]. *)
Record Pinnacle := mkPinnacle {
  _path : string;
  _patient_info : option ref;
  _plans : option ref;
  _images : option ref
}.

Record state := mkState {
  self : Pinnacle;
  heap : list obj;
  trace : list event
}.

(** [Pinnacle(path)]. *)
Definition init (path : string) : state :=
  mkState (mkPinnacle path None None None) [] [].

Definition M (A : Type) : Type := state -> result A * state.

Definition ret {A} (a : A) : M A := fun st => (Ok a, st).

Definition raise {A} (e : exn) : M A := fun st => (Error e, st).

Definition lift {A} (r : result A) : M A := fun st => (r, st).

Definition mbind {A B} (m : M A) (k : A -> M B) : M B :=
  fun st =>
    match m st with
    | (Ok a, st') => k a st'
    | (Error e, st') => (Error e, st')
    end.

Declare Scope facade_scope.
Delimit Scope facade_scope with facade.
Notation "x <~ m ;; k" := (mbind m (fun x => k))
  (at level 100, m at next level, right associativity) : facade_scope.
Notation "m ;;; k" := (mbind m (fun _ => k))
  (at level 100, right associativity) : facade_scope.
#[local] Open Scope facade_scope.

Definition get_self : M Pinnacle := fun st => (Ok (self st), st).

Definition set_self (f : Pinnacle -> Pinnacle) : M unit :=
  fun st => (Ok tt, mkState (f (self st)) (heap st) (trace st)).

Definition log (ev : event) : M unit :=
  fun st => (Ok tt, mkState (self st) (heap st) (trace st ++ [ev])).

(** A new object; its reference is fresh. *)
Definition alloc (o : obj) : M ref :=
  fun st => (Ok (length (heap st)), mkState (self st) (heap st ++ [o]) (trace st)).

Definition deref (l : ref) : M obj :=
  fun st =>
    match heap st !! l with
    | Some o => (Ok o, st)
    | None => (Error (Raised "invalid reference"), st)
    end.

Definition store (l : ref) (o : obj) : M unit :=
  fun st => (Ok tt, mkState (self st) (<[l := o]> (heap st)) (trace st)).

(** [bool(x)] for an attribute that holds [None] or a container. *)
Definition truthy (r : option ref) : M bool :=
  match r with
  | None => ret false
  | Some l =>
      o <~ deref l ;;
      ret (match o with
           | ODict d => negb (Nat.eqb (size d) 0)
           | OPlans ps => negb (Nat.eqb (length ps) 0)
           | OImages ims => negb (Nat.eqb (length ims) 0)
           end)
  end.

(** [x[key]] where [x] is the value of a dict-holding attribute. *)
Definition dict_get (r : option ref) (key : string) : M pyval :=
  match r with
  | None => raise (TypeError "'NoneType' object is not subscriptable")
  | Some l =>
      o <~ deref l ;;
      match o with
      | ODict d => lift (getitem d key)
      | _ => raise (TypeError "list indices must be integers or slices, not str")
      end
  end.

(** [x[key] = v]. *)
Definition dict_set (r : option ref) (key : string) (v : pyval) : M unit :=
  match r with
  | None => raise (TypeError "'NoneType' object does not support item assignment")
  | Some l =>
      o <~ deref l ;;
      match o with
      | ODict d => store l (ODict (<[key := v]> d))
      | _ => raise (TypeError "list indices must be integers or slices, not str")
      end
  end.

Fixpoint for_each {A} (items : list A) (body : A -> M unit) : M unit :=
  match items with
  | [] => ret tt
  | a :: rest => body a ;;; for_each rest body
  end.

(** The date of birth handling of [patient_info], lines 113-125, for a
    [str]: the choice of the separator, the split, and the loop that pads
    and concatenates. *)
Definition dob_split (dobstr : string) : list string :=
  if str_contains "-" dobstr then str_split "-" dobstr
  else if str_contains "/" dobstr then str_split "/" dobstr
  else str_split " " dobstr.

Definition dob_step (dob num : string) : string :=
  let num := if Nat.eqb (String.length num) 1 then str_add "0" num else num in
  str_add dob num.

Definition dob_of (dobstr : string) : string :=
  fold_left dob_step (dob_split dobstr) "".

(** The same lines for whatever value the record holds. *)
Definition dob_of_value (dobstr : pyval) : result string :=
  match dobstr with
  | PStr s => Ok (dob_of s)
  | PInt _ => Error (TypeError "argument of type 'int' is not iterable")
  | PDict _ => Error (AttributeError "'dict' object has no attribute 'split'")
  | PList _ => Error (AttributeError "'list' object has no attribute 'split'")
  end.

Section Facade.

(** Collaborators: the reader of the Patient file, the header records of an
    image ([PinnacleImage.image_info]), the image converter (what it writes
    is outside the model, whether it raises is not), and [str] of a record
    or list. *)
Variable pinn_to_dict : string -> result dict.
Variable image_info : PinnacleImage -> result (list pyval).
Variable convert_image : PinnacleImage -> string -> result unit.
Variable repr : pyval -> string.

Definition full_name (last first middle : pyval) : string :=
  str_add (py_str repr last)
    (str_add "^" (str_add (py_str repr first)
       (str_add "^" (str_add (py_str repr middle) "^")))).

Definition patient_info : M (option ref) :=
  s <~ get_self ;;
  t <~ truthy (_patient_info s) ;;
  (if negb t then
     let path_patient := path_join (_path s) "Patient" in
     log (EvDebug (str_add "Reading patient data from: " path_patient)) ;;;
     log (EvPinnToDict path_patient) ;;;
     d <~ lift (pinn_to_dict path_patient) ;;
     l <~ alloc (ODict d) ;;
     set_self (fun s => mkPinnacle (_path s) (Some l) (_plans s) (_images s)) ;;;
     last <~ dict_get (Some l) "LastName" ;;
     first <~ dict_get (Some l) "FirstName" ;;
     middle <~ dict_get (Some l) "MiddleName" ;;
     dict_set (Some l) "FullName" (PStr (full_name last first middle)) ;;;
     dobstr <~ dict_get (Some l) "DateOfBirth" ;;
     dob <~ lift (dob_of_value dobstr) ;;
     dict_set (Some l) "DOB" (PStr dob)
   else ret tt) ;;;
  s <~ get_self ;;
  ret (_patient_info s).

Definition append_plan (r : option ref) (p : PinnaclePlan) : M unit :=
  match r with
  | None => raise (AttributeError "'NoneType' object has no attribute 'append'")
  | Some l =>
      o <~ deref l ;;
      match o with
      | OPlans ps => store l (OPlans (ps ++ [p]))
      | _ => raise (AttributeError "object has no attribute 'append'")
      end
  end.

Definition append_image (r : option ref) (im : PinnacleImage) : M unit :=
  match r with
  | None => raise (AttributeError "'NoneType' object has no attribute 'append'")
  | Some l =>
      o <~ deref l ;;
      match o with
      | OImages ims => store l (OImages (ims ++ [im]))
      | _ => raise (AttributeError "object has no attribute 'append'")
      end
  end.

Definition plans : M (option ref) :=
  s <~ get_self ;;
  t <~ truthy (_plans s) ;;
  (if negb t then
     l <~ alloc (OPlans []) ;;
     set_self (fun s => mkPinnacle (_path s) (_patient_info s) (Some l) (_images s)) ;;;
     info <~ patient_info ;;
     plan_list <~ dict_get info "PlanList" ;;
     items <~ lift (iterate plan_list) ;;
     for_each items (fun plan =>
       plan_id <~ lift (subscript_str plan "PlanID") ;;
       s <~ get_self ;;
       let path_plan := path_join (_path s) (str_add "Plan_" (py_str repr plan_id)) in
       append_plan (_plans s) (mkPlan path_plan plan))
   else ret tt) ;;;
  s <~ get_self ;;
  ret (_plans s).

Definition images : M (option ref) :=
  s <~ get_self ;;
  t <~ truthy (_images s) ;;
  (if negb t then
     l <~ alloc (OImages []) ;;
     set_self (fun s => mkPinnacle (_path s) (_patient_info s) (_plans s) (Some l)) ;;;
     info <~ patient_info ;;
     image_set_list <~ dict_get info "ImageSetList" ;;
     items <~ lift (iterate image_set_list) ;;
     for_each items (fun image =>
       s <~ get_self ;;
       append_image (_images s) (mkImage (_path s) image))
   else ret tt) ;;;
  s <~ get_self ;;
  ret (_images s).

(** [convert_image(im, export_path)]. *)
Definition call_convert_image (im : PinnacleImage) (export_path : string) : M unit :=
  log (EvConvertImage im export_path) ;;;
  lift (convert_image im export_path).

(** [im.image_info[0]['SeriesUID']]. *)
Definition first_series_uid (im : PinnacleImage) : result pyval :=
  let* info := image_info im in
  match info with
  | [] => Error (IndexError "list index out of range")
  | im_info :: _ => subscript_str im_info "SeriesUID"
  end.

(** The [for] loop of [export_image], lines 174-179; leaving the recursion
    is the [break]. *)
Fixpoint export_image_scan (ims : list PinnacleImage)
    (series_uid export_path : string) : M unit :=
  match ims with
  | [] => ret tt
  | im :: rest =>
      im_suid <~ lift (first_series_uid im) ;;
      if Nat.ltb 0 (String.length series_uid) && eq_str im_suid series_uid
      then call_convert_image im export_path
      else export_image_scan rest series_uid export_path
  end.

(** [for im in self.images]: the list the attribute refers to. *)
Definition images_list : M (list PinnacleImage) :=
  r <~ images ;;
  match r with
  | None => raise (TypeError "'NoneType' object is not iterable")
  | Some l =>
      o <~ deref l ;;
      match o with
      | OImages ims => ret ims
      | _ => raise (TypeError "object is not a list of images")
      end
  end.

Definition export_image (image : option PinnacleImage)
    (series_uid export_path : string) : M unit :=
  ims <~ images_list ;;
  export_image_scan ims series_uid export_path ;;;
  match image with
  | Some im => call_convert_image im export_path
  | None => ret tt
  end.

End Facade.

End pinnacle.

(** ** numpy: the arrays and array functions [dose.py] uses *)

Module np.

(** A three-dimensional array: its shape and its items in row-major order,
    item [(i, j, k)] of shape [(d0, d1, d2)] at offset [(i*d1 + j)*d2 + k]. *)
Record array3 (A : Type) := mkArray3 {
  shape3 : nat * nat * nat;
  data3 : list A
}.
Arguments mkArray3 {A} shape3 data3.
Arguments shape3 {A} a.
Arguments data3 {A} a.

(** An array of any dimension, as [np.squeeze] returns. *)
Record ndarray (A : Type) := mkNdarray {
  shape : list nat;
  data : list A
}.
Arguments mkNdarray {A} shape data.
Arguments shape {A} n.
Arguments data {A} n.

(** What [np.array(v, copy=False)] is for the depths and displacements a
    caller passes: a number (a 0-d array) or a sequence (a 1-d array). *)
Inductive array_like :=
| Scalar (v : Q)
| Vector (l : list Q).

(** [a + c] for a number [c]. *)
Definition add_scalar (a : array_like) (c : Q) : array_like :=
  match a with
  | Scalar v => Scalar (v + c)%Q
  | Vector l => Vector (map (fun v => (v + c)%Q) l)
  end.

Definition too_many_indices : exn :=
  IndexError "too many indices for array".

(** [a[:, None, None]], [a[None, :, None]] and [a[None, None, :]]. *)
Definition index_first (a : array_like) : result (array3 Q) :=
  match a with
  | Scalar _ => Error too_many_indices
  | Vector l => Ok (mkArray3 (length l, 1, 1) l)
  end.

Definition index_second (a : array_like) : result (array3 Q) :=
  match a with
  | Scalar _ => Error too_many_indices
  | Vector l => Ok (mkArray3 (1, length l, 1) l)
  end.

Definition index_third (a : array_like) : result (array3 Q) :=
  match a with
  | Scalar _ => Error too_many_indices
  | Vector l => Ok (mkArray3 (1, 1, length l) l)
  end.

(** The items of a [(m, n, p)] array listed in row-major order. *)
Definition tabulate3 {A} (m n p : nat) (f : nat -> nat -> nat -> A) : list A :=
  flat_map (fun i => flat_map (fun j => map (f i j) (seq 0 p)) (seq 0 n)) (seq 0 m).

Definition offset3 (sh : nat * nat * nat) (i j k : nat) : nat :=
  let '(_, d1, d2) := sh in (i * d1 + j) * d2 + k.

(** [a[i, j, k]]. *)
Definition item3 {A} (a : array3 A) (i j k : nat) : option A :=
  let '(d0, d1, d2) := shape3 a in
  if Nat.ltb i d0 && Nat.ltb j d1 && Nat.ltb k d2
  then data3 a !! offset3 (shape3 a) i j k
  else None.

(** Broadcasting: two lengths agree when they are equal or one of them
    is 1. *)
Definition broadcast_dim (a b : nat) : result nat :=
  if Nat.eqb a b then Ok a
  else if Nat.eqb a 1 then Ok b
  else if Nat.eqb b 1 then Ok a
  else Error (ValueError "shape mismatch: objects cannot be broadcast to a single shape").

Definition broadcast_shape (s t : nat * nat * nat) : result (nat * nat * nat) :=
  let '(s0, s1, s2) := s in
  let '(t0, t1, t2) := t in
  let* d0 := broadcast_dim s0 t0 in
  let* d1 := broadcast_dim s1 t1 in
  let* d2 := broadcast_dim s2 t2 in
  Ok (d0, d1, d2).

(** [np.broadcast_to(a, target)]: an axis of length 1 is read with stride 0. *)
Definition broadcast_to {A} (dflt : A) (target : nat * nat * nat)
    (a : array3 A) : array3 A :=
  let '(m, n, p) := target in
  let '(a0, a1, a2) := shape3 a in
  let stride (len i : nat) := if Nat.eqb len 1 then 0%nat else i in
  mkArray3 target
    (tabulate3 m n p (fun i j k =>
       nth (offset3 (shape3 a) (stride a0 i) (stride a1 j) (stride a2 k))
           (data3 a) dflt)).

(** [np.squeeze(a)]: the axes of length 1 are dropped. *)
Definition squeeze {A} (a : array3 A) : ndarray A :=
  let '(d0, d1, d2) := shape3 a in
  mkNdarray (List.filter (fun d => negb (Nat.eqb d 1)) [d0; d1; d2]) (data3 a).

(** [np.zeros(shape, dtype=bool)]. *)
Definition zeros (sh : nat * nat * nat) : array3 bool :=
  let '(d0, d1, d2) := sh in
  mkArray3 sh (repeat false (d0 * d1 * d2)).

(** [a[:, :, k] = a[:, :, k] | plane] for a plane given in row-major order. *)
Definition or_plane (a : array3 bool) (k : nat) (plane : list bool) : array3 bool :=
  let '(d0, d1, d2) := shape3 a in
  mkArray3 (shape3 a)
    (tabulate3 d0 d1 d2 (fun i j k' =>
       let b := nth (offset3 (shape3 a) i j k') (data3 a) false in
       if Nat.eqb k' k then b || nth (i * d1 + j) plane false else b)).

(** [a[mask]] for a boolean array [mask]: the shapes must agree; the items
    under a true entry come out in row-major order. *)
Definition shape_eqb (s t : nat * nat * nat) : bool :=
  let '(s0, s1, s2) := s in
  let '(t0, t1, t2) := t in
  Nat.eqb s0 t0 && Nat.eqb s1 t1 && Nat.eqb s2 t2.

Fixpoint select {A} (items : list A) (mask : list bool) : list A :=
  match items, mask with
  | a :: items', b :: mask' =>
      if b then a :: select items' mask' else select items' mask'
  | _, _ => []
  end.

Definition boolean_index {A} (a : array3 A) (mask : array3 bool) : result (list A) :=
  if shape_eqb (shape3 a) (shape3 mask)
  then Ok (select (data3 a) (data3 mask))
  else Error (IndexError "boolean index did not match indexed array").

(** [np.where(a == v)[0]] on a 1-d array. *)
Fixpoint where_eq_from (i : nat) (a : list Q) (v : Q) : list nat :=
  match a with
  | [] => []
  | x :: a' =>
      if Qeq_bool x v then i :: where_eq_from (S i) a' v
      else where_eq_from (S i) a' v
  end.

Definition where_eq (a : list Q) (v : Q) : list nat := where_eq_from 0 a v.

(** [int(a)] for an index array. *)
Definition int_of_array (a : list nat) : result nat :=
  match a with
  | [i] => Ok i
  | _ => Error (TypeError "only size-1 arrays can be converted to Python scalars")
  end.

(** [np.cumsum]. *)
Fixpoint cumsum_from (acc : nat) (l : list nat) : list nat :=
  match l with
  | [] => []
  | x :: l' => (acc + x)%nat :: cumsum_from (acc + x) l'
  end.

Definition cumsum (l : list nat) : list nat := cumsum_from 0 l.

(** [a / b] on integers is the true quotient; a zero divisor gives nan or
    inf, with a warning and no exception, which is [None] here. *)
Definition true_divide (a b : nat) : option Q :=
  if Nat.eqb b 0 then None
  else Some (inject_Z (Z.of_nat a) / inject_Z (Z.of_nat b))%Q.

Definition Qmin_list (l : list Q) (dflt : Q) : Q :=
  match l with
  | [] => dflt
  | x :: l' => fold_left (fun m v => if Qle_bool v m then v else m) l' x
  end.

Definition Qmax_list (l : list Q) (dflt : Q) : Q :=
  match l with
  | [] => dflt
  | x :: l' => fold_left (fun m v => if Qle_bool m v then v else m) l' x
  end.

(** [np.linspace(start, stop, num + 1)]. *)
Definition linspace (start stop : Q) (num : nat) : list Q :=
  map (fun i => (start + inject_Z (Z.of_nat i) * ((stop - start) / inject_Z (Z.of_nat num)))%Q)
      (seq 0 (S num)).

(** [np.histogram(a, bins)] for an integer [bins]: the range is the range of
    the data, [(0, 1)] without data, and widened by one half on either side
    when all data are equal; the item [v] falls into the bin
    [floor((v - first) * bins / (last - first))], and into the last bin when
    [v] is the last edge.  (numpy then moves an item by one bin when the
    rounding of this product put it on the wrong side of an edge; exact
    arithmetic never does.) *)
Definition outer_edges (a : list Q) : Q * Q :=
  let first := Qmin_list a 0%Q in
  let last := Qmax_list a 1%Q in
  if Qeq_bool first last then ((first - (1 # 2))%Q, (last + (1 # 2))%Q)
  else (first, last).

Definition bin_index (first last : Q) (bins : nat) (v : Q) : nat :=
  let norm := (inject_Z (Z.of_nat bins) / (last - first))%Q in
  let i := Z.to_nat (Qfloor ((v - first) * norm)) in
  if Nat.eqb i bins then (i - 1)%nat else i.

Definition bincount (idx : list nat) (minlength : nat) : list nat :=
  map (fun i => length (List.filter (Nat.eqb i) idx)) (seq 0 minlength).

Definition histogram (a : list Q) (bins : nat) : list nat * list Q :=
  let '(first, last) := outer_edges a in
  (bincount (map (bin_index first last bins) a) bins, linspace first last bins).

End np.

(** ** scipy.interpolate.RegularGridInterpolator, linear method, three axes *)

Module scipy.
Import np.

Record RegularGridInterpolator := mkInterpolator {
  grid : list Q * list Q * list Q;
  values : array3 Q
}.

Fixpoint strictly_ascending (p : list Q) : bool :=
  match p with
  | a :: ((b :: _) as p') => negb (Qle_bool b a) && strictly_ascending p'
  | _ => true
  end.

Definition check_axis (dim : nat) (p : list Q) (len : nat) : result unit :=
  if negb (strictly_ascending p)
  then Error (ValueError
         (str_add "The points in dimension "
            (str_add (pretty dim) " must be strictly ascending")))
  else if negb (Nat.eqb len (length p))
  then Error (ValueError
         (str_add "There are "
            (str_add (pretty (length p))
               (str_add " points and "
                  (str_add (pretty len)
                     (str_add " values in dimension " (pretty dim)))))))
  else Ok tt.

(** [RegularGridInterpolator(points, values)]. *)
Definition new (points : list Q * list Q * list Q) (vals : array3 Q)
    : result RegularGridInterpolator :=
  let '(p0, p1, p2) := points in
  let '(d0, d1, d2) := shape3 vals in
  let* _ := check_axis 0 p0 d0 in
  let* _ := check_axis 1 p1 d1 in
  let* _ := check_axis 2 p2 d2 in
  Ok (mkInterpolator points vals).

(** [np.searchsorted(g, v)]: the number of grid points below [v]. *)
Fixpoint searchsorted (g : list Q) (v : Q) : nat :=
  match g with
  | [] => 0
  | a :: g' => if Qle_bool v a then 0 else S (searchsorted g' v)
  end.

(** [_find_indices] on one axis: the index of the cell, clipped to the
    grid, and the distance into the cell as a fraction of its width.  An
    axis with a single point makes that width zero and the fraction nan,
    which is [None]. *)
Definition find_index (g : list Q) (v : Q) : option (nat * Q) :=
  let i := Nat.min (searchsorted g v - 1) (length g - 2) in
  match g !! i, g !! S i with
  | Some lo, Some hi =>
      if Qeq_bool (hi - lo) 0 then None
      else Some (i, ((v - lo) / (hi - lo))%Q)
  | _, _ => None
  end.

Definition weight (upper : bool) (t : Q) : Q :=
  if upper then t else (1 - t)%Q.

(** [_evaluate_linear] at one point: the eight corners of the cell in the
    order of [itertools.product]. *)
Definition corners : list (bool * bool * bool) :=
  [(false, false, false); (false, false, true); (false, true, false);
   (false, true, true); (true, false, false); (true, false, true);
   (true, true, false); (true, true, true)].

Definition edge (i : nat) (upper : bool) : nat := if upper then S i else i.

Definition evaluate_linear (f : RegularGridInterpolator) (pt : Q * Q * Q)
    : option Q :=
  let '(g0, g1, g2) := grid f in
  let '(v0, v1, v2) := pt in
  match find_index g0 v0, find_index g1 v1, find_index g2 v2 with
  | Some (i, t0), Some (j, t1), Some (k, t2) =>
      Some (fold_left
              (fun acc '(e0, e1, e2) =>
                 (acc + nth (offset3 (shape3 (values f)) (edge i e0) (edge j e1) (edge k e2))
                            (data3 (values f)) 0
                        * (weight e0 t0 * weight e1 t1 * weight e2 t2))%Q)
              corners 0%Q)
  | _, _, _ => None
  end.

(** The bounds test of [__call__] on one axis, for all requested points. *)
Definition check_bounds (dim : nat) (g : list Q) (p : list Q) : result unit :=
  match g with
  | [] => Error (IndexError "index 0 is out of bounds for axis 0 with size 0")
  | first :: _ =>
      let last := List.last g first in
      if forallb (fun v => Qle_bool first v) p && forallb (fun v => Qle_bool v last) p
      then Ok tt
      else Error (ValueError
             (str_add "One of the requested xi is out of bounds in dimension "
                (pretty dim)))
  end.

(** [interpolation((xi0, xi1, xi2))]: the three arrays are broadcast against
    each other and stacked into one array of points. *)
Definition call (f : RegularGridInterpolator)
    (xi : array3 Q * array3 Q * array3 Q) : result (array3 (option Q)) :=
  let '(xi0, xi1, xi2) := xi in
  let '(g0, g1, g2) := grid f in
  let* sh01 := broadcast_shape (shape3 xi0) (shape3 xi1) in
  let* sh := broadcast_shape sh01 (shape3 xi2) in
  let p0 := data3 (broadcast_to 0%Q sh xi0) in
  let p1 := data3 (broadcast_to 0%Q sh xi1) in
  let p2 := data3 (broadcast_to 0%Q sh xi2) in
  let* _ := check_bounds 0 g0 p0 in
  let* _ := check_bounds 1 g1 p1 in
  let* _ := check_bounds 2 g2 p2 in
  Ok (mkArray3 sh (map (evaluate_linear f) (zip (zip p0 p1) p2))).

End scipy.

(** ** matplotlib.pyplot: the calls are recorded *)

Module plt.

Inductive call :=
| plot (xs : list Q) (ys : list (option Q)) (label : string)
| title (s : string)
| xlabel (s : string)
| ylabel (s : string).

End plt.

(** ** dose.py *)

Module Point.
(** The named tuple [get_surface_entry_point_with_fallback] returns. *)
Record t := mk { x : Q; y : Q; z : Q }.
End Point.

Module dose.
Import np.

(** An RT Dose dataset, as far as [dose.py] reads it: the pixel array in the
    order pydicom gives it, the scaling, and the axes
    [xyz_axes_from_dataset] derives from the geometry of the dataset. *)
Record Dataset := mkDataset {
  pixel_array : array3 Z;
  DoseGridScaling : Q;
  x_axis : list Q;
  y_axis : list Q;
  z_axis : list Q
}.

Definition xyz_axes_from_dataset (ds : Dataset) : list Q * list Q * list Q :=
  (x_axis ds, y_axis ds, z_axis ds).

(** [ds.pixel_array * ds.DoseGridScaling].  (The function first sets the
    transfer syntax of the dataset, which no caller here reads.) *)
Definition dose_from_dataset (ds : Dataset) : array3 Q :=
  mkArray3 (shape3 (pixel_array ds))
    (map (fun v => (inject_Z v * DoseGridScaling ds)%Q) (data3 (pixel_array ds))).

Definition zyx_and_dose_from_dataset (dataset : Dataset)
    : (list Q * list Q * list Q) * array3 Q :=
  let '(x, y, z) := xyz_axes_from_dataset dataset in
  let coords := (z, y, x) in
  let dose := dose_from_dataset dataset in
  (coords, dose).

(** The [try] of lines 84-88 prints the axes and raises the exception
    again; what is printed is not part of the result. *)
Definition dicom_dose_interpolate
    (interp_coords : array_like * array_like * array_like)
    (dicom_dose_dataset : Dataset) : result (array3 (option Q)) :=
  let '(c0, c1, c2) := interp_coords in
  let* interp_z := index_first c0 in
  let* interp_y := index_second c1 in
  let* interp_x := index_third c2 in
  let '(coords, dose) := zyx_and_dose_from_dataset dicom_dose_dataset in
  let* interpolation := scipy.new coords dose in
  scipy.call interpolation (interp_z, interp_y, interp_x).

(** [l[i]] on a Python list. *)
Definition list_getitem {A} (l : list A) (i : nat) : result A :=
  match l !! i with
  | Some a => Ok a
  | None => Error (IndexError "list index out of range")
  end.

Fixpoint map_result {A B} (f : A -> result B) (l : list A) : result (list B) :=
  match l with
  | [] => Ok []
  | a :: l' =>
      let* b := f a in
      let* bs := map_result f l' in
      Ok (b :: bs)
  end.

(** [[item[0] for item in z_list]]. *)
Definition first_items (z_list : list (list Q)) : result (list Q) :=
  map_result (fun item => list_getitem item 0) z_list.

Definition _get_indices (z_list : list (list Q)) (z_val : Q) : result (list nat) :=
  let* indices := first_items z_list in
  let desired_indices := where_eq indices z_val in
  Ok desired_indices.

(** [np.meshgrid], [ravel], [vstack] and [swapaxes] of lines 206-207: the
    points of the grid, the x index running fastest. *)
Definition grid_points (x_dose y_dose : list Q) : list (Q * Q) :=
  flat_map (fun yv => map (fun xv => (xv, yv)) x_dose) y_dose.

Definition direction_error : exn :=
  ValueError
    "Expected direction to be equal to one of 'inplane', 'inline', 'crossplane', or 'crossline'".

Definition str_in_pair (s a b : string) : bool :=
  String.eqb s a || String.eqb s b.

Section Collaborators.

(** The RT Plan and the two functions of [rtplan] that read it; the
    RT Structure Set and [pull_structure]; the containment test of a
    [matplotlib.path.Path] built from the vertices of a contour. *)
Variable Plan : Type.
Variable require_gantries_be_zero : Plan -> result unit.
Variable get_surface_entry_point_with_fallback : Plan -> result Point.t.
Variable Struct : Type.
Variable pull_structure :
  string -> Struct -> result (list (list Q) * list (list Q) * list (list Q)).
Variable contains_point : list (Q * Q) -> Q * Q -> bool.

Definition depth_dose (depths : array_like) (dose_dataset : Dataset)
    (plan_dataset : Plan) : result (ndarray (option Q)) :=
  let* _ := require_gantries_be_zero plan_dataset in
  let* surface_entry_point := get_surface_entry_point_with_fallback plan_dataset in
  let depth_adjust := Point.y surface_entry_point in
  let y := add_scalar depths depth_adjust in
  let x := Vector [Point.x surface_entry_point] in
  let z := Vector [Point.z surface_entry_point] in
  let coords := (z, y, x) in
  let* interpolated := dicom_dose_interpolate coords dose_dataset in
  Ok (squeeze interpolated).

Definition profile (displacements : array_like) (depth : Q) (direction : string)
    (dose_dataset : Dataset) (plan_dataset : Plan)
    : result (ndarray (option Q)) :=
  let* _ := require_gantries_be_zero plan_dataset in
  let* surface_entry_point := get_surface_entry_point_with_fallback plan_dataset in
  let depth_adjust := Point.y surface_entry_point in
  let y := Vector [(depth + depth_adjust)%Q] in
  let* coords :=
    if str_in_pair direction "inplane" "inline" then
      Ok (add_scalar displacements (Point.z surface_entry_point),
          y, Vector [Point.x surface_entry_point])
    else if str_in_pair direction "crossplane" "crossline" then
      Ok (Vector [Point.z surface_entry_point], y,
          add_scalar displacements (Point.x surface_entry_point))
    else Error direction_error in
  let* interpolated := dicom_dose_interpolate coords dose_dataset in
  Ok (squeeze interpolated).

(** The vertices of contour [structure_index], lines 223-227. *)
Definition structure_polygon (x_structure y_structure : list (list Q))
    (structure_index : nat) : result (list (Q * Q)) :=
  let* xs := list_getitem x_structure structure_index in
  map_result
    (fun i =>
       let* xs := list_getitem x_structure structure_index in
       let* xv := list_getitem xs i in
       let* ys := list_getitem y_structure structure_index in
       let* yv := list_getitem ys i in
       Ok (xv, yv))
    (seq 0 (length xs)).

(** The body of the inner loop, lines 219-230. *)
Definition mask_contour (x_structure y_structure z_structure : list (list Q))
    (x_dose y_dose z_dose : list Q) (z_val : Q) (structure_index : nat)
    (mask : array3 bool) : result (array3 bool) :=
  let* dose_index := int_of_array (where_eq z_dose z_val) in
  let* zs := list_getitem z_structure structure_index in
  let* z0 := list_getitem zs 0 in
  let* zd := list_getitem z_dose dose_index in
  if negb (Qeq_bool z0 zd) then Error AssertionError
  else
    let* polygon := structure_polygon x_structure y_structure structure_index in
    let points := grid_points x_dose y_dose in
    Ok (or_plane mask dose_index (map (contains_point polygon) points)).

(** A [for] loop that carries the mask and stops at the first exception. *)
Fixpoint for_mask {A} (items : list A)
    (body : A -> array3 bool -> result (array3 bool)) (mask : array3 bool)
    : result (array3 bool) :=
  match items with
  | [] => Ok mask
  | a :: rest =>
      let* mask' := body a mask in
      for_mask rest body mask'
  end.

(** The body of the outer loop, lines 216-230. *)
Definition mask_slice (x_structure y_structure z_structure : list (list Q))
    (x_dose y_dose z_dose : list Q) (z_val : Q) (mask : array3 bool)
    : result (array3 bool) :=
  let* structure_indices := _get_indices z_structure z_val in
  for_mask structure_indices
    (mask_contour x_structure y_structure z_structure
       x_dose y_dose z_dose z_val)
    mask.

Definition get_dose_grid_structure_mask (structure_name : string)
    (dcm_struct : Struct) (dcm_dose : Dataset) : result (array3 bool) :=
  let '(x_dose, y_dose, z_dose) := xyz_axes_from_dataset dcm_dose in
  let* pulled := pull_structure structure_name dcm_struct in
  let '(x_structure, y_structure, z_structure) := pulled in
  let* structure_z_values := first_items z_structure in
  let mask := zeros (length y_dose, length x_dose, length z_dose) in
  for_mask structure_z_values
    (mask_slice x_structure y_structure z_structure x_dose y_dose z_dose)
    mask.

Definition find_dose_within_structure (structure_name : string)
    (dcm_struct : Struct) (dcm_dose : Dataset) : result (list Q) :=
  let dose := dose_from_dataset dcm_dose in
  let* mask := get_dose_grid_structure_mask structure_name dcm_struct dcm_dose in
  boolean_index dose mask.

(** Lines 245-255, from the dose values to what is plotted. *)
Definition dvh_curve (structure_dose_values : list Q)
    : result (list Q * list (option Q)) :=
  let hist := histogram structure_dose_values 100 in
  let freq := fst hist in
  let bin_edge := snd hist in
  let bin_mid := map (fun '(a, b) => ((a + b) / 2)%Q)
                     (zip (tail bin_edge) (removelast bin_edge)) in
  let cumulative := cumsum (rev freq) in
  let cumulative := rev cumulative in
  let bin_mid := 0%Q :: bin_mid in
  let* c0 := list_getitem cumulative 0 in
  let cumulative := c0 :: cumulative in
  let* c0 := list_getitem cumulative 0 in
  let percent_cumulative :=
    map (fun c => option_map (fun q => (q * 100)%Q) (true_divide c c0)) cumulative in
  Ok (bin_mid, percent_cumulative).

(** [create_dvh] has no [return]: its value is [None], here [tt], and what
    it produces are the calls on [matplotlib.pyplot]. *)
Definition create_dvh (structure : string) (dcm_struct : Struct)
    (dcm_dose : Dataset) : result (unit * list plt.call) :=
  let* structure_dose_values :=
    find_dose_within_structure structure dcm_struct dcm_dose in
  let* curve := dvh_curve structure_dose_values in
  let '(bin_mid, percent_cumulative) := curve in
  Ok (tt, [plt.plot bin_mid percent_cumulative structure;
           plt.title "DVH";
           plt.xlabel "Dose (Gy)";
           plt.ylabel "Relative Volume (%)"]).

End Collaborators.

End dose.

(** ** Definitions the statements below are written with *)

Module spec.
Import np.

(** The date-of-birth rule in the words of the specification: the separator
    is the first of '-', '/' and the space that occurs in the string; every
    component of one character gets a '0' in front; the components are
    concatenated. *)
Definition dob_separator (dobstr : string) : ascii :=
  if str_contains "-" dobstr then "-"%char
  else if str_contains "/" dobstr then "/"%char
  else " "%char.

Definition zero_pad (num : string) : string :=
  if Nat.eqb (String.length num) 1 then String "0" num else num.

Definition dob_normal_form (dobstr : string) : string :=
  String.concat "" (map zero_pad (str_split (dob_separator dobstr) dobstr)).

(** A coordinate lies within the axis of a grid: between its first and its
    last point. *)
Definition within (g : list Q) (v : Q) : bool :=
  match g with
  | [] => false
  | first :: _ => Qle_bool first v && Qle_bool v (List.last g first)
  end.

(** The number of dose values that are at least [e]. *)
Definition count_at_least (e : Q) (vals : list Q) : nat :=
  length (List.filter (fun v => Qle_bool e v) vals).

(** [count] out of [total], in percent. *)
Definition percent_of (count total : nat) : Q :=
  (inject_Z (Z.of_nat count) / inject_Z (Z.of_nat total) * 100)%Q.

(** The sums of the suffixes of a list: what a reverse cumulative sum is
    meant to be. *)
Fixpoint suffix_sums (l : list nat) : list nat :=
  match l with
  | [] => []
  | x :: l' => list_sum l :: suffix_sums l'
  end.

(** A sequence of numbers that does not go up; nan ([None]) is not
    comparable. *)
Fixpoint non_increasing (l : list (option Q)) : Prop :=
  match l with
  | Some a :: ((Some b :: _) as l') => (b <= a)%Q /\ non_increasing l'
  | [Some _] => True
  | [] => True
  | _ => False
  end.

(** An attribute of the facade is loaded when it refers to a container that
    holds something: then [not self._x] is false. *)
Definition holds_something (o : pinnacle.obj) : bool :=
  match o with
  | pinnacle.ODict d => negb (Nat.eqb (size d) 0)
  | pinnacle.OPlans ps => negb (Nat.eqb (length ps) 0)
  | pinnacle.OImages ims => negb (Nat.eqb (length ims) 0)
  end.

Definition loaded (r : option pinnacle.ref) (st : pinnacle.state) : Prop :=
  exists l o,
    r = Some l /\ pinnacle.heap st !! l = Some o /\ holds_something o = true.

(** The calls of [convert_image] among some events, in order. *)
Definition convert_calls (evs : list pinnacle.event)
    : list (pinnacle.PinnacleImage * string) :=
  flat_map (fun ev =>
              match ev with
              | pinnacle.EvConvertImage im export_path => [(im, export_path)]
              | _ => []
              end) evs.

(** The image the scan of [export_image] is after, in the words of the
    specification: the first image whose first header record has the given
    series UID, if the UID is not empty. *)
Definition series_uid_is (image_info : pinnacle.PinnacleImage -> result (list pyval))
    (series_uid : string) (im : pinnacle.PinnacleImage) : bool :=
  match pinnacle.first_series_uid image_info im with
  | Ok v => eq_str v series_uid
  | Error _ => false
  end.

Definition scan_target (image_info : pinnacle.PinnacleImage -> result (list pyval))
    (series_uid : string) (ims : list pinnacle.PinnacleImage)
    : option pinnacle.PinnacleImage :=
  if String.eqb series_uid "" then None
  else List.find (series_uid_is image_info series_uid) ims.

Definition option_list {A} (o : option A) : list A :=
  match o with
  | Some a => [a]
  | None => []
  end.

(** A relation between the state before and after that every step of a
    computation keeps is kept by the computation. *)
Definition keeps {A} (R : pinnacle.state -> pinnacle.state -> Prop)
    (m : pinnacle.M A) : Prop :=
  forall st r st', m st = (r, st') -> R st st'.

(** The objects of the store stay, and one that holds something keeps
    holding something. *)
Definition heap_grows (st st' : pinnacle.state) : Prop :=
  forall l o, pinnacle.heap st !! l = Some o ->
    exists o', pinnacle.heap st' !! l = Some o'
      /\ (holds_something o = true -> holds_something o' = true).

(** No loaded attribute is assigned. *)
Definition stable (st st' : pinnacle.state) : Prop :=
  heap_grows st st'
  /\ (loaded (pinnacle._patient_info (pinnacle.self st)) st ->
      pinnacle._patient_info (pinnacle.self st') =
      pinnacle._patient_info (pinnacle.self st))
  /\ (loaded (pinnacle._plans (pinnacle.self st)) st ->
      pinnacle._plans (pinnacle.self st') = pinnacle._plans (pinnacle.self st))
  /\ (loaded (pinnacle._images (pinnacle.self st)) st ->
      pinnacle._images (pinnacle.self st') = pinnacle._images (pinnacle.self st)).

(** The trace grows by events that are no calls of [convert_image]. *)
Definition quiet (st st' : pinnacle.state) : Prop :=
  exists evs,
    pinnacle.trace st' = (pinnacle.trace st ++ evs)%list /\ convert_calls evs = [].

(** The trace does not grow. *)
Definition silent (st st' : pinnacle.state) : Prop :=
  pinnacle.trace st' = pinnacle.trace st.

(** The events of converting some images, and a state with more events in
    its trace. *)
Definition converts (export_path : string) (ims : list pinnacle.PinnacleImage)
    : list pinnacle.event :=
  map (fun im => pinnacle.EvConvertImage im export_path) ims.

Definition logged (st : pinnacle.state) (evs : list pinnacle.event)
    : pinnacle.state :=
  pinnacle.mkState (pinnacle.self st) (pinnacle.heap st)
    (pinnacle.trace st ++ evs)%list.

(** The four direction keywords of [profile]. *)
Definition directions : list string :=
  ["inplane"; "inline"; "crossplane"; "crossline"].

Definition quoted (s : string) : string := str_add "'" (str_add s "'").

(** The contours [pull_structure] hands over are well shaped: as many
    x-lists and y-lists as z-lists, no contour without a point, and as many
    x-coordinates as y-coordinates in each contour. *)
Definition well_shaped (x_structure y_structure z_structure : list (list Q)) : Prop :=
  length x_structure = length z_structure
  /\ Forall (fun zs => zs <> []) z_structure
  /\ Forall2 (fun xs ys => length xs = length ys) x_structure y_structure.

(** What [int] raises for an array that does not hold exactly one item. *)
Definition size_1_error : exn :=
  TypeError "only size-1 arrays can be converted to Python scalars".

(** Every requested coordinate lies within the axis. *)
Definition all_within (g : list Q) (l : list Q) : bool := forallb (within g) l.

(** What [RegularGridInterpolator.__call__] raises for a point outside the
    grid, and the first of the axes z, y, x (dimensions 0, 1, 2) that has a
    requested coordinate outside. *)
Definition out_of_bounds (dim : nat) : exn :=
  ValueError
    (str_add "One of the requested xi is out of bounds in dimension " (pretty dim)).

Definition first_outside (ds : dose.Dataset) (zs ys xs : list Q) : nat :=
  if negb (all_within (dose.z_axis ds) zs) then 0%nat
  else if negb (all_within (dose.y_axis ds) ys) then 1%nat
  else 2%nat.

(** The entry of a mask at [(i, j, k)]. *)
Definition voxel (m : array3 bool) (i j k : nat) : bool :=
  nth (offset3 (shape3 m) i j k) (data3 m) false.

(** A mask over the dose grid as [get_dose_grid_structure_mask] builds it:
    rows, columns and slices. *)
Definition grid_mask (ds : dose.Dataset) (m : array3 bool) : Prop :=
  shape3 m =
    (length (dose.y_axis ds), length (dose.x_axis ds), length (dose.z_axis ds))
  /\ length (data3 m) =
     (length (dose.y_axis ds) * length (dose.x_axis ds) * length (dose.z_axis ds))%nat.

(** The point [pt] of the slice at [zd] lies inside one of the contours
    drawn on that slice. *)
Definition covered (contains_point : list (Q * Q) -> Q * Q -> bool)
    (x_structure y_structure z_structure : list (list Q))
    (zd : Q) (pt : Q * Q) : bool :=
  existsb
    (fun '(cx, cy, cz) =>
       match cz with
       | z0 :: _ => Qeq_bool z0 zd && contains_point (zip cx cy) pt
       | [] => false
       end)
    (zip (zip x_structure y_structure) z_structure).

(** The z of a contour is the z of exactly one slice of the dose grid. *)
Definition on_one_slice (z_dose : list Q) (contour_z : list Q) : Prop :=
  match contour_z with
  | z0 :: _ => exists d, where_eq z_dose z0 = [d]
  | [] => False
  end.

(** The two events of reading the Patient file. *)
Definition reads_patient (path : string) : list pinnacle.event :=
  [pinnacle.EvDebug
     (str_add "Reading patient data from: " (path_join path "Patient"));
   pinnacle.EvPinnToDict (path_join path "Patient")].

(** The plan object [plans] builds for an entry of the plan list. *)
Definition plan_for (repr : pyval -> string) (path : string) (plan : pyval)
    (p : pinnacle.PinnaclePlan) : Prop :=
  exists plan_id,
    subscript_str plan "PlanID" = Ok plan_id
    /\ p = pinnacle.mkPlan
             (path_join path (str_add "Plan_" (py_str repr plan_id))) plan.

(** The patient record after [patient_info] has added the two fields. *)
Definition with_name_and_dob (repr : pyval -> string) (d : dict)
    (last first middle : pyval) (dobstr : string) : dict :=
  <["DOB" := PStr (pinnacle.dob_of dobstr)]>
    (<["FullName" := PStr (pinnacle.full_name repr last first middle)]> d).

(** A string of decimal digits. *)
Definition is_digit (c : ascii) : bool :=
  Nat.leb 48 (nat_of_ascii c) && Nat.leb (nat_of_ascii c) 57.

Fixpoint digits (s : string) : bool :=
  match s with
  | EmptyString => true
  | String c s' => is_digit c && digits s'
  end.

(** The three separators the date of birth may be written with. *)
Definition dob_separators : list ascii := ["-"%char; "/"%char; " "%char].

End spec.

(** ** Sample data for the examples *)

Module sample.
Import np dose.

(** A containment test for the examples: the even-odd rule, by counting
    the edges of the polygon that a ray from the point to the right
    crosses. *)
Definition Qlt_bool (a b : Q) : bool := negb (Qle_bool b a).

Definition crosses (p a b : Q * Q) : bool :=
  let '(px, py) := p in
  let '(ax, ay) := a in
  let '(bx, by_) := b in
  negb (Bool.eqb (Qlt_bool py ay) (Qlt_bool py by_))
  && Qlt_bool px ((bx - ax) * (py - ay) / (by_ - ay) + ax)%Q.

Definition even_odd (polygon : list (Q * Q)) (p : Q * Q) : bool :=
  match polygon with
  | [] => false
  | v :: rest =>
      fold_left xorb
        (map (fun '(a, b) => crosses p a b) (zip polygon (rest ++ [v])))
        false
  end.

(** A structure set is a list of named contour sets (x, y and z lists, one
    item per contour); a missing name is the ValueError of
    [pull_structure]. *)
Definition Struct : Type :=
  list (string * (list (list Q) * list (list Q) * list (list Q))).

Fixpoint pull_structure (structure_name : string) (dcm_struct : Struct)
    : result (list (list Q) * list (list Q) * list (list Q)) :=
  match dcm_struct with
  | [] => Error (ValueError "Structure name not found (case sensitive)")
  | (name, contours) :: rest =>
      if String.eqb name structure_name then Ok contours
      else pull_structure structure_name rest
  end.

(** A square around the grid points with x and y in {0, 1}, drawn on the
    slice [z]. *)
Definition square (z : Q) : list (list Q) * list (list Q) * list (list Q) :=
  ([[-(1 # 2); 3 # 2; 3 # 2; -(1 # 2)]%Q],
   [[-(1 # 2); -(1 # 2); 3 # 2; 3 # 2]%Q],
   [[z; z; z; z]]).

(** A square that lies between the grid points. *)
Definition speck : list (list Q) * list (list Q) * list (list Q) :=
  ([[1 # 4; 3 # 4; 3 # 4; 1 # 4]%Q],
   [[1 # 4; 1 # 4; 3 # 4; 3 # 4]%Q],
   [[0; 0; 0; 0]%Q]).

Definition structures : Struct :=
  [("PTV", square 0); ("GAP", square (1 # 2)); ("SPECK", speck)].

(** A dose grid of 2 x 2 x 2 points and one of 2 frames, 2 rows and 3
    columns; the pixel values count up in the order of the pixel data. *)
Definition cube : Dataset :=
  mkDataset (mkArray3 (2, 2, 2)%nat [1; 2; 3; 4; 5; 6; 7; 8]%Z) (1 # 2)
    [0%Q; 1%Q] [0%Q; 1%Q] [0%Q; 1%Q].

Definition slab : Dataset :=
  mkDataset
    (mkArray3 (2, 2, 3)%nat [1; 2; 3; 4; 5; 6; 7; 8; 9; 10; 11; 12]%Z) (1 # 2)
    [0%Q; 1%Q; 2%Q] [0%Q; 1%Q] [0%Q; 1%Q].

(** A plan is its gantry angles and its surface entry point. *)
Definition Plan : Type := list Q * Point.t.

Definition require_gantries_be_zero (plan : Plan) : result unit :=
  if forallb (fun angle => Qeq_bool angle 0) (fst plan) then Ok tt
  else Error (ValueError "Only Gantry angles equal to 0.0 are currently supported").

Definition get_surface_entry_point_with_fallback (plan : Plan) : result Point.t :=
  Ok (snd plan).

Definition plan : Plan := ([0%Q], Point.mk (1 # 2) 0 (1 # 2)).

(** A patient record, and the one the examples read: no plans and three
    image sets. *)
Definition patient (plan_list image_set_list : list pyval) : dict :=
  <["LastName" := PStr "Doe"]>
  (<["FirstName" := PStr "Jane"]>
  (<["MiddleName" := PStr ""]>
  (<["DateOfBirth" := PStr "1990/1/2"]>
  (<["PlanList" := PList plan_list]>
  (<["ImageSetList" := PList image_set_list]> ∅))))).

Definition image_set (n : Z) : pyval := PDict (<["ImageSetID" := PInt n]> ∅).

Definition pinn_to_dict (path : string) : result dict :=
  Ok (patient [] [image_set 0; image_set 1; image_set 2]).

(** The header of an image set: the series UID is made of its number. *)
Definition image_info (im : pinnacle.PinnacleImage) : result (list pyval) :=
  match pinnacle.image_entry im with
  | PDict d =>
      match d !! "ImageSetID" with
      | Some (PInt n) => Ok [PDict (<["SeriesUID" := PStr (str_add "1.2." (pretty n))]> ∅)]
      | _ => Ok []
      end
  | _ => Ok []
  end.

Definition convert_image (im : pinnacle.PinnacleImage) (export_path : string)
    : result unit := Ok tt.

Definition repr (v : pyval) : string := "<object>".

End sample.

(** * Properties *)

#[local] Open Scope list_scope.

(** ** Strings *)

Section Strings.

Lemma str_add_empty_r (s : string) : str_add s "" = s.
Proof.
  unfold str_add. induction s as [|a s IH]; [reflexivity|].
  change (String a (String.append s "") = String a s). now rewrite IH.
Qed.

Lemma str_add_assoc (a b c : string) :
  str_add (str_add a b) c = str_add a (str_add b c).
Proof.
  unfold str_add. induction a as [|x a IH]; [reflexivity|].
  change (String x (String.append (String.append a b) c) =
          String x (String.append a (String.append b c))).
  now rewrite IH.
Qed.

Lemma str_split_not_nil (c : ascii) (s : string) : str_split c s <> [].
Proof.
  destruct s as [|a s]; simpl; [discriminate|].
  destruct (Ascii.eqb a c); [discriminate|].
  destruct (str_split c s); discriminate.
Qed.

Lemma concat_cons_char (sep : string) (a : ascii) (h : string) (t : list string) :
  String.concat sep (String a h :: t) = String a (String.concat sep (h :: t)).
Proof. destruct t; reflexivity. Qed.

(** Joining the components with the separator gives the string back. *)
Lemma str_split_join (c : ascii) (s : string) :
  String.concat (String c "") (str_split c s) = s.
Proof.
  induction s as [|a s IH]; simpl; [reflexivity|].
  destruct (Ascii.eqb a c) eqn:E.
  - apply Ascii.eqb_eq in E. subst a.
    destruct (str_split c s) as [|h t] eqn:Es.
    + now apply str_split_not_nil in Es.
    + simpl in *. now rewrite IH.
  - destruct (str_split c s) as [|h t] eqn:Es.
    + now apply str_split_not_nil in Es.
    + rewrite concat_cons_char. now rewrite IH.
Qed.

(** No component contains the separator. *)
Lemma str_split_free (c : ascii) (s : string) :
  Forall (fun part => str_contains c part = false) (str_split c s).
Proof.
  induction s as [|a s IH]; simpl.
  - constructor; [reflexivity|constructor].
  - destruct (Ascii.eqb a c) eqn:E.
    + constructor; [reflexivity|exact IH].
    + destruct (str_split c s) as [|h t].
      * constructor; [simpl; now rewrite E|constructor].
      * inversion IH; subst. constructor; [simpl; now rewrite E|assumption].
Qed.

(** A string without the separator is its own single component. *)
Lemma str_split_absent (c : ascii) (s : string) :
  str_contains c s = false -> str_split c s = [s].
Proof.
  induction s as [|a s IH]; simpl; [reflexivity|].
  destruct (Ascii.eqb a c); [discriminate|].
  intros H. now rewrite (IH H).
Qed.

Lemma dob_step_pad (dob num : string) :
  pinnacle.dob_step dob num = str_add dob (spec.zero_pad num).
Proof.
  unfold pinnacle.dob_step, spec.zero_pad.
  destruct (Nat.eqb (String.length num) 1); reflexivity.
Qed.

Lemma concat_empty_cons (h : string) (t : list string) :
  String.concat "" (h :: t) = str_add h (String.concat "" t).
Proof.
  destruct t as [|h' t]; simpl.
  - now rewrite str_add_empty_r.
  - reflexivity.
Qed.

(** The loop of lines 121-125 concatenates the padded components behind
    what it started with. *)
Lemma dob_loop (parts : list string) (dob : string) :
  fold_left pinnacle.dob_step parts dob =
  str_add dob (String.concat "" (map spec.zero_pad parts)).
Proof.
  revert dob. induction parts as [|num parts IH]; intros dob.
  - simpl. now rewrite str_add_empty_r.
  - cbn [fold_left map]. rewrite IH, dob_step_pad, concat_empty_cons.
    apply str_add_assoc.
Qed.

End Strings.

(** C6. For every date-of-birth string the facade's normalisation is the
    rule of the specification: the string is split on '-' if it contains
    one, otherwise on '/' if it contains one, otherwise on the space; the
    split is a real split (joining the components with the separator gives
    the string back, and no component contains the separator); every
    component of one character is padded with '0' on the left; the
    components are concatenated without separator.  The three delimiter
    conventions of the example all give "19900102". *)
Theorem dob_normalisation (dobstr : string) :
  pinnacle.dob_of dobstr = spec.dob_normal_form dobstr
  /\ pinnacle.dob_split dobstr = str_split (spec.dob_separator dobstr) dobstr
  /\ (str_contains "-" dobstr = true -> spec.dob_separator dobstr = "-"%char)
  /\ (str_contains "-" dobstr = false -> str_contains "/" dobstr = true ->
      spec.dob_separator dobstr = "/"%char)
  /\ (str_contains "-" dobstr = false -> str_contains "/" dobstr = false ->
      spec.dob_separator dobstr = " "%char)
  /\ String.concat (String (spec.dob_separator dobstr) "")
       (pinnacle.dob_split dobstr) = dobstr
  /\ Forall (fun part => str_contains (spec.dob_separator dobstr) part = false)
       (pinnacle.dob_split dobstr)
  /\ pinnacle.dob_of "1990-01-02" = "19900102"
  /\ pinnacle.dob_of "1990/1/2" = "19900102"
  /\ pinnacle.dob_of "1990 1 2" = "19900102".
Proof.
  assert (Hsplit : pinnacle.dob_split dobstr =
                   str_split (spec.dob_separator dobstr) dobstr).
  { unfold pinnacle.dob_split, spec.dob_separator.
    destruct (str_contains "-" dobstr); [reflexivity|].
    destruct (str_contains "/" dobstr); reflexivity. }
  repeat split.
  - unfold pinnacle.dob_of, spec.dob_normal_form.
    rewrite dob_loop, Hsplit. reflexivity.
  - exact Hsplit.
  - intros H. unfold spec.dob_separator. now rewrite H.
  - intros H1 H2. unfold spec.dob_separator. now rewrite H1, H2.
  - intros H1 H2. unfold spec.dob_separator. now rewrite H1, H2.
  - rewrite Hsplit. apply str_split_join.
  - rewrite Hsplit. apply str_split_free.
Qed.

(** ** Arrays in row-major order *)

Section Tabulate.
Import np.
Context {A : Type}.

Lemma flat_map_seq_length (g : nat -> list A) (len m : nat) :
  (forall i, length (g i) = len) ->
  length (flat_map g (seq 0 m)) = (m * len)%nat.
Proof.
  intros Hg. induction m as [|m IH]; [reflexivity|].
  rewrite seq_S, flat_map_app, length_app, IH. cbn [flat_map].
  rewrite app_nil_r, Hg. lia.
Qed.

(** Chunk [i] of a concatenation of chunks of one length starts at
    [i * len]. *)
Lemma flat_map_seq_lookup (g : nat -> list A) (len m i j : nat) :
  (forall i, length (g i) = len) ->
  (i < m)%nat -> (j < len)%nat ->
  flat_map g (seq 0 m) !! (i * len + j)%nat = g i !! j.
Proof.
  intros Hg. induction m as [|m IH]; intros Hi Hj; [lia|].
  rewrite seq_S, flat_map_app. cbn [flat_map Nat.add]. rewrite app_nil_r.
  destruct (decide (i < m)%nat) as [Hlt|Hge].
  - rewrite lookup_app_l; [now apply IH|].
    rewrite (flat_map_seq_length g len m Hg). nia.
  - assert (i = m) by lia. subst i.
    rewrite lookup_app_r; rewrite (flat_map_seq_length g len m Hg); [|lia].
    f_equal. lia.
Qed.

Lemma map_seq_lookup (g : nat -> A) (p k : nat) :
  (k < p)%nat -> map g (seq 0 p) !! k = Some (g k).
Proof.
  intros Hk. change (map g (seq 0 p)) with (g <$> seq 0 p).
  rewrite list_lookup_fmap, lookup_seq_lt by assumption. reflexivity.
Qed.

Lemma tabulate3_length (m n p : nat) (f : nat -> nat -> nat -> A) :
  length (tabulate3 m n p f) = (m * n * p)%nat.
Proof.
  unfold tabulate3.
  rewrite (flat_map_seq_length _ (n * p) m); [lia|].
  intros i. apply flat_map_seq_length.
  intros j. now rewrite length_map, length_seq.
Qed.

(** Item [(i, j, k)] of a tabulated array sits at its row-major offset. *)
Lemma tabulate3_lookup (m n p : nat) (f : nat -> nat -> nat -> A) (i j k : nat) :
  (i < m)%nat -> (j < n)%nat -> (k < p)%nat ->
  tabulate3 m n p f !! ((i * n + j) * p + k)%nat = Some (f i j k).
Proof.
  intros Hi Hj Hk. unfold tabulate3.
  replace ((i * n + j) * p + k)%nat with (i * (n * p) + (j * p + k))%nat by lia.
  rewrite (flat_map_seq_lookup _ (n * p) m i (j * p + k)); [| |assumption|nia].
  - rewrite (flat_map_seq_lookup _ p n j k); [| |assumption|assumption].
    + now apply map_seq_lookup.
    + intros j'. now rewrite length_map, length_seq.
  - intros i'. apply flat_map_seq_length.
    intros j'. now rewrite length_map, length_seq.
Qed.

Lemma tabulate3_In (m n p : nat) (f : nat -> nat -> nat -> A) (a : A) :
  In a (tabulate3 m n p f) ->
  exists i j k, (i < m)%nat /\ (j < n)%nat /\ (k < p)%nat /\ a = f i j k.
Proof.
  unfold tabulate3. intros H.
  apply in_flat_map in H as (i & Hi & H).
  apply in_flat_map in H as (j & Hj & H).
  apply in_map_iff in H as (k & Hk & H).
  apply in_seq in Hi, Hj, H.
  exists i, j, k. repeat split; try lia. now symmetry.
Qed.

Lemma tabulate3_forallb (m n p : nat) (f : nat -> nat -> nat -> A) (P : A -> bool) :
  (forall i j k, (i < m)%nat -> (j < n)%nat -> (k < p)%nat -> P (f i j k) = true) ->
  forallb P (tabulate3 m n p f) = true.
Proof.
  intros H. apply forallb_forall. intros a Ha.
  apply tabulate3_In in Ha as (i & j & k & Hi & Hj & Hk & ->). now apply H.
Qed.

End Tabulate.

(** ** Interpolation *)

Section Interpolation.
Import np dose.

Lemma broadcast_dim_1_r (a : nat) : broadcast_dim a 1 = Ok a.
Proof.
  unfold broadcast_dim. destruct (Nat.eqb a 1) eqn:E; [reflexivity|].
  reflexivity.
Qed.

Lemma broadcast_dim_1_l (b : nat) : broadcast_dim 1 b = Ok b.
Proof.
  unfold broadcast_dim. destruct (Nat.eqb 1 b) eqn:E; [|reflexivity].
  apply Nat.eqb_eq in E. now subst b.
Qed.

Lemma broadcast_shape_outer (m n p : nat) :
  broadcast_shape (m, 1%nat, 1%nat) (1%nat, n, 1%nat) = Ok (m, n, 1%nat)
  /\ broadcast_shape (m, n, 1%nat) (1%nat, 1%nat, p) = Ok (m, n, p).
Proof.
  unfold broadcast_shape.
  now rewrite !broadcast_dim_1_r, !broadcast_dim_1_l.
Qed.

Lemma new_ok pts vals f :
  scipy.new pts vals = Ok f -> f = scipy.mkInterpolator pts vals.
Proof.
  unfold scipy.new. destruct pts as [[p0 p1] p2].
  destruct (shape3 vals) as [[d0 d1] d2].
  destruct (scipy.check_axis 0 p0 d0); [|discriminate].
  destruct (scipy.check_axis 1 p1 d1); [|discriminate].
  destruct (scipy.check_axis 2 p2 d2); [|discriminate].
  simpl. congruence.
Qed.

Lemma stride_index (len i : nat) :
  (i < len)%nat -> (if Nat.eqb len 1 then 0%nat else i) = i.
Proof.
  destruct (Nat.eqb len 1) eqn:E; [|reflexivity].
  apply Nat.eqb_eq in E. lia.
Qed.

(** The three index expressions of lines 77-79, broadcast to the common
    shape, hold [z[i]], [y[j]] and [x[k]] at item [(i, j, k)]. *)
Lemma broadcast_first (zs : list Q) (n p : nat) :
  data3 (broadcast_to 0%Q (length zs, n, p) (mkArray3 (length zs, 1%nat, 1%nat) zs)) =
  tabulate3 (length zs) n p
    (fun i _ _ => nth (if Nat.eqb (length zs) 1 then 0%nat else i) zs 0%Q).
Proof.
  unfold broadcast_to. cbn [shape3 data3 offset3].
  unfold tabulate3. apply flat_map_ext. intros i. apply flat_map_ext. intros j.
  apply map_ext. intros k. f_equal. simpl. lia.
Qed.

Lemma broadcast_second (ys : list Q) (m p : nat) :
  data3 (broadcast_to 0%Q (m, length ys, p) (mkArray3 (1%nat, length ys, 1%nat) ys)) =
  tabulate3 m (length ys) p
    (fun _ j _ => nth (if Nat.eqb (length ys) 1 then 0%nat else j) ys 0%Q).
Proof.
  unfold broadcast_to. cbn [shape3 data3 offset3].
  unfold tabulate3. apply flat_map_ext. intros i. apply flat_map_ext. intros j.
  apply map_ext. intros k. f_equal. simpl. lia.
Qed.

Lemma broadcast_third (xs : list Q) (m n : nat) :
  data3 (broadcast_to 0%Q (m, n, length xs) (mkArray3 (1%nat, 1%nat, length xs) xs)) =
  tabulate3 m n (length xs)
    (fun _ _ k => nth (if Nat.eqb (length xs) 1 then 0%nat else k) xs 0%Q).
Proof.
  unfold broadcast_to. cbn [shape3 data3 offset3].
  unfold tabulate3. apply flat_map_ext. intros i. apply flat_map_ext. intros j.
  apply map_ext. intros k. f_equal.
Qed.

Lemma nth_stride (l : list Q) (i : nat) (v : Q) :
  l !! i = Some v -> nth (if Nat.eqb (length l) 1 then 0%nat else i) l 0%Q = v.
Proof.
  intros H. rewrite stride_index by (now apply lookup_lt_Some in H).
  now apply nth_lookup_Some.
Qed.

Lemma check_bounds_within (dim : nat) (g pts : list Q) :
  g <> [] ->
  (forall v, In v pts -> spec.within g v = true) ->
  scipy.check_bounds dim g pts = Ok tt.
Proof.
  intros Hg H. unfold scipy.check_bounds. destruct g as [|first g']; [done|].
  assert (H1 : forallb (fun v => Qle_bool first v) pts = true).
  { apply forallb_forall. intros v Hv. specialize (H v Hv).
    unfold spec.within in H. now apply andb_true_iff in H as [? _]. }
  assert (H2 : forallb (fun v => Qle_bool v (List.last (first :: g') first)) pts = true).
  { apply forallb_forall. intros v Hv. specialize (H v Hv).
    unfold spec.within in H. now apply andb_true_iff in H as [_ ?]. }
  now rewrite H1, H2.
Qed.

(** With three sequences the interpolation returns the grid of all
    combinations, provided the interpolator can be built and every requested
    coordinate lies within its axis. *)
Lemma interpolate_vectors (ds : Dataset) (zs ys xs : list Q)
    (f : scipy.RegularGridInterpolator) :
  scipy.new (z_axis ds, y_axis ds, x_axis ds) (dose_from_dataset ds) = Ok f ->
  z_axis ds <> [] -> y_axis ds <> [] -> x_axis ds <> [] ->
  (forall zi yj xk, In zi zs -> In yj ys -> In xk xs ->
     spec.within (z_axis ds) zi = true /\
     spec.within (y_axis ds) yj = true /\
     spec.within (x_axis ds) xk = true) ->
  exists r,
    dicom_dose_interpolate (Vector zs, Vector ys, Vector xs) ds = Ok r
    /\ shape3 r = (length zs, length ys, length xs)
    /\ length (data3 r) = (length zs * length ys * length xs)%nat
    /\ forall i j k zi yj xk,
         zs !! i = Some zi -> ys !! j = Some yj -> xs !! k = Some xk ->
         item3 r i j k = Some (scipy.evaluate_linear f (zi, yj, xk)).
Proof.
  intros Hnew Hz Hy Hx Hin.
  pose proof (new_ok _ _ _ Hnew) as Hf.
  unfold dicom_dose_interpolate. cbn [index_first index_second index_third bind].
  unfold zyx_and_dose_from_dataset, xyz_axes_from_dataset in *.
  cbn [fst snd] in *. rewrite Hnew. cbn [bind].
  unfold scipy.call. subst f. cbn [scipy.grid shape3].
  destruct (broadcast_shape_outer (length zs) (length ys) (length xs)) as [-> Hsh].
  cbn [bind]. rewrite Hsh. cbn [bind].
  rewrite broadcast_first, broadcast_second, broadcast_third.
  rewrite (check_bounds_within 0 (z_axis ds)); [cbn [bind]|assumption|].
  2:{ intros v Hv. apply tabulate3_In in Hv as (i & j & k & Hi & Hj & Hk & ->).
      destruct (lookup_lt_is_Some_2 zs i Hi) as [zi Hzi].
      destruct (lookup_lt_is_Some_2 ys j Hj) as [yj Hyj].
      destruct (lookup_lt_is_Some_2 xs k Hk) as [xk Hxk].
      rewrite (nth_stride _ _ _ Hzi).
      apply (Hin zi yj xk); apply list_elem_of_In; eapply list_elem_of_lookup_2; eassumption. }
  rewrite (check_bounds_within 1 (y_axis ds)); [cbn [bind]|assumption|].
  2:{ intros v Hv. apply tabulate3_In in Hv as (i & j & k & Hi & Hj & Hk & ->).
      destruct (lookup_lt_is_Some_2 zs i Hi) as [zi Hzi].
      destruct (lookup_lt_is_Some_2 ys j Hj) as [yj Hyj].
      destruct (lookup_lt_is_Some_2 xs k Hk) as [xk Hxk].
      rewrite (nth_stride _ _ _ Hyj).
      apply (Hin zi yj xk); apply list_elem_of_In; eapply list_elem_of_lookup_2; eassumption. }
  rewrite (check_bounds_within 2 (x_axis ds)); [cbn [bind]|assumption|].
  2:{ intros v Hv. apply tabulate3_In in Hv as (i & j & k & Hi & Hj & Hk & ->).
      destruct (lookup_lt_is_Some_2 zs i Hi) as [zi Hzi].
      destruct (lookup_lt_is_Some_2 ys j Hj) as [yj Hyj].
      destruct (lookup_lt_is_Some_2 xs k Hk) as [xk Hxk].
      rewrite (nth_stride _ _ _ Hxk).
      apply (Hin zi yj xk); apply list_elem_of_In; eapply list_elem_of_lookup_2; eassumption. }
  eexists. split; [reflexivity|]. cbn [shape3 data3].
  split; [reflexivity|].
  split.
  { rewrite length_map, !length_zip_with, !tabulate3_length. lia. }
  intros i j k zi yj xk Hzi Hyj Hxk.
  pose proof (lookup_lt_Some _ _ _ Hzi) as Hi.
  pose proof (lookup_lt_Some _ _ _ Hyj) as Hj.
  pose proof (lookup_lt_Some _ _ _ Hxk) as Hk.
  unfold item3. cbn [shape3 data3 offset3].
  apply Nat.ltb_lt in Hi as Hi', Hj as Hj', Hk as Hk'.
  rewrite Hi', Hj', Hk'. cbn [andb].
  match goal with |- map ?g ?l !! ?ix = _ => change (map g l) with (g <$> l) end.
  rewrite list_lookup_fmap, !lookup_zip_with.
  rewrite !tabulate3_lookup by assumption. cbn.
  rewrite (nth_stride _ _ _ Hzi), (nth_stride _ _ _ Hyj), (nth_stride _ _ _ Hxk).
  reflexivity.
Qed.
End Interpolation.

(** ** The structure mask *)

Section Mask.
Import np dose.

Lemma where_eq_from_In (s : nat) (a : list Q) (v : Q) (i : nat) :
  In i (where_eq_from s a v) <->
  exists j x, i = (s + j)%nat /\ a !! j = Some x /\ Qeq_bool x v = true.
Proof.
  revert s. induction a as [|y a IH]; intros s; simpl.
  - split; [tauto|]. intros (j & x & _ & H & _). discriminate.
  - destruct (Qeq_bool y v) eqn:E; simpl; rewrite IH; split.
    + intros [<-|(j & x & -> & H1 & H2)].
      * exists 0%nat, y. split; [lia|]. split; [reflexivity|assumption].
      * exists (S j), x. split; [lia|]. split; assumption.
    + intros (j & x & -> & H1 & H2). destruct j as [|j].
      * left. lia.
      * right. exists j, x. split; [lia|]. split; assumption.
    + intros (j & x & -> & H1 & H2).
      exists (S j), x. split; [lia|]. split; assumption.
    + intros (j & x & -> & H1 & H2). destruct j as [|j].
      * simpl in H1. congruence.
      * exists j, x. split; [lia|]. split; assumption.
Qed.

Lemma where_eq_In (a : list Q) (v : Q) (i : nat) :
  In i (where_eq a v) <-> exists x, a !! i = Some x /\ Qeq_bool x v = true.
Proof.
  unfold where_eq. rewrite where_eq_from_In. split.
  - intros (j & x & -> & H). now exists x.
  - intros (x & H). now exists i, x.
Qed.

(** A value none of the items equals is found nowhere. *)
Lemma where_eq_absent (a : list Q) (v : Q) :
  Forall (fun x => Qeq_bool x v = false) a -> where_eq a v = [].
Proof.
  intros H. destruct (where_eq a v) as [|i l] eqn:E; [reflexivity|].
  assert (Hi : In i (where_eq a v)) by (rewrite E; now left).
  apply where_eq_In in Hi as (x & Hx & Hv).
  rewrite Forall_forall in H.
  apply list_elem_of_lookup_2 in Hx. apply H in Hx. congruence.
Qed.

Lemma map_result_ok {B C} (f : B -> result C) (l : list B) :
  (forall b, In b l -> exists c, f b = Ok c) ->
  exists cs, map_result f l = Ok cs /\ length cs = length l.
Proof.
  induction l as [|b l IH]; intros H; simpl.
  - now exists [].
  - destruct (H b) as [c Hc]; [now left|]. rewrite Hc. simpl.
    destruct IH as (cs & Hcs & Hlen); [intros; apply H; now right|].
    rewrite Hcs. simpl. exists (c :: cs). split; [reflexivity|]. simpl. congruence.
Qed.

Lemma map_result_lookup {B C} (f : B -> result C) (l : list B) (cs : list C)
    (k : nat) (b : B) :
  map_result f l = Ok cs -> l !! k = Some b ->
  exists c, f b = Ok c /\ cs !! k = Some c.
Proof.
  revert cs k. induction l as [|b' l IH]; intros cs k H Hk; [discriminate|].
  simpl in H. destruct (f b') as [c'|] eqn:E; [|discriminate]. simpl in H.
  destruct (map_result f l) as [cs'|] eqn:E'; [|discriminate]. simpl in H.
  injection H as <-. destruct k as [|k]; simpl in *.
  - injection Hk as <-. now exists c'.
  - now apply IH.
Qed.

Lemma map_result_length {B C} (f : B -> result C) (l : list B) (cs : list C) :
  map_result f l = Ok cs -> length cs = length l.
Proof.
  revert cs. induction l as [|b l IH]; intros cs H; simpl in H.
  - now injection H as <-.
  - destruct (f b); [|discriminate]. simpl in H.
    destruct (map_result f l) as [cs'|]; [|discriminate]. simpl in H.
    injection H as <-. simpl. f_equal. now apply IH.
Qed.

(** A loop raises when the body raises at one of its items whatever the
    mask is by then. *)
Lemma for_mask_raises {B} (items : list B)
    (body : B -> array3 bool -> result (array3 bool)) (k : nat) (b : B) :
  items !! k = Some b ->
  (forall mask, is_error (body b mask)) ->
  forall mask, is_error (for_mask items body mask).
Proof.
  revert k. induction items as [|b' items IH]; intros k Hk Hb mask; [discriminate|].
  simpl. destruct k as [|k]; simpl in Hk.
  - injection Hk as ->. specialize (Hb mask). destruct (body b mask); [contradiction|exact I].
  - destruct (body b' mask) as [mask'|]; [|exact I]. simpl. now apply (IH k).
Qed.

Lemma for_mask_raises_exactly {B} (items : list B)
    (body : B -> array3 bool -> result (array3 bool)) (k : nat) (b : B) (e : exn) :
  items !! k = Some b ->
  (forall mask, body b mask = Error e) ->
  (forall b' mask, In b' items ->
     (exists mask', body b' mask = Ok mask') \/ body b' mask = Error e) ->
  forall mask, for_mask items body mask = Error e.
Proof.
  revert k. induction items as [|b' items IH]; intros k Hk Hb Hall mask; [discriminate|].
  simpl. destruct k as [|k]; simpl in Hk.
  - injection Hk as ->. now rewrite Hb.
  - destruct (Hall b' mask) as [[mask' ->]| ->]; [now left| |reflexivity].
    simpl. apply (IH k); [assumption|assumption|].
    intros b'' mask'' Hin. apply Hall. now right.
Qed.

Lemma for_mask_ok_or {B} (items : list B)
    (body : B -> array3 bool -> result (array3 bool)) (e : exn) :
  (forall b mask, In b items ->
     (exists mask', body b mask = Ok mask') \/ body b mask = Error e) ->
  forall mask,
    (exists mask', for_mask items body mask = Ok mask') \/
    for_mask items body mask = Error e.
Proof.
  induction items as [|b items IH]; intros Hall mask; simpl.
  - left. now exists mask.
  - destruct (Hall b mask) as [[mask' ->]| ->]; [now left| |now right].
    simpl. apply IH. intros b' mask'' Hin. apply Hall. now right.
Qed.


Lemma first_items_lookup (zs : list (list Q)) (zvals : list Q) (k : nat) (c : list Q) :
  first_items zs = Ok zvals -> zs !! k = Some c ->
  exists z, c !! 0%nat = Some z /\ zvals !! k = Some z.
Proof.
  intros H Hk. unfold first_items in H.
  destruct (map_result_lookup _ _ _ _ _ H Hk) as (z & Hz & Hv).
  exists z. split; [|assumption].
  unfold list_getitem in Hz. destruct (c !! 0%nat); congruence.
Qed.

Lemma first_items_ok (zs : list (list Q)) :
  Forall (fun c => c <> []) zs -> exists zvals, first_items zs = Ok zvals.
Proof.
  intros H. destruct (map_result_ok (fun item => list_getitem item 0) zs) as (cs & Hcs & _).
  - intros c Hc. rewrite Forall_forall in H.
    apply list_elem_of_In, H in Hc. destruct c as [|z c]; [done|]. now exists z.
  - now exists cs.
Qed.

Section Contours.
Context (contains_point : list (Q * Q) -> Q * Q -> bool).
Context (x_structure y_structure z_structure : list (list Q)).
Context (x_dose y_dose z_dose : list Q).
Context (zvals : list Q).
Hypothesis Hfirst : first_items z_structure = Ok zvals.

#[local] Abbreviation body :=
  (mask_slice contains_point x_structure y_structure z_structure
     x_dose y_dose z_dose).

(** The iteration for a z that the dose grid does not have raises at its
    first contour. *)
Lemma body_absent (k : nat) (zk : Q) (mask : array3 bool) :
  zvals !! k = Some zk ->
  Forall (fun d => Qeq_bool d zk = false) z_dose ->
  body zk mask = Error spec.size_1_error.
Proof.
  intros Hk Habs. unfold mask_slice, _get_indices. rewrite Hfirst. cbn [bind].
  destruct (where_eq zvals zk) as [|si rest] eqn:E.
  - assert (Hin : In k (where_eq zvals zk)).
    { apply where_eq_In. exists zk. split; [assumption|apply Qeq_bool_refl]. }
    rewrite E in Hin. destruct Hin.
  - cbn [for_mask]. unfold mask_contour.
    rewrite (where_eq_absent _ _ Habs). reflexivity.
Qed.

Hypothesis Hshape : spec.well_shaped x_structure y_structure z_structure.

Lemma structure_polygon_ok (si : nat) :
  (si < length z_structure)%nat ->
  exists polygon, structure_polygon x_structure y_structure si = Ok polygon.
Proof.
  intros Hsi. destruct Hshape as (Hlen & _ & Hxy).
  unfold structure_polygon.
  destruct (lookup_lt_is_Some_2 x_structure si) as [xs Hxs]; [lia|].
  destruct (Forall2_lookup_l _ _ _ _ _ Hxy Hxs) as (ys & Hys & Hl).
  unfold list_getitem at 1. rewrite Hxs. cbn [bind].
  destruct (map_result_ok
    (fun i =>
       let* xs := list_getitem x_structure si in
       let* xv := list_getitem xs i in
       let* ys := list_getitem y_structure si in
       let* yv := list_getitem ys i in
       Ok (xv, yv)) (seq 0 (length xs))) as (poly & Hpoly & _).
  - intros i Hi. apply in_seq in Hi.
    unfold list_getitem. rewrite Hxs, Hys. cbn [bind].
    destruct (lookup_lt_is_Some_2 xs i) as [xv ->]; [lia|].
    destruct (lookup_lt_is_Some_2 ys i) as [yv ->]; [lia|].
    cbn [bind]. now eexists.
  - now exists poly.
Qed.

Lemma mask_contour_ok_or (b : Q) (si : nat) (mask : array3 bool) :
  In si (where_eq zvals b) ->
  (exists mask',
     mask_contour contains_point x_structure y_structure z_structure
       x_dose y_dose z_dose b si mask = Ok mask')
  \/ mask_contour contains_point x_structure y_structure z_structure
       x_dose y_dose z_dose b si mask = Error spec.size_1_error.
Proof.
  intros Hsi. apply where_eq_In in Hsi as (z0 & Hz0 & Hz0b).
  unfold mask_contour.
  destruct (where_eq z_dose b) as [|di [|]] eqn:E; [now right| |now right].
  left. cbn [int_of_array bind].
  assert (Hdi : In di (where_eq z_dose b)) by (rewrite E; now left).
  apply where_eq_In in Hdi as (zd & Hzd & Hzdb).
  pose proof (map_result_length _ _ _ Hfirst) as Hlen.
  assert (Hlt : (si < length z_structure)%nat).
  { rewrite <- Hlen. now apply lookup_lt_Some in Hz0. }
  destruct (lookup_lt_is_Some_2 z_structure si Hlt) as [c Hc].
  destruct (first_items_lookup _ _ _ _ Hfirst Hc) as (z0' & Hc0 & Hz0').
  assert (z0' = z0) by congruence. subst z0'.
  unfold list_getitem at 1. rewrite Hc. cbn [bind].
  unfold list_getitem at 1. rewrite Hc0. cbn [bind].
  unfold list_getitem at 1. rewrite Hzd. cbn [bind].
  assert (Heq : Qeq_bool z0 zd = true).
  { apply Qeq_bool_trans with b; [assumption|]. now apply Qeq_bool_sym. }
  rewrite Heq. cbn [negb].
  destruct (structure_polygon_ok si Hlt) as [polygon ->]. cbn [bind].
  now eexists.
Qed.

Lemma body_ok_or (b : Q) (mask : array3 bool) :
  (exists mask', body b mask = Ok mask') \/ body b mask = Error spec.size_1_error.
Proof.
  unfold mask_slice, _get_indices. rewrite Hfirst. cbn [bind].
  apply for_mask_ok_or. intros si mask' Hsi. now apply mask_contour_ok_or.
Qed.

End Contours.

Section MaskTheorem.
Context (Struct : Type).
Context (pull_structure :
  string -> Struct -> result (list (list Q) * list (list Q) * list (list Q))).
Context (contains_point : list (Q * Q) -> Q * Q -> bool).

(** C4. When the contour set of a structure has a contour whose
    z-coordinate equals no z-coordinate of the dose grid,
    [get_dose_grid_structure_mask] raises: the slice is not skipped and no
    neighbouring slice is taken in its place.  With well-shaped contours the
    exception is the one [int] raises for the empty result of
    [np.where(z_dose == z_val)], which is what the specification calls the
    slice mismatch error. *)
Theorem structure_slice_mismatch_raises (structure_name : string)
    (dcm_struct : Struct) (dcm_dose : Dataset)
    (x_structure y_structure z_structure : list (list Q))
    (k : nat) (contour : list Q) (z_contour : Q) :
  pull_structure structure_name dcm_struct =
    Ok (x_structure, y_structure, z_structure) ->
  z_structure !! k = Some contour ->
  contour !! 0%nat = Some z_contour ->
  Forall (fun z => ~ z == z_contour) (z_axis dcm_dose) ->
  is_error (get_dose_grid_structure_mask Struct pull_structure contains_point
              structure_name dcm_struct dcm_dose)
  /\ (spec.well_shaped x_structure y_structure z_structure ->
      get_dose_grid_structure_mask Struct pull_structure contains_point
        structure_name dcm_struct dcm_dose = Error spec.size_1_error).
Proof.
  intros Hpull Hk Hz Habs.
  assert (Habs' : Forall (fun d => Qeq_bool d z_contour = false) (z_axis dcm_dose)).
  { eapply Forall_impl; [exact Habs|]. intros d Hd. cbv beta in Hd.
    destruct (Qeq_bool d z_contour) eqn:E; [|reflexivity].
    apply Qeq_bool_eq in E. contradiction. }
  unfold get_dose_grid_structure_mask, xyz_axes_from_dataset.
  rewrite Hpull. cbn [bind].
  destruct (first_items z_structure) as [zvals|e] eqn:Hfirst; cbn [bind].
  2:{ split; [exact I|]. intros (_ & Hne & _).
      destruct (first_items_ok _ Hne) as [zvals Hz']. congruence. }
  destruct (first_items_lookup _ _ _ _ Hfirst Hk) as (z' & Hz' & Hzk).
  assert (z' = z_contour) by congruence. subst z'.
  split.
  - apply (for_mask_raises _ _ k z_contour Hzk). intros mask.
    pose proof (body_absent contains_point x_structure y_structure z_structure
                  (x_axis dcm_dose) (y_axis dcm_dose) (z_axis dcm_dose)
                  zvals Hfirst k z_contour mask Hzk Habs') as Hb.
    rewrite Hb. exact I.
  - intros Hshape.
    apply (for_mask_raises_exactly _ _ k z_contour _ Hzk).
    + intros mask.
      exact (body_absent contains_point x_structure y_structure z_structure
               (x_axis dcm_dose) (y_axis dcm_dose) (z_axis dcm_dose)
               zvals Hfirst k z_contour mask Hzk Habs').
    + intros b mask _.
      exact (body_ok_or contains_point x_structure y_structure z_structure
               (x_axis dcm_dose) (y_axis dcm_dose) (z_axis dcm_dose)
               zvals Hfirst Hshape b mask).
Qed.

End MaskTheorem.
End Mask.

Section InterpolationClaim.
Import np dose.

(** C3. For three one-dimensional coordinate arrays [z], [y] and [x] of
    lengths m, n and p, [dicom_dose_interpolate] returns the array of shape
    (m, n, p) whose item (i, j, k) is the trilinear interpolation at the
    point (z[i], y[j], x[k]): the axes are broadcast against each other, not
    paired up.  It returns whenever the interpolator can be built from the
    dataset and every requested coordinate lies within its axis. *)
Theorem interpolation_outer_product (ds : Dataset) (zs ys xs : list Q)
    (f : scipy.RegularGridInterpolator) :
  scipy.new (z_axis ds, y_axis ds, x_axis ds) (dose_from_dataset ds) = Ok f ->
  z_axis ds <> [] -> y_axis ds <> [] -> x_axis ds <> [] ->
  (forall zi yj xk, In zi zs -> In yj ys -> In xk xs ->
     spec.within (z_axis ds) zi = true /\
     spec.within (y_axis ds) yj = true /\
     spec.within (x_axis ds) xk = true) ->
  exists r,
    dicom_dose_interpolate (Vector zs, Vector ys, Vector xs) ds = Ok r
    /\ shape3 r = (length zs, length ys, length xs)
    /\ length (data3 r) = (length zs * length ys * length xs)%nat
    /\ forall i j k,
         item3 r i j k =
         match zs !! i, ys !! j, xs !! k with
         | Some zi, Some yj, Some xk => Some (scipy.evaluate_linear f (zi, yj, xk))
         | _, _, _ => None
         end.
Proof.
  intros Hnew Hz Hy Hx Hin.
  destruct (interpolate_vectors ds zs ys xs f Hnew Hz Hy Hx Hin)
    as (r & Hr & Hsh & Hlen & Hitem).
  exists r. repeat split; try assumption.
  intros i j k.
  destruct (zs !! i) as [zi|] eqn:Hi.
  - destruct (ys !! j) as [yj|] eqn:Hj.
    + destruct (xs !! k) as [xk|] eqn:Hk; [now apply Hitem|].
      unfold item3. rewrite Hsh. apply lookup_ge_None in Hk.
      apply Nat.ltb_ge in Hk. rewrite Hk. now rewrite !andb_false_r.
    + unfold item3. rewrite Hsh. apply lookup_ge_None in Hj.
      apply Nat.ltb_ge in Hj. rewrite Hj. now rewrite !andb_false_r.
  - unfold item3. rewrite Hsh. apply lookup_ge_None in Hi.
    apply Nat.ltb_ge in Hi. now rewrite Hi.
Qed.

End InterpolationClaim.

Section Queries.
Import np dose.
Context (Plan : Type).
Context (require_gantries_be_zero : Plan -> result unit).
Context (get_surface_entry_point_with_fallback : Plan -> result Point.t).

Lemma Qplus_0_l_eq (q : Q) : (0 + q)%Q = q.
Proof.
  destruct q as [n d]. unfold Qplus. simpl. now rewrite Z.mul_1_r.
Qed.

Lemma within_not_nil (g : list Q) (v : Q) : spec.within g v = true -> g <> [].
Proof. destruct g; [discriminate|discriminate]. Qed.

(** A single point: the result of the interpolation squeezes to a 0-d
    array. *)
Lemma interpolate_point (ds : Dataset) (z y x : Q)
    (f : scipy.RegularGridInterpolator) :
  scipy.new (z_axis ds, y_axis ds, x_axis ds) (dose_from_dataset ds) = Ok f ->
  spec.within (z_axis ds) z = true ->
  spec.within (y_axis ds) y = true ->
  spec.within (x_axis ds) x = true ->
  exists r,
    dicom_dose_interpolate (Vector [z], Vector [y], Vector [x]) ds = Ok r
    /\ squeeze r = mkNdarray [] [scipy.evaluate_linear f (z, y, x)].
Proof.
  intros Hnew Hz Hy Hx.
  destruct (interpolate_vectors ds [z] [y] [x] f Hnew) as (r & Hr & Hsh & Hlen & Hitem).
  - now apply within_not_nil in Hz.
  - now apply within_not_nil in Hy.
  - now apply within_not_nil in Hx.
  - intros zi yj xk [<-|[]] [<-|[]] [<-|[]]. now repeat split.
  - exists r. split; [assumption|].
    specialize (Hitem 0 0 0 z y x eq_refl eq_refl eq_refl)%nat.
    unfold item3 in Hitem. unfold squeeze.
    destruct r as [sh dat]. cbn [shape3 data3] in *. subst sh.
    cbn in Hitem. cbn.
    destruct dat as [|v [|]]; try discriminate. cbn in Hitem. congruence.
Qed.

(** C5. For each of the four direction keywords, [profile] with the single
    displacement 0 at a depth and [depth_dose] with that single depth give
    the same result on the same plan and dose: the same exception if one is
    raised, and otherwise the same value.  For a gantry-zero plan whose entry
    point at that depth lies within the dose grid that value is the dose
    interpolated at the entry point moved down by the depth.  (Given as a
    bare number instead of a one-element sequence, the displacement and the
    depth both make the interpolation raise the same IndexError.) *)
Theorem profile_at_zero_is_depth_dose (depth : Q) (direction : string)
    (dose_dataset : Dataset) (plan_dataset : Plan) :
  In direction spec.directions ->
  profile Plan require_gantries_be_zero get_surface_entry_point_with_fallback
    (Vector [0%Q]) depth direction dose_dataset plan_dataset =
  depth_dose Plan require_gantries_be_zero get_surface_entry_point_with_fallback
    (Vector [depth]) dose_dataset plan_dataset
  /\ profile Plan require_gantries_be_zero get_surface_entry_point_with_fallback
       (Scalar 0%Q) depth direction dose_dataset plan_dataset =
     depth_dose Plan require_gantries_be_zero get_surface_entry_point_with_fallback
       (Scalar depth) dose_dataset plan_dataset
  /\ forall entry f,
       require_gantries_be_zero plan_dataset = Ok tt ->
       get_surface_entry_point_with_fallback plan_dataset = Ok entry ->
       scipy.new (z_axis dose_dataset, y_axis dose_dataset, x_axis dose_dataset)
         (dose_from_dataset dose_dataset) = Ok f ->
       spec.within (z_axis dose_dataset) (Point.z entry) = true ->
       spec.within (y_axis dose_dataset) (depth + Point.y entry)%Q = true ->
       spec.within (x_axis dose_dataset) (Point.x entry) = true ->
       depth_dose Plan require_gantries_be_zero get_surface_entry_point_with_fallback
         (Vector [depth]) dose_dataset plan_dataset =
       Ok (mkNdarray []
             [scipy.evaluate_linear f
                (Point.z entry, (depth + Point.y entry)%Q, Point.x entry)]).
Proof.
  intros Hdir.
  split; [|split].
  - unfold profile, depth_dose.
    destruct (require_gantries_be_zero plan_dataset); [|reflexivity]. cbn [bind].
    destruct (get_surface_entry_point_with_fallback plan_dataset) as [entry|];
      [|reflexivity].
    cbn [bind add_scalar map]. rewrite !Qplus_0_l_eq.
    cbv [spec.directions] in Hdir.
    destruct Hdir as [<-|[<-|[<-|[<-|[]]]]]; reflexivity.
  - unfold profile, depth_dose.
    destruct (require_gantries_be_zero plan_dataset); [|reflexivity]. cbn [bind].
    destruct (get_surface_entry_point_with_fallback plan_dataset) as [entry|];
      [|reflexivity].
    cbn [bind add_scalar map].
    cbv [spec.directions] in Hdir.
    destruct Hdir as [<-|[<-|[<-|[<-|[]]]]]; reflexivity.
  - intros entry f Hzero Hentry Hnew Hz Hy Hx.
    unfold depth_dose. rewrite Hzero, Hentry. cbn [bind add_scalar map].
    destruct (interpolate_point dose_dataset _ _ _ f Hnew Hz Hy Hx) as (r & -> & Hs).
    cbn [bind]. now rewrite Hs.
Qed.

(** C7. A direction that is none of the four keywords makes [profile]
    raise: it never falls back to an axis.  Once the plan has passed the
    gantry check and its entry point is known, the exception is the
    ValueError of lines 185-187, whose message names the four keywords. *)
Theorem profile_rejects_direction (displacements : array_like) (depth : Q)
    (direction : string) (dose_dataset : Dataset) (plan_dataset : Plan) :
  ~ In direction spec.directions ->
  is_error
    (profile Plan require_gantries_be_zero get_surface_entry_point_with_fallback
       displacements depth direction dose_dataset plan_dataset)
  /\ (forall entry,
        require_gantries_be_zero plan_dataset = Ok tt ->
        get_surface_entry_point_with_fallback plan_dataset = Ok entry ->
        profile Plan require_gantries_be_zero get_surface_entry_point_with_fallback
          displacements depth direction dose_dataset plan_dataset =
        Error direction_error)
  /\ exists msg,
       direction_error = ValueError msg
       /\ Forall (fun d => str_in (spec.quoted d) msg = true) spec.directions.
Proof.
  intros Hdir.
  assert (H1 : str_in_pair direction "inplane" "inline" = false).
  { unfold str_in_pair. apply orb_false_iff. split; apply String.eqb_neq;
      intros ->; apply Hdir; cbv [spec.directions In]; tauto. }
  assert (H2 : str_in_pair direction "crossplane" "crossline" = false).
  { unfold str_in_pair. apply orb_false_iff. split; apply String.eqb_neq;
      intros ->; apply Hdir; cbv [spec.directions In]; tauto. }
  split; [|split].
  - unfold profile.
    destruct (require_gantries_be_zero plan_dataset); [|exact I]. cbn [bind].
    destruct (get_surface_entry_point_with_fallback plan_dataset); [|exact I].
    cbn [bind]. rewrite H1, H2. exact I.
  - intros entry Hzero Hentry. unfold profile.
    rewrite Hzero, Hentry. cbn [bind]. now rewrite H1, H2.
  - eexists. split; [reflexivity|].
    repeat constructor.
Qed.

End Queries.

(** ** The dose volume histogram *)

Section Histogram.
Import np dose.

(** *** Cumulative sums *)

Lemma cumsum_from_snoc (acc : nat) (l : list nat) (x : nat) :
  cumsum_from acc (l ++ [x]) = cumsum_from acc l ++ [(acc + list_sum l + x)%nat].
Proof.
  revert acc. induction l as [|y l IH]; intros acc; simpl.
  - f_equal. lia.
  - rewrite IH. do 3 f_equal. lia.
Qed.

Lemma list_sum_rev (l : list nat) : list_sum (rev l) = list_sum l.
Proof.
  induction l as [|x l IH]; [reflexivity|].
  simpl. rewrite list_sum_app, IH. simpl. lia.
Qed.

(** Lines 250-251 compute the sums of the suffixes. *)
Lemma rev_cumsum_rev (l : list nat) :
  rev (cumsum (rev l)) = spec.suffix_sums l.
Proof.
  unfold cumsum. induction l as [|x l IH]; [reflexivity|].
  cbn [rev spec.suffix_sums]. rewrite cumsum_from_snoc, rev_app_distr, IH.
  cbn [rev app]. rewrite list_sum_rev. f_equal. simpl. lia.
Qed.

Lemma suffix_sums_length (l : list nat) : length (spec.suffix_sums l) = length l.
Proof. induction l as [|x l IH]; [reflexivity|]. cbn [spec.suffix_sums length]. now rewrite IH. Qed.

Lemma suffix_sums_lookup (l : list nat) (i : nat) :
  (i < length l)%nat -> spec.suffix_sums l !! i = Some (list_sum (drop i l)).
Proof.
  revert i. induction l as [|x l IH]; intros i Hi; simpl in Hi; [lia|].
  destruct i as [|i]; [reflexivity|].
  cbn [spec.suffix_sums]. rewrite lookup_cons. apply IH. lia.
Qed.

(** *** Counting the items of a bin *)

Lemma count_range_step (idx : list nat) (i k : nat) :
  (length (List.filter (Nat.eqb i) idx) +
   length (List.filter (fun x => Nat.leb (S i) x && Nat.ltb x (S i + k)) idx))%nat =
  length (List.filter (fun x => Nat.leb i x && Nat.ltb x (i + S k)) idx).
Proof.
  induction idx as [|x idx IH]; [reflexivity|].
  cbn [List.filter].
  destruct (Nat.eqb_spec i x) as [->|Hne].
  - replace (Nat.leb (S x) x) with false by (symmetry; apply Nat.leb_gt; lia).
    replace (Nat.leb x x) with true by (symmetry; apply Nat.leb_le; lia).
    replace (Nat.ltb x (x + S k)) with true by (symmetry; apply Nat.ltb_lt; lia).
    cbn [andb length]. lia.
  - destruct (Nat.leb_spec (S i) x) as [Hle|Hgt].
    + replace (Nat.leb i x) with true by (symmetry; apply Nat.leb_le; lia).
      replace (Nat.ltb x (i + S k)) with (Nat.ltb x (S i + k)) by (f_equal; lia).
      cbn [andb]. destruct (Nat.ltb x (S i + k)); cbn [length]; lia.
    + replace (Nat.leb i x) with false by (symmetry; apply Nat.leb_gt; lia).
      cbn [andb]. exact IH.
Qed.

Lemma list_sum_counts (idx : list nat) (i k : nat) :
  list_sum (map (fun j => length (List.filter (Nat.eqb j) idx)) (seq i k)) =
  length (List.filter (fun x => Nat.leb i x && Nat.ltb x (i + k)) idx).
Proof.
  revert i. induction k as [|k IH]; intros i.
  - cbn [seq map list_sum]. induction idx as [|x idx IHx]; [reflexivity|].
    cbn [List.filter].
    replace (Nat.leb i x && Nat.ltb x (i + 0)) with false; [exact IHx|].
    symmetry. apply andb_false_iff.
    destruct (Nat.leb_spec i x); [right; apply Nat.ltb_ge; lia|now left].
  - change (seq i (S k)) with (i :: seq (S i) k). cbn [map].
    change (list_sum (?a :: ?l)) with (a + list_sum l)%nat.
    rewrite IH. apply count_range_step.
Qed.

Lemma filter_length_ext {A} (P R : A -> bool) (l : list A) :
  (forall a, In a l -> P a = R a) ->
  length (List.filter P l) = length (List.filter R l).
Proof.
  induction l as [|a l IH]; intros H; [reflexivity|].
  cbn [List.filter]. rewrite (H a) by now left.
  destruct (R a); cbn [length]; rewrite IH; auto; intros; apply H; now right.
Qed.

Lemma filter_map_length {A B} (g : A -> B) (P : B -> bool) (l : list A) :
  length (List.filter P (map g l)) = length (List.filter (fun a => P (g a)) l).
Proof.
  induction l as [|a l IH]; [reflexivity|].
  cbn [map List.filter]. destruct (P (g a)); cbn [length]; now rewrite IH.
Qed.

(** The sum of the counts of the bins from [i] on is the number of items
    whose bin is at least [i]. *)
Lemma bincount_suffix (idx : list nat) (n i : nat) :
  (i <= n)%nat -> Forall (fun x => (x < n)%nat) idx ->
  list_sum (drop i (bincount idx n)) =
  length (List.filter (fun x => Nat.leb i x) idx).
Proof.
  intros Hi Hidx. unfold bincount.
  change (map ?g (seq 0 n)) with (g <$> seq 0 n).
  rewrite <- fmap_drop, drop_seq.
  change (?g <$> seq (0 + i) (n - i)) with (map g (seq (0 + i) (n - i))).
  rewrite list_sum_counts. apply filter_length_ext.
  intros x Hx. rewrite Forall_forall in Hidx.
  apply list_elem_of_In, Hidx in Hx.
  replace (Nat.ltb x (0 + i + (n - i))) with true; [now rewrite andb_true_r|].
  symmetry. apply Nat.ltb_lt. lia.
Qed.



(** *** The range of the data *)

Lemma Qmin_fold_le (l : list Q) (m : Q) :
  (fold_left (fun m v => if Qle_bool v m then v else m) l m <= m)%Q
  /\ (forall v, In v l ->
        (fold_left (fun m v => if Qle_bool v m then v else m) l m <= v)%Q).
Proof.
  revert m. induction l as [|x l IH]; intros m; cbn [fold_left].
  - split; [lra|]. intros v [].
  - destruct (Qle_bool x m) eqn:E.
    + apply Qle_bool_iff in E. destruct (IH x) as [H1 H2]. split; [lra|].
      intros v [<-|Hv]; [assumption|now apply H2].
    + assert (m < x)%Q.
      { apply Qnot_le_lt. intros H. apply Qle_bool_iff in H. congruence. }
      destruct (IH m) as [H1 H2]. split; [assumption|].
      intros v [<-|Hv]; [lra|now apply H2].
Qed.

Lemma Qmax_fold_ge (l : list Q) (m : Q) :
  (m <= fold_left (fun m v => if Qle_bool m v then v else m) l m)%Q
  /\ (forall v, In v l ->
        (v <= fold_left (fun m v => if Qle_bool m v then v else m) l m)%Q).
Proof.
  revert m. induction l as [|x l IH]; intros m; cbn [fold_left].
  - split; [lra|]. intros v [].
  - destruct (Qle_bool m x) eqn:E.
    + apply Qle_bool_iff in E. destruct (IH x) as [H1 H2]. split; [lra|].
      intros v [<-|Hv]; [assumption|now apply H2].
    + assert (x < m)%Q.
      { apply Qnot_le_lt. intros H. apply Qle_bool_iff in H. congruence. }
      destruct (IH m) as [H1 H2]. split; [assumption|].
      intros v [<-|Hv]; [lra|now apply H2].
Qed.

Lemma Qmin_fold_In (l : list Q) (m : Q) :
  In (fold_left (fun m v => if Qle_bool v m then v else m) l m) (m :: l).
Proof.
  revert m. induction l as [|x l IH]; intros m; cbn [fold_left]; [now left|].
  destruct (Qle_bool x m).
  - right. apply IH.
  - destruct (IH m) as [H|H]; [now left|right; now right].
Qed.

Lemma Qmax_fold_In (l : list Q) (m : Q) :
  In (fold_left (fun m v => if Qle_bool m v then v else m) l m) (m :: l).
Proof.
  revert m. induction l as [|x l IH]; intros m; cbn [fold_left]; [now left|].
  destruct (Qle_bool m x).
  - right. apply IH.
  - destruct (IH m) as [H|H]; [now left|right; now right].
Qed.

(** The least and the greatest of the values are values and bound all of
    them. *)
Lemma Qmin_list_spec (a : list Q) (dflt : Q) :
  a <> [] ->
  In (Qmin_list a dflt) a /\ forall v, In v a -> (Qmin_list a dflt <= v)%Q.
Proof.
  destruct a as [|x a]; [done|]. intros _. cbn [Qmin_list].
  split; [apply Qmin_fold_In|].
  destruct (Qmin_fold_le a x) as [H1 H2].
  intros v [<-|Hv]; [assumption|now apply H2].
Qed.

Lemma Qmax_list_spec (a : list Q) (dflt : Q) :
  a <> [] ->
  In (Qmax_list a dflt) a /\ forall v, In v a -> (v <= Qmax_list a dflt)%Q.
Proof.
  destruct a as [|x a]; [done|]. intros _. cbn [Qmax_list].
  split; [apply Qmax_fold_In|].
  destruct (Qmax_fold_ge a x) as [H1 H2].
  intros v [<-|Hv]; [assumption|now apply H2].
Qed.

(** The outer edges of the histogram enclose the data and are apart. *)
Lemma outer_edges_spec (a : list Q) :
  (fst (outer_edges a) < snd (outer_edges a))%Q
  /\ forall v, In v a -> (fst (outer_edges a) <= v <= snd (outer_edges a))%Q.
Proof.
  unfold outer_edges. destruct a as [|x a].
  - cbn. split; [reflexivity|]. intros v [].
  - set (l := x :: a).
    destruct (Qmin_list_spec l 0%Q) as [Hmin_in Hmin]; [done|].
    destruct (Qmax_list_spec l 1%Q) as [Hmax_in Hmax]; [done|].
    pose proof (Hmin _ Hmax_in) as Hle.
    destruct (Qeq_bool (Qmin_list l 0%Q) (Qmax_list l 1%Q)) eqn:E; cbn [fst snd].
    + apply Qeq_bool_eq in E. split; [lra|].
      intros v Hv. specialize (Hmin v Hv). specialize (Hmax v Hv). lra.
    + apply Qeq_bool_neq in E. split; [lra|].
      intros v Hv. split; [now apply Hmin|now apply Hmax].
Qed.

(** *** Bins and edges *)

Lemma inject_nat_nonneg (n : nat) : (0 <= inject_Z (Z.of_nat n))%Q.
Proof. change 0%Q with (inject_Z 0). rewrite <- Zle_Qle. lia. Qed.

Lemma inject_nat_pos (n : nat) : (0 < n)%nat -> (0 < inject_Z (Z.of_nat n))%Q.
Proof. intros H. change 0%Q with (inject_Z 0). rewrite <- Zlt_Qlt. lia. Qed.

(** Edge [i] of the bins, as [np.linspace] lays them out. *)
Lemma linspace_lookup (start stop : Q) (num i : nat) :
  (i <= num)%nat ->
  linspace start stop num !! i =
  Some (start + inject_Z (Z.of_nat i) * ((stop - start) / inject_Z (Z.of_nat num)))%Q.
Proof.
  intros Hi. unfold linspace. rewrite map_seq_lookup by lia. reflexivity.
Qed.

Lemma linspace_length (start stop : Q) (num : nat) :
  length (linspace start stop num) = S num.
Proof. unfold linspace. now rewrite length_map, length_seq. Qed.

Section BinIndex.
Context (first last : Q) (bins : nat).
Hypothesis Hrange : (first < last)%Q.
Hypothesis Hbins : (0 < bins)%nat.

#[local] Abbreviation width := ((last - first) / inject_Z (Z.of_nat bins))%Q.

Lemma width_pos : (0 < width)%Q.
Proof.
  unfold width. apply Qlt_shift_div_l; [now apply inject_nat_pos|]. lra.
Qed.

Lemma scaled_position (v : Q) :
  ((v - first) * (inject_Z (Z.of_nat bins) / (last - first)) * width == v - first)%Q.
Proof.
  unfold width. pose proof (inject_nat_pos bins Hbins). field. split; lra.
Qed.

Lemma bin_index_lt (v : Q) :
  (first <= v <= last)%Q -> (bin_index first last bins v < bins)%nat.
Proof.
  intros [Hlo Hhi]. unfold bin_index.
  set (t := ((v - first) * (inject_Z (Z.of_nat bins) / (last - first)))%Q).
  pose proof (scaled_position v) as Ht. fold t in Ht.
  pose proof width_pos as Hw.
  assert (Hb : (width * inject_Z (Z.of_nat bins) == last - first)%Q).
  { unfold width. pose proof (inject_nat_pos bins Hbins). field. lra. }
  assert (Htb : (t <= inject_Z (Z.of_nat bins))%Q) by nra.
  assert (Hfl : (Qfloor t <= Z.of_nat bins)%Z).
  { rewrite <- (Qfloor_Z (Z.of_nat bins)). now apply Qfloor_resp_le. }
  destruct (Nat.eqb_spec (Z.to_nat (Qfloor t)) bins) as [E|E]; lia.
Qed.

(** An item lies in bin [i] or above exactly when it is at least edge
    [i]. *)
Lemma bin_index_ge (v : Q) (i : nat) :
  (first <= v <= last)%Q -> (i < bins)%nat ->
  Nat.leb i (bin_index first last bins v) =
  Qle_bool (first + inject_Z (Z.of_nat i) * width) v.
Proof.
  intros [Hlo Hhi] Hi. unfold bin_index.
  set (t := ((v - first) * (inject_Z (Z.of_nat bins) / (last - first)))%Q).
  pose proof (scaled_position v) as Ht. fold t in Ht.
  pose proof width_pos as Hw.
  assert (Ht0 : (0 <= t)%Q) by nra.
  assert (Hfl0 : (0 <= Qfloor t)%Z).
  { rewrite <- (Qfloor_Z 0). now apply Qfloor_resp_le. }
  destruct (Qle_bool (first + inject_Z (Z.of_nat i) * width) v) eqn:E.
  - apply Qle_bool_iff in E. apply Nat.leb_le.
    assert (Hit : (inject_Z (Z.of_nat i) <= t)%Q) by nra.
    assert (Hif : (Z.of_nat i <= Qfloor t)%Z).
    { rewrite <- (Qfloor_Z (Z.of_nat i)). now apply Qfloor_resp_le. }
    destruct (Nat.eqb_spec (Z.to_nat (Qfloor t)) bins) as [E'|E']; lia.
  - apply Nat.leb_gt.
    assert (Hlt : (v < first + inject_Z (Z.of_nat i) * width)%Q).
    { apply Qnot_le_lt. intros H. apply Qle_bool_iff in H. congruence. }
    assert (Hit : (t < inject_Z (Z.of_nat i))%Q) by nra.
    assert (Hif : (Qfloor t < Z.of_nat i)%Z).
    { apply Z.lt_nge. intros H. rewrite Zle_Qle in H.
      pose proof (Qfloor_le t). lra. }
    destruct (Nat.eqb_spec (Z.to_nat (Qfloor t)) bins) as [E'|E']; lia.
Qed.

End BinIndex.

(** *** The curve *)

Lemma map_seq_lookup_from {A} (g : nat -> A) (s n k : nat) :
  (k < n)%nat -> map g (seq s n) !! k = Some (g (s + k)%nat).
Proof.
  intros Hk. change (map g (seq s n)) with (g <$> seq s n).
  rewrite list_lookup_fmap, lookup_seq_lt by assumption. reflexivity.
Qed.

Lemma linspace_tail (start stop : Q) (num : nat) :
  tail (linspace start stop num) =
  map (fun i => (start + inject_Z (Z.of_nat i) * ((stop - start) / inject_Z (Z.of_nat num)))%Q)
      (seq 1 num).
Proof. reflexivity. Qed.

Lemma linspace_removelast (start stop : Q) (num : nat) :
  removelast (linspace start stop num) =
  map (fun i => (start + inject_Z (Z.of_nat i) * ((stop - start) / inject_Z (Z.of_nat num)))%Q)
      (seq 0 num).
Proof.
  unfold linspace. rewrite seq_S, map_app. cbn [map]. apply removelast_last.
Qed.

Lemma true_divide_pos (c n : nat) :
  (0 < n)%nat ->
  option_map (fun q => (q * 100)%Q) (true_divide c n) = Some (spec.percent_of c n).
Proof.
  intros Hn. unfold true_divide.
  destruct (Nat.eqb_spec n 0) as [->|_]; [lia|]. reflexivity.
Qed.

Lemma percent_of_mono (a b n : nat) :
  (0 < n)%nat -> (a <= b)%nat -> (spec.percent_of a n <= spec.percent_of b n)%Q.
Proof.
  intros Hn Hab. unfold spec.percent_of.
  pose proof (inject_nat_pos n Hn) as Hpos.
  assert (Hq : (inject_Z (Z.of_nat a) <= inject_Z (Z.of_nat b))%Q).
  { rewrite <- Zle_Qle. lia. }
  apply Qmult_le_compat_r; [|discriminate].
  unfold Qdiv. apply Qmult_le_compat_r; [assumption|].
  apply Qlt_le_weak, Qinv_lt_0_compat, Hpos.
Qed.

Lemma percent_of_all (n : nat) : (0 < n)%nat -> (spec.percent_of n n == 100)%Q.
Proof.
  intros Hn. unfold spec.percent_of. pose proof (inject_nat_pos n Hn). field. lra.
Qed.

Lemma suffix_sums_percent_non_increasing (l : list nat) (n : nat) :
  spec.non_increasing (map (fun c => Some (spec.percent_of c n)) (spec.suffix_sums l))
  \/ n = 0%nat.
Proof.
  destruct (Nat.eq_dec n 0) as [->|Hn]; [now right|]. left.
  induction l as [|x l IH]; [exact I|].
  destruct l as [|y l]; [exact I|].
  cbn [spec.suffix_sums map spec.non_increasing] in *.
  split; [|exact IH].
  apply percent_of_mono; [lia|]. simpl. lia.
Qed.

(** Every item falls into one of the bins. *)
Lemma bin_indices_lt (vals : list Q) (bins : nat) :
  (0 < bins)%nat ->
  Forall (fun x => (x < bins)%nat)
    (map (bin_index (fst (outer_edges vals)) (snd (outer_edges vals)) bins) vals).
Proof.
  intros Hbins. destruct (outer_edges_spec vals) as [Hlt Hin].
  apply Forall_forall. intros x Hx. apply list_elem_of_In, in_map_iff in Hx.
  destruct Hx as (v & <- & Hv). apply bin_index_lt; auto.
Qed.

(** The reverse cumulative count at bin [i] is the number of dose values
    that are at least the lower edge of the bin. *)
Lemma cumulative_counts (vals : list Q) (bins i : nat) :
  (i < bins)%nat ->
  let first := fst (outer_edges vals) in
  let last := snd (outer_edges vals) in
  list_sum (drop i (bincount (map (bin_index first last bins) vals) bins)) =
  spec.count_at_least
    (first + inject_Z (Z.of_nat i) * ((last - first) / inject_Z (Z.of_nat bins)))%Q
    vals.
Proof.
  intros Hi first last. destruct (outer_edges_spec vals) as [Hlt Hin].
  rewrite bincount_suffix; [|lia|apply bin_indices_lt; lia].
  rewrite filter_map_length. unfold spec.count_at_least.
  apply filter_length_ext. intros v Hv.
  apply bin_index_ge; auto. lia.
Qed.

Lemma total_count (vals : list Q) (bins : nat) :
  (0 < bins)%nat ->
  list_sum (bincount (map (bin_index (fst (outer_edges vals))
                             (snd (outer_edges vals)) bins) vals) bins) =
  length vals.
Proof.
  intros Hbins.
  rewrite <- (drop_0 (bincount _ bins)).
  rewrite bincount_suffix; [|lia|now apply bin_indices_lt].
  rewrite filter_map_length.
  rewrite (filter_length_ext _ (fun _ => true)) by reflexivity.
  induction vals as [|v vals IH]; [reflexivity|]. cbn [List.filter length]. now rewrite IH.
Qed.

Lemma bincount_length (idx : list nat) (n : nat) : length (bincount idx n) = n.
Proof. unfold bincount. now rewrite length_map, length_seq. Qed.

(** What lines 245-255 compute from a non-empty list of dose values. *)
Lemma dvh_curve_spec (vals : list Q) :
  vals <> [] ->
  let first := fst (outer_edges vals) in
  let last := snd (outer_edges vals) in
  let width := ((last - first) / inject_Z (Z.of_nat 100))%Q in
  exists mids pcts,
    dvh_curve vals = Ok (mids, pcts)
    /\ length mids = 101%nat /\ length pcts = 101%nat
    /\ mids !! 0%nat = Some 0%Q
    /\ pcts !! 0%nat = Some (Some (spec.percent_of (length vals) (length vals)))
    /\ (forall i, (i < 100)%nat ->
          exists mid,
            mids !! S i = Some mid
            /\ (mid == first + (inject_Z (Z.of_nat i) + (1 # 2)) * width)%Q
            /\ pcts !! S i =
               Some (Some (spec.percent_of
                             (spec.count_at_least
                                (first + inject_Z (Z.of_nat i) * width)%Q vals)
                             (length vals))))
    /\ spec.non_increasing pcts.
Proof.
  intros Hne first last width.
  assert (Hn : (0 < length vals)%nat) by (destruct vals; [done|simpl; lia]).
  unfold dvh_curve, histogram.
  destruct (outer_edges vals) as [lo hi] eqn:Hedges.
  cbn [fst snd] in first, last. cbn [fst snd]. subst first last.
  rewrite rev_cumsum_rev.
  set (freq := bincount (map (bin_index lo hi 100) vals) 100).
  assert (Hfreq : length freq = 100%nat) by apply bincount_length.
  assert (Htotal : list_sum freq = length vals).
  { pose proof (total_count vals 100 ltac:(lia)) as H. now rewrite Hedges in H. }
  assert (Hsuffix : forall i, (i < 100)%nat ->
            spec.suffix_sums freq !! i =
            Some (spec.count_at_least (lo + inject_Z (Z.of_nat i) * width)%Q vals)).
  { intros i Hi. rewrite suffix_sums_lookup by lia. f_equal.
    pose proof (cumulative_counts vals 100 i Hi) as H.
    rewrite Hedges in H. exact H. }
  assert (Hhead : spec.suffix_sums freq !! 0%nat = Some (length vals)).
  { rewrite suffix_sums_lookup by lia. now rewrite drop_0, Htotal. }
  unfold list_getitem at 1. rewrite Hhead. cbn [bind].
  unfold list_getitem at 1. cbn [lookup list_lookup bind].
  eexists _, _. split; [reflexivity|].
  split.
  { cbn [length]. rewrite length_map, length_zip_with, linspace_tail,
      linspace_removelast, !length_map, !length_seq. reflexivity. }
  split.
  { cbn [length]. rewrite length_map. cbn [length].
    now rewrite suffix_sums_length, Hfreq. }
  split; [reflexivity|].
  split.
  { cbn [map]. rewrite true_divide_pos by assumption. reflexivity. }
  split.
  { intros i Hi.
    eexists. split; [|split].
    - rewrite lookup_cons.
      change (map ?g ?l) with (g <$> l).
      rewrite list_lookup_fmap, lookup_zip_with, linspace_tail, linspace_removelast.
      rewrite !map_seq_lookup_from by lia. reflexivity.
    - cbn [Nat.add]. unfold width.
      rewrite Nat2Z.inj_succ, <- Z.add_1_r, inject_Z_plus.
      change (inject_Z 1) with 1%Q. field.
    - cbn [map]. rewrite lookup_cons.
      change (map ?g ?l) with (g <$> l).
      rewrite list_lookup_fmap, (Hsuffix i Hi). cbn [fmap option_fmap option_map].
      now rewrite true_divide_pos by assumption. }
  cbn [map]. rewrite true_divide_pos by assumption.
  destruct (spec.suffix_sums freq) as [|c rest] eqn:Hs; [discriminate|].
  cbn in Hhead. injection Hhead as ->.
  cbn [map]. rewrite true_divide_pos by assumption.
  cbn [spec.non_increasing]. split; [lra|].
  destruct (suffix_sums_percent_non_increasing freq (length vals)) as [H|H]; [|lia].
  rewrite Hs in H. cbn [map] in H.
  assert (Hmap : map (fun c => option_map (fun q => (q * 100)%Q) (true_divide c (length vals))) rest =
                 map (fun c => Some (spec.percent_of c (length vals))) rest).
  { apply map_ext. intros c. now apply true_divide_pos. }
  rewrite Hmap. exact H.
Qed.
End Histogram.

Section Dvh.
Import np dose.
Context (Struct : Type).
Context (pull_structure :
  string -> Struct -> result (list (list Q) * list (list Q) * list (list Q))).
Context (contains_point : list (Q * Q) -> Q * Q -> bool).


End Dvh.



(** C8, at a dose grid with three columns, two rows and two frames: the
    mask of the square structure has true entries, and [create_dvh] raises
    the IndexError of [dose[mask]], because the mask is laid out as
    (rows, columns, frames) and the dose array as (frames, rows, columns). *)
Theorem create_dvh_raises_on_slab :
  (exists mask,
     dose.get_dose_grid_structure_mask sample.Struct sample.pull_structure
       sample.even_odd "PTV" sample.structures sample.slab = Ok mask
     /\ In true (np.data3 mask)
     /\ np.shape3 mask = (2, 3, 2)%nat
     /\ np.shape3 (dose.dose_from_dataset sample.slab) = (2, 2, 3)%nat)
  /\ dose.create_dvh sample.Struct sample.pull_structure sample.even_odd
       "PTV" sample.structures sample.slab =
     Error (IndexError "boolean index did not match indexed array")
  /\ (exists f,
        scipy.new (dose.z_axis sample.slab, dose.y_axis sample.slab,
                   dose.x_axis sample.slab)
          (dose.dose_from_dataset sample.slab) = Ok f).
Proof.
  split; [|split].
  - eexists. split; [vm_compute; reflexivity|].
    split; [now left|]. split; reflexivity.
  - vm_compute. reflexivity.
  - eexists. vm_compute. reflexivity.
Qed.

(** ** Examples on the sample data *)

(** C3, witness: two z, three y and two x coordinates on the 2 x 2 x 2
    grid. *)
Lemma interpolation_outer_product_witness :
  exists r,
    dose.dicom_dose_interpolate
      (np.Vector [0; 1]%Q, np.Vector [0; 1 # 2; 1]%Q, np.Vector [1; 0]%Q)
      sample.cube = Ok r
    /\ np.shape3 r = (2, 3, 2)%nat
    /\ length (np.data3 r) = 12%nat.
Proof.
  destruct (interpolation_outer_product sample.cube
              [0; 1]%Q [0; 1 # 2; 1]%Q [1; 0]%Q
              (scipy.mkInterpolator
                 ([0; 1]%Q, [0; 1]%Q, [0; 1]%Q)
                 (dose.dose_from_dataset sample.cube)))
    as (r & Hr & Hs & Hl & _).
  - vm_compute. reflexivity.
  - discriminate.
  - discriminate.
  - discriminate.
  - intros zi yj xk Hz Hy Hx.
    cbn [In] in Hz, Hy, Hx.
    destruct Hz as [<-|[<-|[]]]; destruct Hy as [<-|[<-|[<-|[]]]];
      destruct Hx as [<-|[<-|[]]]; vm_compute; repeat split.
  - exists r. split; [exact Hr|]. split; [exact Hs|exact Hl].
Defined.

(** C4, witness: the square drawn at z = 1/2 on a grid with z in {0, 1}. *)
Lemma structure_slice_mismatch_raises_witness :
  dose.get_dose_grid_structure_mask sample.Struct sample.pull_structure
    sample.even_odd "GAP" sample.structures sample.cube =
  Error spec.size_1_error.
Proof.
  refine (proj2 (structure_slice_mismatch_raises sample.Struct
                   sample.pull_structure sample.even_odd
                   "GAP" sample.structures sample.cube
                   _ _ _ 0%nat _ (1 # 2)%Q _ _ _ _) _).
  - vm_compute. reflexivity.
  - reflexivity.
  - reflexivity.
  - repeat constructor; intros H; vm_compute in H; discriminate.
  - split; [reflexivity|]. split; repeat constructor; discriminate.
Defined.

(** C5, witness: the direction "inline". *)
Lemma profile_at_zero_is_depth_dose_witness :
  dose.profile sample.Plan sample.require_gantries_be_zero
    sample.get_surface_entry_point_with_fallback
    (np.Vector [0%Q]) (1 # 4) "inline" sample.cube sample.plan =
  dose.depth_dose sample.Plan sample.require_gantries_be_zero
    sample.get_surface_entry_point_with_fallback
    (np.Vector [(1 # 4)%Q]) sample.cube sample.plan.
Proof.
  refine (proj1 (profile_at_zero_is_depth_dose sample.Plan
                   sample.require_gantries_be_zero
                   sample.get_surface_entry_point_with_fallback
                   (1 # 4) "inline" sample.cube sample.plan _)).
  cbv [spec.directions In]. right. left. reflexivity.
Defined.

(** C7, witness: the direction "diagonal". *)
Lemma profile_rejects_direction_witness :
  dose.profile sample.Plan sample.require_gantries_be_zero
    sample.get_surface_entry_point_with_fallback
    (np.Vector [0%Q]) (1 # 4) "diagonal" sample.cube sample.plan =
  Error dose.direction_error.
Proof.
  refine (proj1 (proj2 (profile_rejects_direction sample.Plan
                          sample.require_gantries_be_zero
                          sample.get_surface_entry_point_with_fallback
                          (np.Vector [0%Q]) (1 # 4) "diagonal"
                          sample.cube sample.plan _))
            (snd sample.plan) _ _).
  - cbv [spec.directions In]. intros [H|[H|[H|[H|[]]]]]; discriminate H.
  - reflexivity.
  - reflexivity.
Defined.

(** ** The facade *)

Section Monad.
Import pinnacle.
#[local] Open Scope facade_scope.

Lemma mbind_inv_ok {A B} (m : M A) (k : A -> M B) (st st2 : state) (b : B) :
  mbind m k st = (Ok b, st2) ->
  exists a st1, m st = (Ok a, st1) /\ k a st1 = (Ok b, st2).
Proof.
  unfold mbind. destruct (m st) as [[a|e] st1]; [|discriminate].
  intros H. now exists a, st1.
Qed.

Lemma mbind_inv (m : M unit) (k : unit -> M unit) (st st2 : state)
    (r : result unit) :
  mbind m k st = (r, st2) ->
  (exists e, m st = (Error e, st2) /\ r = Error e)
  \/ exists st1, m st = (Ok tt, st1) /\ k tt st1 = (r, st2).
Proof.
  unfold mbind. destruct (m st) as [[[]|e] st1].
  - intros H. right. now exists st1.
  - intros H. injection H as <- <-. left. now exists e.
Qed.

Section Keeps.
Context (R : state -> state -> Prop).
Context (R_refl : forall st, R st st).
Context (R_trans : forall a b c, R a b -> R b c -> R a c).

Lemma keeps_ret {A} (a : A) : spec.keeps R (ret a).
Proof. intros st r st' H. injection H as _ <-. apply R_refl. Qed.

Lemma keeps_raise {A} (e : exn) : spec.keeps R (@raise A e).
Proof. intros st r st' H. injection H as _ <-. apply R_refl. Qed.

Lemma keeps_lift {A} (x : result A) : spec.keeps R (lift x).
Proof. intros st r st' H. injection H as _ <-. apply R_refl. Qed.

Lemma keeps_get_self : spec.keeps R get_self.
Proof. intros st r st' H. injection H as _ <-. apply R_refl. Qed.

Lemma keeps_deref (l : ref) : spec.keeps R (deref l).
Proof.
  intros st r st' H. unfold deref in H.
  destruct (heap st !! l); injection H as _ <-; apply R_refl.
Qed.

Lemma keeps_bind {A B} (m : M A) (k : A -> M B) :
  spec.keeps R m -> (forall a, spec.keeps R (k a)) -> spec.keeps R (mbind m k).
Proof.
  intros Hm Hk st r st'. unfold mbind.
  destruct (m st) as [[a|e] st1] eqn:E; intros H.
  - eapply R_trans; [eapply Hm, E|eapply Hk, H].
  - injection H as _ <-. eapply Hm, E.
Qed.

Lemma keeps_for_each {A} (items : list A) (body : A -> M unit) :
  (forall a, spec.keeps R (body a)) -> spec.keeps R (for_each items body).
Proof.
  intros Hb. induction items as [|a items IH]; cbn [for_each].
  - apply keeps_ret.
  - apply keeps_bind; [apply Hb|intros _; exact IH].
Qed.

Lemma keeps_truthy (r : option ref) : spec.keeps R (truthy r).
Proof.
  destruct r as [l|]; cbn [truthy]; [|apply keeps_ret].
  apply keeps_bind; [apply keeps_deref|intros o; apply keeps_ret].
Qed.

End Keeps.

(** Reading does not change the state. *)
Lemma truthy_state (r : option ref) (st st' : state) (x : result bool) :
  truthy r st = (x, st') -> st' = st.
Proof.
  intros H. symmetry.
  exact (keeps_truthy eq (fun _ => eq_refl) (fun a b c => @eq_trans _ a b c) r st x st' H).
Qed.

Lemma dict_get_state (r : option ref) (key : string) (st st' : state)
    (x : result pyval) :
  dict_get r key st = (x, st') -> st' = st.
Proof.
  destruct r as [l|]; cbn [dict_get]; [|intros H; now injection H].
  unfold mbind, deref. destruct (heap st !! l) as [[d|ps|ims]|];
    intros H; now injection H.
Qed.

(** [x[key] = v] on a dict that exists replaces the object and nothing
    else. *)
Lemma dict_set_ok (l : ref) (key : string) (v : pyval) (st st' : state) :
  dict_set (Some l) key v st = (Ok tt, st') ->
  exists d, heap st !! l = Some (ODict d)
    /\ st' = mkState (self st) (<[l := ODict (<[key := v]> d)]> (heap st)) (trace st).
Proof.
  cbn [dict_set]. unfold mbind, deref.
  destruct (heap st !! l) as [[d|ps|ims]|]; try discriminate.
  unfold store. intros H. injection H as <-. now exists d.
Qed.

Lemma truthy_loaded_dict (l : ref) (d : dict) (st : state) :
  heap st !! l = Some (ODict d) -> size d <> 0%nat ->
  truthy (Some l) st = (Ok true, st).
Proof.
  intros Hl Hd. cbn [truthy]. unfold mbind, deref. rewrite Hl.
  unfold ret. f_equal. f_equal.
  destruct (Nat.eqb_spec (size d) 0); [contradiction|reflexivity].
Qed.

Ltac bind_ok H a st :=
  let H1 := fresh H "a" in
  apply mbind_inv_ok in H as (a & st & H1 & H).

Section Views.
Context (pinn_to_dict : string -> result dict).
Context (repr : pyval -> string).

(** A view that holds something is returned as it is. *)
Lemma patient_info_loaded (st : state) :
  truthy (_patient_info (self st)) st = (Ok true, st) ->
  patient_info pinn_to_dict repr st = (Ok (_patient_info (self st)), st).
Proof.
  intros H. unfold patient_info, mbind, get_self. rewrite H. reflexivity.
Qed.

Lemma plans_loaded (st : state) :
  truthy (_plans (self st)) st = (Ok true, st) ->
  plans pinn_to_dict repr st = (Ok (_plans (self st)), st).
Proof.
  intros H. unfold plans, mbind, get_self. rewrite H. reflexivity.
Qed.

Lemma images_loaded (st : state) :
  truthy (_images (self st)) st = (Ok true, st) ->
  images pinn_to_dict repr st = (Ok (_images (self st)), st).
Proof.
  intros H. unfold images, mbind, get_self. rewrite H. reflexivity.
Qed.

(** What an access returns is the attribute as it is afterwards. *)
Lemma plans_result (st st1 : state) (r : option ref) :
  plans pinn_to_dict repr st = (Ok r, st1) -> r = _plans (self st1).
Proof.
  intros H. unfold plans in H.
  bind_ok H s0 st0. bind_ok H t sta. bind_ok H u stb. bind_ok H s2 stc.
  unfold get_self in Ha2. injection Ha2 as <- <-.
  unfold ret in H. now injection H as <- <-.
Qed.

Lemma images_result (st st1 : state) (r : option ref) :
  images pinn_to_dict repr st = (Ok r, st1) -> r = _images (self st1).
Proof.
  intros H. unfold images in H.
  bind_ok H s0 st0. bind_ok H t sta. bind_ok H u stb. bind_ok H s2 stc.
  unfold get_self in Ha2. injection Ha2 as <- <-.
  unfold ret in H. now injection H as <- <-.
Qed.

(** After a successful access the patient record is a dict that holds at
    least the DOB entry. *)
Lemma patient_info_result (st st1 : state) (r : option ref) :
  patient_info pinn_to_dict repr st = (Ok r, st1) ->
  r = _patient_info (self st1)
  /\ truthy (_patient_info (self st1)) st1 = (Ok true, st1).
Proof.
  intros H. unfold patient_info in H.
  bind_ok H s0 st0. unfold get_self in Ha. injection Ha as <- <-.
  bind_ok H t sta. pose proof (truthy_state _ _ _ _ Ha) as ->.
  bind_ok H u stb. bind_ok H s2 stc.
  unfold get_self in Ha1. injection Ha1 as <- <-.
  unfold ret in H. injection H as <- <-.
  split; [reflexivity|].
  destruct t; cbn [negb] in Ha0.
  - unfold ret in Ha0. injection Ha0 as _ <-. exact Ha.
  - clear Ha. rename Ha0 into H.
    bind_ok H u1 s1. bind_ok H u2 s2. bind_ok H d s3. bind_ok H l s4.
    bind_ok H u5 s5. bind_ok H vlast s6. bind_ok H vfirst s7.
    bind_ok H vmiddle s8. bind_ok H u9 s9. bind_ok H dobstr s10.
    bind_ok H dob s11.
    apply dict_get_state in Ha4 as ->, Ha5 as ->, Ha6 as ->.
    destruct u, u9.
    apply dict_set_ok in Ha7 as (d1 & Hd1 & ->).
    apply dict_get_state in Ha8 as ->.
    unfold lift in Ha9. injection Ha9 as _ <-.
    apply dict_set_ok in H as (d2 & Hd2 & ->).
    cbn [self heap trace] in *.
    unfold set_self in Ha3. injection Ha3 as _ <-. cbn [self _patient_info].
    apply truthy_loaded_dict with (d := <["DOB" := PStr dob]> d2).
    + cbn [heap]. apply list_lookup_insert_eq.
      now apply lookup_lt_Some in Hd2.
    + rewrite map_size_empty_iff. apply insert_non_empty.
Qed.

(** Once [patient_info] has returned, every later access returns the same
    object and changes nothing: nothing is read or computed again. *)
Lemma patient_info_cached (st st1 : state) (r : option ref) :
  patient_info pinn_to_dict repr st = (Ok r, st1) ->
  patient_info pinn_to_dict repr st1 = (Ok r, st1).
Proof.
  intros H. apply patient_info_result in H as [-> H].
  now apply patient_info_loaded.
Qed.

Lemma truthy_loaded_plans (l : ref) (ps : list PinnaclePlan) (st : state) :
  heap st !! l = Some (OPlans ps) -> ps <> [] ->
  truthy (Some l) st = (Ok true, st).
Proof.
  intros Hl Hps. cbn [truthy]. unfold mbind, deref. rewrite Hl.
  destruct ps; [contradiction|reflexivity].
Qed.

Lemma truthy_loaded_images (l : ref) (ims : list PinnacleImage) (st : state) :
  heap st !! l = Some (OImages ims) -> ims <> [] ->
  truthy (Some l) st = (Ok true, st).
Proof.
  intros Hl Hims. cbn [truthy]. unfold mbind, deref. rewrite Hl.
  destruct ims; [contradiction|reflexivity].
Qed.

(** Once [plans] has returned a list that is not empty, every later access
    returns the same list object and changes nothing. *)
Lemma plans_cached (st st1 : state) (l : ref) (ps : list PinnaclePlan) :
  plans pinn_to_dict repr st = (Ok (Some l), st1) ->
  heap st1 !! l = Some (OPlans ps) -> ps <> [] ->
  plans pinn_to_dict repr st1 = (Ok (Some l), st1).
Proof.
  intros H Hl Hps. apply plans_result in H. rewrite H.
  apply plans_loaded. rewrite <- H. now apply truthy_loaded_plans with ps.
Qed.

Lemma images_cached (st st1 : state) (l : ref) (ims : list PinnacleImage) :
  images pinn_to_dict repr st = (Ok (Some l), st1) ->
  heap st1 !! l = Some (OImages ims) -> ims <> [] ->
  images pinn_to_dict repr st1 = (Ok (Some l), st1).
Proof.
  intros H Hl Hims. apply images_result in H. rewrite H.
  apply images_loaded. rewrite <- H. now apply truthy_loaded_images with ims.
Qed.

End Views.

End Monad.

Section TraceRelations.
Import pinnacle.
#[local] Open Scope facade_scope.

(** Relations that only look at the trace are kept by everything that does
    not log. *)
Section TraceOnly.
Context (R : state -> state -> Prop).
Context (R_refl : forall st, R st st).
Context (R_trans : forall a b c, R a b -> R b c -> R a c).
Context (R_same : forall st st', trace st' = trace st -> R st st').

Lemma keeps_alloc_trace (o : obj) : spec.keeps R (alloc o).
Proof. intros st r st' H. injection H as _ <-. now apply R_same. Qed.

Lemma keeps_set_self_trace (f : Pinnacle -> Pinnacle) : spec.keeps R (set_self f).
Proof. intros st r st' H. injection H as _ <-. now apply R_same. Qed.

Lemma keeps_store_trace (l : ref) (o : obj) : spec.keeps R (store l o).
Proof. intros st r st' H. injection H as _ <-. now apply R_same. Qed.

Lemma keeps_dict_get_trace (r : option ref) (key : string) :
  spec.keeps R (dict_get r key).
Proof.
  intros st x st' H. apply dict_get_state in H as ->. apply R_refl.
Qed.

Lemma keeps_dict_set_trace (r : option ref) (key : string) (v : pyval) :
  spec.keeps R (dict_set r key v).
Proof.
  destruct r as [l|]; cbn [dict_set]; [|now apply keeps_raise].
  apply keeps_bind; [assumption|now apply keeps_deref|].
  intros [d|ps|ims]; [apply keeps_store_trace|now apply keeps_raise..].
Qed.

Lemma keeps_append_plan_trace (r : option ref) (p : PinnaclePlan) :
  spec.keeps R (append_plan r p).
Proof.
  destruct r as [l|]; cbn [append_plan]; [|now apply keeps_raise].
  apply keeps_bind; [assumption|now apply keeps_deref|].
  intros [d|ps|ims]; [now apply keeps_raise|apply keeps_store_trace|now apply keeps_raise].
Qed.

Lemma keeps_append_image_trace (r : option ref) (im : PinnacleImage) :
  spec.keeps R (append_image r im).
Proof.
  destruct r as [l|]; cbn [append_image]; [|now apply keeps_raise].
  apply keeps_bind; [assumption|now apply keeps_deref|].
  intros [d|ps|ims]; [now apply keeps_raise..|apply keeps_store_trace].
Qed.

End TraceOnly.

Lemma silent_refl (st : state) : spec.silent st st.
Proof. reflexivity. Qed.

Lemma silent_trans (a b c : state) :
  spec.silent a b -> spec.silent b c -> spec.silent a c.
Proof. unfold spec.silent. congruence. Qed.

Lemma convert_calls_app (a b : list event) :
  spec.convert_calls (a ++ b) = spec.convert_calls a ++ spec.convert_calls b.
Proof. apply flat_map_app. Qed.

Lemma quiet_refl (st : state) : spec.quiet st st.
Proof. exists []. split; [now rewrite app_nil_r|reflexivity]. Qed.

Lemma quiet_trans (a b c : state) :
  spec.quiet a b -> spec.quiet b c -> spec.quiet a c.
Proof.
  intros (e1 & H1 & C1) (e2 & H2 & C2). exists (e1 ++ e2). split.
  - rewrite H2, H1. now rewrite app_assoc.
  - now rewrite convert_calls_app, C1, C2.
Qed.

Lemma quiet_same (st st' : state) : trace st' = trace st -> spec.quiet st st'.
Proof. intros H. exists []. split; [now rewrite app_nil_r|reflexivity]. Qed.

Lemma keeps_log_debug (msg : string) : spec.keeps spec.quiet (log (EvDebug msg)).
Proof. intros st r st' H. injection H as _ <-. now exists [EvDebug msg]. Qed.

Lemma keeps_log_read (path : string) :
  spec.keeps spec.quiet (log (EvPinnToDict path)).
Proof. intros st r st' H. injection H as _ <-. now exists [EvPinnToDict path]. Qed.

End TraceRelations.

Ltac keeps_quiet_step :=
  first
    [ apply (keeps_dict_get_trace spec.quiet quiet_refl)
    | apply (keeps_dict_set_trace spec.quiet quiet_refl quiet_trans quiet_same)
    | apply (keeps_append_plan_trace spec.quiet quiet_refl quiet_trans quiet_same)
    | apply (keeps_append_image_trace spec.quiet quiet_refl quiet_trans quiet_same)
    | apply (keeps_truthy spec.quiet quiet_refl quiet_trans)
    | apply (keeps_for_each spec.quiet quiet_refl quiet_trans)
    | apply (keeps_deref spec.quiet quiet_refl)
    | apply (keeps_store_trace spec.quiet quiet_same)
    | apply (keeps_bind spec.quiet quiet_trans)
    | apply (keeps_ret spec.quiet quiet_refl)
    | apply (keeps_raise spec.quiet quiet_refl)
    | apply (keeps_lift spec.quiet quiet_refl)
    | apply (keeps_get_self spec.quiet quiet_refl)
    | apply (keeps_truthy spec.quiet quiet_refl quiet_trans)
    | apply (keeps_for_each spec.quiet quiet_refl quiet_trans)
    | apply (keeps_alloc_trace spec.quiet quiet_same)
    | apply (keeps_set_self_trace spec.quiet quiet_same)
    | apply (keeps_dict_get_trace spec.quiet quiet_refl)
    | apply (keeps_dict_set_trace spec.quiet quiet_refl quiet_trans quiet_same)
    | apply (keeps_append_plan_trace spec.quiet quiet_refl quiet_trans quiet_same)
    | apply (keeps_append_image_trace spec.quiet quiet_refl quiet_trans quiet_same)
    | apply keeps_log_debug
    | apply keeps_log_read ].

Ltac keeps_silent_step :=
  first
    [ apply (keeps_dict_get_trace spec.silent silent_refl)
    | apply (keeps_dict_set_trace spec.silent silent_refl silent_trans (fun _ _ H => H))
    | apply (keeps_append_plan_trace spec.silent silent_refl silent_trans (fun _ _ H => H))
    | apply (keeps_append_image_trace spec.silent silent_refl silent_trans (fun _ _ H => H))
    | apply (keeps_truthy spec.silent silent_refl silent_trans)
    | apply (keeps_for_each spec.silent silent_refl silent_trans)
    | apply (keeps_deref spec.silent silent_refl)
    | apply (keeps_store_trace spec.silent (fun _ _ H => H))
    | apply (keeps_bind spec.silent silent_trans)
    | apply (keeps_ret spec.silent silent_refl)
    | apply (keeps_raise spec.silent silent_refl)
    | apply (keeps_lift spec.silent silent_refl)
    | apply (keeps_get_self spec.silent silent_refl)
    | apply (keeps_truthy spec.silent silent_refl silent_trans)
    | apply (keeps_for_each spec.silent silent_refl silent_trans)
    | apply (keeps_alloc_trace spec.silent (fun _ _ H => H))
    | apply (keeps_set_self_trace spec.silent (fun _ _ H => H))
    | apply (keeps_dict_get_trace spec.silent silent_refl)
    | apply (keeps_dict_set_trace spec.silent silent_refl silent_trans (fun _ _ H => H))
    | apply (keeps_append_plan_trace spec.silent silent_refl silent_trans (fun _ _ H => H))
    | apply (keeps_append_image_trace spec.silent silent_refl silent_trans (fun _ _ H => H)) ].

Ltac keeps_branches :=
  match goal with
  | |- spec.keeps _ (match ?x with _ => _ end) => destruct x
  | |- spec.keeps _ (if ?b then _ else _) => destruct b
  end.

Section Quiet.
Import pinnacle.
#[local] Open Scope facade_scope.
Context (pinn_to_dict : string -> result dict).
Context (image_info : PinnacleImage -> result (list pyval)).
Context (convert_image : PinnacleImage -> string -> result unit).
Context (repr : pyval -> string).

(** Reading the views never calls the image converter. *)
Lemma patient_info_quiet : spec.keeps spec.quiet (patient_info pinn_to_dict repr).
Proof.
  unfold patient_info.
  repeat first [progress intros | keeps_quiet_step | keeps_branches].
Qed.

Lemma plans_quiet : spec.keeps spec.quiet (plans pinn_to_dict repr).
Proof.
  unfold plans.
  repeat first [progress intros | apply patient_info_quiet
               | keeps_quiet_step | keeps_branches].
Qed.

Lemma images_quiet : spec.keeps spec.quiet (images pinn_to_dict repr).
Proof.
  unfold images.
  repeat first [progress intros | apply patient_info_quiet
               | keeps_quiet_step | keeps_branches].
Qed.

Lemma images_list_quiet : spec.keeps spec.quiet (images_list pinn_to_dict repr).
Proof.
  unfold images_list.
  repeat first [progress intros | apply images_quiet
               | apply (keeps_deref spec.quiet quiet_refl)
               | keeps_quiet_step | keeps_branches].
Qed.

End Quiet.

Section ExportImage.
Import pinnacle.
#[local] Open Scope facade_scope.
Context (pinn_to_dict : string -> result dict).
Context (image_info : PinnacleImage -> result (list pyval)).
Context (convert_image : PinnacleImage -> string -> result unit).
Context (repr : pyval -> string).

Lemma logged_nil (st : state) : spec.logged st [] = st.
Proof. destruct st. unfold spec.logged. cbn. now rewrite app_nil_r. Qed.

Lemma logged_logged (st : state) (a b : list event) :
  spec.logged (spec.logged st a) b = spec.logged st (a ++ b).
Proof. unfold spec.logged. cbn. now rewrite app_assoc. Qed.

Lemma convert_calls_converts (export_path : string) (ims : list PinnacleImage) :
  spec.convert_calls (spec.converts export_path ims) =
  map (fun im => (im, export_path)) ims.
Proof.
  induction ims as [|im ims IH]; [reflexivity|].
  cbn. f_equal. exact IH.
Qed.

Lemma str_length_pos (s : string) : s <> "" -> Nat.ltb 0 (String.length s) = true.
Proof. destruct s; [contradiction|reflexivity]. Qed.

(** With an empty UID the loop looks at the headers and converts
    nothing. *)
Lemma scan_empty_uid (ims : list PinnacleImage) (export_path : string) (st : state) :
  exists r, export_image_scan image_info convert_image ims "" export_path st = (r, st).
Proof.
  induction ims as [|im ims IH]; cbn [export_image_scan].
  - now exists (Ok tt).
  - unfold mbind, lift. destruct (first_series_uid image_info im) as [v|e].
    + cbn [String.length Nat.ltb Nat.leb andb]. exact IH.
    + now exists (Error e).
Qed.

(** With a UID the loop converts the first image whose first header record
    has it, and stops. *)
Lemma scan_converts_first (ims : list PinnacleImage)
    (series_uid export_path : string) (st : state) :
  (forall im, In im ims -> exists v, first_series_uid image_info im = Ok v) ->
  (forall im, spec.scan_target image_info series_uid ims = Some im ->
     convert_image im export_path = Ok tt) ->
  export_image_scan image_info convert_image ims series_uid export_path st =
  (Ok tt,
   spec.logged st (spec.converts export_path
                (spec.option_list (spec.scan_target image_info series_uid ims)))).
Proof.
  unfold spec.scan_target.
  destruct (String.eqb_spec series_uid "") as [->|Hne].
  - intros Hhead _. cbn [spec.option_list spec.converts map]. rewrite logged_nil.
    revert st. induction ims as [|im ims IH]; intros st; cbn [export_image_scan].
    + reflexivity.
    + destruct (Hhead im) as [v Hv]; [now left|].
      unfold mbind, lift. rewrite Hv.
      cbn [String.length Nat.ltb Nat.leb andb].
      apply IH. intros im' Hin. apply Hhead. now right.
  - induction ims as [|im ims IH]; intros Hhead Hconv; cbn [export_image_scan].
    + cbn. now rewrite logged_nil.
    + destruct (Hhead im) as [v Hv]; [now left|].
      unfold mbind at 1. unfold lift. rewrite Hv.
      rewrite (str_length_pos _ Hne). cbn [andb find].
      unfold spec.series_uid_is at 1. rewrite Hv.
      unfold spec.series_uid_is at 1 in Hconv. cbn [find] in Hconv. rewrite Hv in Hconv.
      destruct (eq_str v series_uid).
      * unfold call_convert_image, mbind, log, lift.
        rewrite (Hconv im eq_refl). reflexivity.
      * apply IH; [|exact Hconv]. intros im' Hin. apply Hhead. now right.
Qed.

(** C9. A call of [export_image] goes through the images in order and
    converts the first one whose first header record has the given series
    UID, if that UID is not empty, and no other; then, whether or not the
    scan found one, it converts the image passed explicitly, if one was
    passed.  Both conversions may happen in one call.  (The header of every
    image must hold a SeriesUID, and the converter must not raise.) *)
Theorem export_image_scan_and_explicit (st st1 : state)
    (ims : list PinnacleImage) (image : option PinnacleImage)
    (series_uid export_path : string) :
  images_list pinn_to_dict repr st = (Ok ims, st1) ->
  (forall im, In im ims -> exists v, first_series_uid image_info im = Ok v) ->
  (forall im, convert_image im export_path = Ok tt) ->
  export_image pinn_to_dict image_info convert_image repr
    image series_uid export_path st =
  (Ok tt,
   spec.logged st1
     (spec.converts export_path
        (spec.option_list (spec.scan_target image_info series_uid ims)
         ++ spec.option_list image)))
  /\ (series_uid <> "" ->
      spec.scan_target image_info series_uid ims =
      List.find (fun im => match first_series_uid image_info im with
                           | Ok v => eq_str v series_uid
                           | Error _ => false
                           end) ims).
Proof.
  intros Hims Hhead Hconv. split.
  - unfold export_image. unfold mbind at 1. rewrite Hims.
    unfold mbind at 1.
    rewrite (scan_converts_first ims series_uid export_path st1 Hhead)
      by (intros; apply Hconv).
    unfold spec.converts. rewrite map_app. fold (spec.converts export_path).
    rewrite <- logged_logged.
    destruct image as [im|]; cbn [spec.option_list spec.converts map].
    + unfold call_convert_image, mbind, log, lift. rewrite Hconv. reflexivity.
    + now rewrite logged_nil.
  - intros Hne. unfold spec.scan_target.
    destruct (String.eqb_spec series_uid ""); [contradiction|reflexivity].
Qed.

(** C10. With the empty string as series UID the scan of [export_image]
    converts nothing, whatever the headers of the images say: the only
    conversion the call can make is that of the image passed explicitly, and
    it makes it whenever it returns. *)
Theorem export_image_empty_uid (st : state) (image : option PinnacleImage)
    (export_path : string) :
  exists r st' evs,
    export_image pinn_to_dict image_info convert_image repr
      image "" export_path st = (r, st')
    /\ trace st' = trace st ++ evs
    /\ (spec.convert_calls evs = []
        \/ spec.convert_calls evs =
           map (fun im => (im, export_path)) (spec.option_list image))
    /\ (r = Ok tt ->
        spec.convert_calls evs =
        map (fun im => (im, export_path)) (spec.option_list image)).
Proof.
  unfold export_image. unfold mbind at 1.
  destruct (images_list pinn_to_dict repr st) as [[ims|e] st1] eqn:Hims;
    destruct (images_list_quiet pinn_to_dict repr _ _ _ Hims) as (evs & Hevs & Hq).
  2:{ exists (Error e), st1, evs. repeat split; [assumption|now left|discriminate]. }
  unfold mbind at 1.
  destruct (scan_empty_uid ims export_path st1) as [[[]|e] ->].
  2:{ exists (Error e), st1, evs. repeat split; [assumption|now left|discriminate]. }
  destruct image as [im|]; cbn [spec.option_list map].
  - unfold call_convert_image, mbind, log, lift.
    exists (convert_image im export_path), (spec.logged st1 [EvConvertImage im export_path]),
      (evs ++ [EvConvertImage im export_path]).
    split; [reflexivity|]. split.
    + cbn. rewrite Hevs. now rewrite app_assoc.
    + rewrite convert_calls_app, Hq. cbn. split; [now right|reflexivity].
  - exists (Ok tt), st1, evs. repeat split; [assumption|now left|now intros].
Qed.

End ExportImage.

Section Stability.
Import pinnacle.
#[local] Open Scope facade_scope.

Lemma heap_grows_refl (st : state) : spec.heap_grows st st.
Proof. intros l o H. now exists o. Qed.

Lemma heap_grows_trans (a b c : state) :
  spec.heap_grows a b -> spec.heap_grows b c -> spec.heap_grows a c.
Proof.
  intros H1 H2 l o Hl. destruct (H1 l o Hl) as (o1 & Hl1 & Ho1).
  destruct (H2 l o1 Hl1) as (o2 & Hl2 & Ho2). exists o2. auto.
Qed.

(** What is loaded stays loaded while the store grows. *)
Lemma loaded_grows (r : option ref) (st st' : state) :
  spec.heap_grows st st' -> spec.loaded r st -> spec.loaded r st'.
Proof.
  intros Hg (l & o & -> & Hl & Ho). destruct (Hg l o Hl) as (o' & Hl' & Ho').
  exists l, o'. auto.
Qed.

Lemma stable_refl (st : state) : spec.stable st st.
Proof. split; [apply heap_grows_refl|]. repeat split; reflexivity. Qed.

Lemma stable_trans (a b c : state) :
  spec.stable a b -> spec.stable b c -> spec.stable a c.
Proof.
  intros (Hg1 & Hi1 & Hp1 & Hm1) (Hg2 & Hi2 & Hp2 & Hm2).
  split; [now apply heap_grows_trans with b|].
  repeat split; intros Hl.
  - rewrite <- (Hi1 Hl). apply Hi2. rewrite (Hi1 Hl). now apply loaded_grows with a.
  - rewrite <- (Hp1 Hl). apply Hp2. rewrite (Hp1 Hl). now apply loaded_grows with a.
  - rewrite <- (Hm1 Hl). apply Hm2. rewrite (Hm1 Hl). now apply loaded_grows with a.
Qed.

Lemma stable_same (st st' : state) :
  heap st' = heap st -> self st' = self st -> spec.stable st st'.
Proof.
  intros Hh Hs. split.
  - intros l o Hl. exists o. now rewrite Hh.
  - rewrite Hs. repeat split; reflexivity.
Qed.

Lemma truthy_holds (r : option ref) (st st' : state) (t : bool) :
  truthy r st = (Ok t, st') ->
  if t then spec.loaded r st else ~ spec.loaded r st.
Proof.
  destruct r as [l|]; cbn [truthy].
  - unfold mbind, deref. destruct (heap st !! l) as [o|] eqn:Hl; [|discriminate].
    unfold ret. intros H. injection H as <- _.
    assert (Ht : spec.holds_something o =
                 match o with
                 | ODict d => negb (Nat.eqb (size d) 0)
                 | OPlans ps => negb (Nat.eqb (length ps) 0)
                 | OImages ims => negb (Nat.eqb (length ims) 0)
                 end) by (destruct o; reflexivity).
    rewrite <- Ht. destruct (spec.holds_something o) eqn:Ho.
    + now exists l, o.
    + intros (l' & o' & Hr & Hl' & Ho'). injection Hr as <-. congruence.
  - intros H. injection H as <- _. intros (l & o & Hr & _). discriminate.
Qed.

Lemma loaded_truthy (r : option ref) (st : state) :
  spec.loaded r st -> truthy r st = (Ok true, st).
Proof.
  intros (l & o & -> & Hl & Ho). cbn [truthy]. unfold mbind, deref. rewrite Hl.
  unfold ret. destruct o; cbn [spec.holds_something] in Ho; now rewrite Ho.
Qed.

Lemma keeps_log_stable (ev : event) : spec.keeps spec.stable (log ev).
Proof. intros st r st' H. injection H as _ <-. now apply stable_same. Qed.

Lemma keeps_alloc_stable (o : obj) : spec.keeps spec.stable (alloc o).
Proof.
  intros st r st' H. injection H as _ <-. split.
  - intros l o' Hl. exists o'. split; [|auto]. cbn [heap].
    rewrite lookup_app_l; [assumption|]. now apply lookup_lt_Some in Hl.
  - repeat split; reflexivity.
Qed.

(** Replacing an object by one that holds as much. *)
Lemma keeps_store_stable (l : ref) (o o' : obj) (st : state) :
  heap st !! l = Some o ->
  (spec.holds_something o = true -> spec.holds_something o' = true) ->
  spec.stable st (mkState (self st) (<[l := o']> (heap st)) (trace st)).
Proof.
  intros Hl Ho. split.
  - intros l0 o0 Hl0. cbn [heap]. destruct (decide (l0 = l)) as [->|Hne].
    + exists o'. split.
      * apply list_lookup_insert_eq. now apply lookup_lt_Some in Hl.
      * assert (o0 = o) by congruence. subst o0. exact Ho.
    + exists o0. split; [|auto]. now rewrite list_lookup_insert_ne.
  - repeat split; reflexivity.
Qed.

Lemma holds_after_insert (d : dict) (key : string) (v : pyval) :
  spec.holds_something (ODict (<[key := v]> d)) = true.
Proof.
  cbn. destruct (Nat.eqb_spec (size (<[key := v]> d)) 0) as [E|]; [|reflexivity].
  apply map_size_empty_iff in E. now apply insert_non_empty in E.
Qed.

Lemma holds_after_append {A} (l : list A) (a : A) :
  negb (Nat.eqb (length (l ++ [a])) 0) = true.
Proof. rewrite length_app. cbn. destruct (Nat.eqb_spec (length l + 1) 0); [lia|reflexivity]. Qed.

Lemma keeps_dict_get_stable (r : option ref) (key : string) :
  spec.keeps spec.stable (dict_get r key).
Proof. intros st x st' H. apply dict_get_state in H as ->. apply stable_refl. Qed.

Lemma keeps_dict_set_stable (r : option ref) (key : string) (v : pyval) :
  spec.keeps spec.stable (dict_set r key v).
Proof.
  intros st x st'. destruct r as [l|]; cbn [dict_set].
  - unfold mbind, deref. destruct (heap st !! l) as [[d|ps|ims]|] eqn:Hl;
      intros H; injection H as _ <-; try apply stable_refl.
    apply keeps_store_stable with (ODict d); [assumption|].
    intros _. apply holds_after_insert.
  - intros H. injection H as _ <-. apply stable_refl.
Qed.

Lemma keeps_append_plan_stable (r : option ref) (p : PinnaclePlan) :
  spec.keeps spec.stable (append_plan r p).
Proof.
  intros st x st'. destruct r as [l|]; cbn [append_plan].
  - unfold mbind, deref. destruct (heap st !! l) as [[d|ps|ims]|] eqn:Hl;
      intros H; injection H as _ <-; try apply stable_refl.
    apply keeps_store_stable with (OPlans ps); [assumption|].
    intros _. apply holds_after_append.
  - intros H. injection H as _ <-. apply stable_refl.
Qed.

Lemma keeps_append_image_stable (r : option ref) (im : PinnacleImage) :
  spec.keeps spec.stable (append_image r im).
Proof.
  intros st x st'. destruct r as [l|]; cbn [append_image].
  - unfold mbind, deref. destruct (heap st !! l) as [[d|ps|ims]|] eqn:Hl;
      intros H; injection H as _ <-; try apply stable_refl.
    apply keeps_store_stable with (OImages ims); [assumption|].
    intros _. apply holds_after_append.
  - intros H. injection H as _ <-. apply stable_refl.
Qed.

(** Allocating an object and assigning it to an attribute that is not
    loaded. *)
Lemma stable_assign (o : obj) (st : state) (f : ref -> Pinnacle) :
  let st' := mkState (f (length (heap st))) (heap st ++ [o]) (trace st) in
  (spec.loaded (_patient_info (self st)) st ->
   _patient_info (f (length (heap st))) = _patient_info (self st)) ->
  (spec.loaded (_plans (self st)) st ->
   _plans (f (length (heap st))) = _plans (self st)) ->
  (spec.loaded (_images (self st)) st ->
   _images (f (length (heap st))) = _images (self st)) ->
  spec.stable st st'.
Proof.
  intros st' H1 H2 H3. split.
  - intros l o' Hl. exists o'. split; [|auto]. cbn [heap st'].
    rewrite lookup_app_l; [assumption|]. now apply lookup_lt_Some in Hl.
  - repeat split; assumption.
Qed.

End Stability.

Ltac keeps_stable_step :=
  first
    [ apply keeps_dict_get_stable
    | apply keeps_dict_set_stable
    | apply keeps_append_plan_stable
    | apply keeps_append_image_stable
    | apply keeps_log_stable
    | apply keeps_alloc_stable
    | apply (keeps_truthy spec.stable stable_refl stable_trans)
    | apply (keeps_for_each spec.stable stable_refl stable_trans)
    | apply (keeps_deref spec.stable stable_refl)
    | apply (keeps_bind spec.stable stable_trans)
    | apply (keeps_ret spec.stable stable_refl)
    | apply (keeps_raise spec.stable stable_refl)
    | apply (keeps_lift spec.stable stable_refl)
    | apply (keeps_get_self spec.stable stable_refl) ].

Section StableViews.
Import pinnacle.
#[local] Open Scope facade_scope.
Context (pinn_to_dict : string -> result dict).
Context (image_info : PinnacleImage -> result (list pyval)).
Context (convert_image : PinnacleImage -> string -> result unit).
Context (repr : pyval -> string).

Lemma loaded_same_heap (r : option ref) (st st' : state) :
  heap st' = heap st -> spec.loaded r st' -> spec.loaded r st.
Proof. intros Hh (l & o & Hr & Hl & Ho). exists l, o. now rewrite <- Hh. Qed.

(** No access assigns an attribute that is loaded, and no access empties a
    container. *)
Lemma patient_info_stable : spec.keeps spec.stable (patient_info pinn_to_dict repr).
Proof.
  intros st r st' H. unfold patient_info in H.
  unfold mbind at 1 in H. cbn [get_self] in H.
  unfold mbind at 1 in H.
  destruct (truthy (_patient_info (self st)) st) as [[t|e] sta] eqn:Ht;
    pose proof (truthy_state _ _ _ _ Ht) as ->.
  2:{ injection H as _ <-. apply stable_refl. }
  apply truthy_holds in Ht.
  destruct t; cbn [negb] in H.
  { unfold mbind, ret, get_self in H. injection H as _ <-. apply stable_refl. }
  unfold mbind at 1 in H.
  match type of H with
  | (match ?load st with _ => _ end) = _ =>
      assert (Hload : forall x sb, load st = (x, sb) -> spec.stable st sb);
      [|destruct (load st) as [[u|e] sb] eqn:E; specialize (Hload _ _ eq_refl)]
  end.
  - intros x sb Hl.
    unfold mbind at 1 in Hl. cbn [log] in Hl.
    unfold mbind at 1 in Hl. cbn [log] in Hl.
    unfold mbind at 1 in Hl. unfold lift at 1 in Hl.
    destruct (pinn_to_dict (path_join (_path (self st)) "Patient")) as [d|e].
    2:{ injection Hl as _ <-. now apply stable_same. }
    unfold mbind at 1 in Hl. cbn [alloc self heap trace] in Hl.
    unfold mbind at 1 in Hl. cbn [set_self self heap trace] in Hl.
    match type of Hl with
    | ?rest ?s5 = _ =>
        assert (Hrest : spec.keeps spec.stable rest)
          by (repeat first [progress intros | keeps_stable_step | keeps_branches]);
        apply Hrest in Hl; apply stable_trans with s5; [|exact Hl]
    end.
    split.
    + intros l o Hl'. exists o. split; [|auto]. cbn [heap].
      rewrite lookup_app_l; [assumption|]. now apply lookup_lt_Some in Hl'.
    + cbn [self _patient_info _plans _images]. repeat split; try reflexivity.
      intros Hld. contradiction.
  - unfold mbind, get_self, ret in H. injection H as _ <-. exact Hload.
  - injection H as _ <-. exact Hload.
Qed.

Lemma plans_stable : spec.keeps spec.stable (plans pinn_to_dict repr).
Proof.
  intros st r st' H. unfold plans in H.
  unfold mbind at 1 in H. cbn [get_self] in H.
  unfold mbind at 1 in H.
  destruct (truthy (_plans (self st)) st) as [[t|e] sta] eqn:Ht;
    pose proof (truthy_state _ _ _ _ Ht) as ->.
  2:{ injection H as _ <-. apply stable_refl. }
  apply truthy_holds in Ht.
  destruct t; cbn [negb] in H.
  { unfold mbind, ret, get_self in H. injection H as _ <-. apply stable_refl. }
  unfold mbind at 1 in H.
  match type of H with
  | (match ?load st with _ => _ end) = _ =>
      assert (Hload : forall x sb, load st = (x, sb) -> spec.stable st sb);
      [|destruct (load st) as [[u|e] sb] eqn:E; specialize (Hload _ _ eq_refl)]
  end.
  - intros x sb Hl.
    unfold mbind at 1 in Hl. cbn [alloc self heap trace] in Hl.
    unfold mbind at 1 in Hl. cbn [set_self self heap trace] in Hl.
    match type of Hl with
    | ?rest ?s5 = _ =>
        assert (Hrest : spec.keeps spec.stable rest)
          by (repeat first [progress intros | apply patient_info_stable
                           | keeps_stable_step | keeps_branches]);
        apply Hrest in Hl; apply stable_trans with s5; [|exact Hl]
    end.
    split.
    + intros l o Hl'. exists o. split; [|auto]. cbn [heap].
      rewrite lookup_app_l; [assumption|]. now apply lookup_lt_Some in Hl'.
    + cbn [self _patient_info _plans _images]. repeat split; try reflexivity.
      intros Hld. contradiction.
  - unfold mbind, get_self, ret in H. injection H as _ <-. exact Hload.
  - injection H as _ <-. exact Hload.
Qed.

Lemma images_stable : spec.keeps spec.stable (images pinn_to_dict repr).
Proof.
  intros st r st' H. unfold images in H.
  unfold mbind at 1 in H. cbn [get_self] in H.
  unfold mbind at 1 in H.
  destruct (truthy (_images (self st)) st) as [[t|e] sta] eqn:Ht;
    pose proof (truthy_state _ _ _ _ Ht) as ->.
  2:{ injection H as _ <-. apply stable_refl. }
  apply truthy_holds in Ht.
  destruct t; cbn [negb] in H.
  { unfold mbind, ret, get_self in H. injection H as _ <-. apply stable_refl. }
  unfold mbind at 1 in H.
  match type of H with
  | (match ?load st with _ => _ end) = _ =>
      assert (Hload : forall x sb, load st = (x, sb) -> spec.stable st sb);
      [|destruct (load st) as [[u|e] sb] eqn:E; specialize (Hload _ _ eq_refl)]
  end.
  - intros x sb Hl.
    unfold mbind at 1 in Hl. cbn [alloc self heap trace] in Hl.
    unfold mbind at 1 in Hl. cbn [set_self self heap trace] in Hl.
    match type of Hl with
    | ?rest ?s5 = _ =>
        assert (Hrest : spec.keeps spec.stable rest)
          by (repeat first [progress intros | apply patient_info_stable
                           | keeps_stable_step | keeps_branches]);
        apply Hrest in Hl; apply stable_trans with s5; [|exact Hl]
    end.
    split.
    + intros l o Hl'. exists o. split; [|auto]. cbn [heap].
      rewrite lookup_app_l; [assumption|]. now apply lookup_lt_Some in Hl'.
    + cbn [self _patient_info _plans _images]. repeat split; try reflexivity.
      intros Hld. contradiction.
  - unfold mbind, get_self, ret in H. injection H as _ <-. exact Hload.
  - injection H as _ <-. exact Hload.
Qed.

Lemma export_image_scan_stable (ims : list PinnacleImage) (series_uid export_path : string) :
  spec.keeps spec.stable
    (export_image_scan image_info convert_image ims series_uid export_path).
Proof.
  induction ims as [|im ims IH]; cbn [export_image_scan].
  - apply (keeps_ret spec.stable stable_refl).
  - apply (keeps_bind spec.stable stable_trans);
      [apply (keeps_lift spec.stable stable_refl)|].
    intros v. destruct (_ && _); [|exact IH].
    unfold call_convert_image.
    repeat first [progress intros | keeps_stable_step].
Qed.

Lemma export_image_stable (image : option PinnacleImage)
    (series_uid export_path : string) :
  spec.keeps spec.stable
    (export_image pinn_to_dict image_info convert_image repr
       image series_uid export_path).
Proof.
  unfold export_image, images_list, call_convert_image.
  repeat first [progress intros | apply images_stable
               | apply export_image_scan_stable
               | keeps_stable_step | keeps_branches].
Qed.

End StableViews.

Section FirstAccess.
Import pinnacle.
#[local] Open Scope facade_scope.
Context (pinn_to_dict : string -> result dict).
Context (repr : pyval -> string).

Lemma mbind_assoc {A B C} (m : M A) (k : A -> M B) (k' : B -> M C) (st : state) :
  mbind (mbind m k) k' st = mbind m (fun a => mbind (k a) k') st.
Proof. unfold mbind. destruct (m st) as [[a|e] st1]; reflexivity. Qed.

(** The first access of [patient_info] on a new instance reads the Patient
    file, once. *)
Lemma patient_info_first_access (path : string) :
  exists r st1,
    patient_info pinn_to_dict repr (init path) = (r, st1)
    /\ trace st1 =
       [EvDebug (str_add "Reading patient data from: " (path_join path "Patient"));
        EvPinnToDict (path_join path "Patient")].
Proof.
  destruct (patient_info pinn_to_dict repr (init path)) as [r st1] eqn:H.
  exists r, st1. split; [reflexivity|].
  unfold patient_info in H.
  unfold mbind at 1 in H. cbn [get_self init self _patient_info] in H.
  unfold mbind at 1 in H. cbn [truthy ret negb] in H.
  rewrite mbind_assoc in H.
  unfold mbind at 1 in H. cbn [log self heap trace _path] in H.
  rewrite mbind_assoc in H.
  unfold mbind at 1 in H. cbn [log self heap trace _path] in H.
  match type of H with
  | ?rest ?s2 = _ =>
      assert (Hrest : spec.keeps spec.silent rest)
        by (repeat first [progress intros | keeps_silent_step | keeps_branches]);
      apply Hrest in H
  end.
  exact H.
Qed.

End FirstAccess.

Section CachedViews.
Import pinnacle.
Context (pinn_to_dict : string -> result dict).
Context (image_info : PinnacleImage -> result (list pyval)).
Context (convert_image : PinnacleImage -> string -> result unit).
Context (repr : pyval -> string).

(** C2, as the code has it.  The patient record is read on the first access
    of [patient_info] of a new instance, and once an access has returned,
    every later access returns the same object and does nothing else.
    [plans] and [images] do the same once the list they have built is not
    empty; a list that is empty counts as not loaded.  No access and no
    export assigns an attribute that is loaded or takes anything out of a
    container, so that what is loaded stays loaded. *)
Theorem views_cached_once_loaded :
  (forall st r st1,
     patient_info pinn_to_dict repr st = (Ok r, st1) ->
     patient_info pinn_to_dict repr st1 = (Ok r, st1))
  /\ (forall st l ps st1,
        plans pinn_to_dict repr st = (Ok (Some l), st1) ->
        heap st1 !! l = Some (OPlans ps) -> ps <> [] ->
        plans pinn_to_dict repr st1 = (Ok (Some l), st1))
  /\ (forall st l ims st1,
        images pinn_to_dict repr st = (Ok (Some l), st1) ->
        heap st1 !! l = Some (OImages ims) -> ims <> [] ->
        images pinn_to_dict repr st1 = (Ok (Some l), st1))
  /\ (forall path, exists r st1,
        patient_info pinn_to_dict repr (init path) = (r, st1)
        /\ trace st1 =
           [EvDebug (str_add "Reading patient data from: " (path_join path "Patient"));
            EvPinnToDict (path_join path "Patient")])
  /\ spec.keeps spec.stable (patient_info pinn_to_dict repr)
  /\ spec.keeps spec.stable (plans pinn_to_dict repr)
  /\ spec.keeps spec.stable (images pinn_to_dict repr)
  /\ (forall image series_uid export_path,
        spec.keeps spec.stable
          (export_image pinn_to_dict image_info convert_image repr
             image series_uid export_path))
  /\ (forall r st st', spec.stable st st' -> spec.loaded r st -> spec.loaded r st').
Proof.
  split; [intros st r st1; apply patient_info_cached|].
  split; [intros st l ps st1; apply plans_cached|].
  split; [intros st l ims st1; apply images_cached|].
  split; [apply patient_info_first_access|].
  split; [apply patient_info_stable|].
  split; [apply plans_stable|].
  split; [apply images_stable|].
  split; [apply export_image_stable|].
  intros r st st' [Hg _]. now apply loaded_grows.
Qed.

End CachedViews.

(** C2, witness: the image sets of the sample record are built on the first
    access and returned as they are on the second. *)
Lemma views_cached_once_loaded_witness :
  let st1 := snd (pinnacle.images sample.pinn_to_dict sample.repr
                    (pinnacle.init "/data")) in
  pinnacle.images sample.pinn_to_dict sample.repr st1 = (Ok (Some 0%nat), st1).
Proof.
  intros st1.
  refine (proj1 (proj2 (proj2 (views_cached_once_loaded sample.pinn_to_dict
                                 sample.image_info sample.convert_image
                                 sample.repr)))
            (pinnacle.init "/data") 0%nat
            [pinnacle.mkImage "/data" (sample.image_set 0);
             pinnacle.mkImage "/data" (sample.image_set 1);
             pinnacle.mkImage "/data" (sample.image_set 2)]
            st1 _ _ _).
  - vm_compute. reflexivity.
  - vm_compute. reflexivity.
  - discriminate.
Defined.

(** C2, counterexample: the sample record lists no plans; the second access
    of [plans] builds a new list and returns it instead of the first. *)
Lemma plans_recomputed_counterexample :
  exists st1 st2 l1 l2,
    pinnacle.plans sample.pinn_to_dict sample.repr (pinnacle.init "/data") =
      (Ok (Some l1), st1)
    /\ pinnacle.plans sample.pinn_to_dict sample.repr st1 = (Ok (Some l2), st2)
    /\ l1 <> l2
    /\ length (pinnacle.heap st1) = 2%nat
    /\ length (pinnacle.heap st2) = 3%nat.
Proof.
  eexists _, _, _, _.
  split; [vm_compute; reflexivity|].
  split; [vm_compute; reflexivity|].
  split; [discriminate|].
  split; reflexivity.
Qed.

(** C9, witness: the sample record has three image sets with the series
    UIDs 1.2.0, 1.2.1 and 1.2.2; asking for 1.2.1 and passing the third
    image converts the second image and then the third. *)
Lemma export_image_scan_and_explicit_witness :
  let im n := pinnacle.mkImage "/data" (sample.image_set n) in
  let ims := [im 0%Z; im 1%Z; im 2%Z] in
  let st1 := snd (pinnacle.images_list sample.pinn_to_dict sample.repr
                    (pinnacle.init "/data")) in
  pinnacle.export_image sample.pinn_to_dict sample.image_info
    sample.convert_image sample.repr
    (Some (im 2%Z)) "1.2.1" "." (pinnacle.init "/data") =
  (Ok tt,
   spec.logged st1
     (spec.converts "."
        (spec.option_list (spec.scan_target sample.image_info "1.2.1" ims)
         ++ spec.option_list (Some (im 2%Z)))))
  /\ spec.scan_target sample.image_info "1.2.1" ims = Some (im 1%Z).
Proof.
  intros im ims st1. split; [|vm_compute; reflexivity].
  refine (proj1 (export_image_scan_and_explicit sample.pinn_to_dict
                   sample.image_info sample.convert_image sample.repr
                   (pinnacle.init "/data") st1 ims (Some (im 2%Z)) "1.2.1" "."
                   _ _ _)).
  - vm_compute. reflexivity.
  - intros i Hi. cbn [In ims] in Hi.
    destruct Hi as [<-|[<-|[<-|[]]]]; eexists; vm_compute; reflexivity.
  - intros i. reflexivity.
Defined.

(** C6, witness: the separator of "1990/1/2" is the slash. *)
Lemma dob_normalisation_witness :
  spec.dob_separator "1990/1/2" = "/"%char
  /\ pinnacle.dob_of "1990/1/2" = spec.dob_normal_form "1990/1/2".
Proof.
  destruct (dob_normalisation "1990/1/2") as (Hnf & _ & _ & Hslash & _).
  split; [|exact Hnf].
  apply Hslash; reflexivity.
Defined.

(** C10, witness: with the default UID the call on the sample record
    converts the image passed explicitly and nothing else, although the
    record has image sets. *)
Lemma export_image_empty_uid_witness :
  let im := pinnacle.mkImage "/data" (sample.image_set 1) in
  exists r st' evs,
    pinnacle.export_image sample.pinn_to_dict sample.image_info
      sample.convert_image sample.repr (Some im) "" "."
      (pinnacle.init "/data") = (r, st')
    /\ pinnacle.trace st' = pinnacle.trace (pinnacle.init "/data") ++ evs
    /\ spec.convert_calls evs = [(im, ".")].
Proof.
  intros im.
  destruct (export_image_empty_uid sample.pinn_to_dict sample.image_info
              sample.convert_image sample.repr
              (pinnacle.init "/data") (Some im) ".")
    as (r & st' & evs & H & Ht & _ & Himp).
  exists r, st', evs. split; [exact H|]. split; [exact Ht|].
  apply Himp.
  assert (Hr : fst (pinnacle.export_image sample.pinn_to_dict sample.image_info
                      sample.convert_image sample.repr (Some im) "" "."
                      (pinnacle.init "/data")) = Ok tt)
    by (vm_compute; reflexivity).
  rewrite H in Hr. exact Hr.
Defined.

(** ** The histogram when the mask fits the dose array *)

Section DvhShapes.
Import np dose.
Context (Struct : Type).
Context (pull_structure :
  string -> Struct -> result (list (list Q) * list (list Q) * list (list Q))).
Context (contains_point : list (Q * Q) -> Q * Q -> bool).

Lemma select_not_nil {A} (items : list A) (mask : list bool) :
  length items = length mask -> In true mask -> select items mask <> [].
Proof.
  revert mask. induction items as [|a items IH]; intros [|b mask] Hlen Hin;
    try discriminate; try contradiction.
  cbn [select]. destruct b; [discriminate|].
  destruct Hin as [H|H]; [discriminate|].
  apply IH; [|assumption]. simpl in Hlen. lia.
Qed.

Lemma shape_eqb_refl (s : nat * nat * nat) : shape_eqb s s = true.
Proof. destruct s as [[a b] c]. unfold shape_eqb. now rewrite !Nat.eqb_refl. Qed.

(** Where the pixel array has the shape of the mask, (rows, columns,
    frames), a mask with a true entry gives a curve that starts at 100
    percent and does not go up. *)
Lemma create_dvh_on_matching_shapes (structure : string) (dcm_struct : Struct)
    (dcm_dose : Dataset) (mask : array3 bool) :
  get_dose_grid_structure_mask Struct pull_structure contains_point
    structure dcm_struct dcm_dose = Ok mask ->
  In true (data3 mask) ->
  shape3 (pixel_array dcm_dose) = shape3 mask ->
  length (data3 (pixel_array dcm_dose)) = length (data3 mask) ->
  exists mids pcts,
    create_dvh Struct pull_structure contains_point structure dcm_struct dcm_dose =
      Ok (tt, [plt.plot mids pcts structure; plt.title "DVH";
               plt.xlabel "Dose (Gy)"; plt.ylabel "Relative Volume (%)"])
    /\ spec.non_increasing pcts
    /\ exists q, pcts !! 0%nat = Some (Some q) /\ (q == 100)%Q.
Proof.
  intros Hmask Htrue Hshape Hlen.
  set (vals := select (data3 (dose_from_dataset dcm_dose)) (data3 mask)).
  assert (Hne : vals <> []).
  { apply select_not_nil; [|assumption].
    unfold dose_from_dataset. cbn [data3]. now rewrite length_map. }
  assert (Hn : (0 < length vals)%nat) by (destruct vals; [done|simpl; lia]).
  destruct (dvh_curve_spec vals Hne)
    as (mids & pcts & Hcurve & _ & _ & _ & Hp0 & _ & Hmono).
  exists mids, pcts. split; [|split].
  - unfold create_dvh, find_dose_within_structure. rewrite Hmask. cbn [bind].
    unfold boolean_index. unfold dose_from_dataset at 1. cbn [shape3].
    rewrite Hshape, shape_eqb_refl. cbn [bind].
    fold vals. rewrite Hcurve. reflexivity.
  - exact Hmono.
  - eexists. split; [exact Hp0|]. now apply percent_of_all.
Qed.

End DvhShapes.

(** * Further properties of the code *)

(** ** Interpolation: the requests that are refused *)

Section InterpolationErrors.
Import np dose.
Context (Plan : Type).
Context (require_gantries_be_zero : Plan -> result unit).
Context (get_surface_entry_point_with_fallback : Plan -> result Point.t).

(** X1. A coordinate given as a bare number is a 0-d array, and indexing it
    with three indices raises IndexError before the dataset is looked at:
    [dicom_dose_interpolate] refuses it whatever the dataset, and so do
    [depth_dose] for a bare depth and [profile] for a bare displacement once
    the plan has passed the gantry check and has an entry point. *)
Theorem interpolation_rejects_bare_numbers (ds : Dataset) :
  (forall c0 c1 c2 v,
     c0 = Scalar v \/ c1 = Scalar v \/ c2 = Scalar v ->
     dicom_dose_interpolate (c0, c1, c2) ds = Error too_many_indices)
  /\ (forall plan entry d,
        require_gantries_be_zero plan = Ok tt ->
        get_surface_entry_point_with_fallback plan = Ok entry ->
        depth_dose Plan require_gantries_be_zero get_surface_entry_point_with_fallback
          (Scalar d) ds plan = Error too_many_indices)
  /\ (forall plan entry d depth direction,
        require_gantries_be_zero plan = Ok tt ->
        get_surface_entry_point_with_fallback plan = Ok entry ->
        In direction spec.directions ->
        profile Plan require_gantries_be_zero get_surface_entry_point_with_fallback
          (Scalar d) depth direction ds plan = Error too_many_indices).
Proof.
  split; [|split].
  - intros c0 c1 c2 v H. unfold dicom_dose_interpolate.
    destruct c0, c1, c2; cbn [index_first index_second index_third bind];
      try reflexivity.
    destruct H as [H|[H|H]]; discriminate.
  - intros plan entry d Hg He. unfold depth_dose. rewrite Hg, He. reflexivity.
  - intros plan entry d depth direction Hg He Hdir.
    unfold profile. rewrite Hg, He. cbn [bind].
    cbn in Hdir. destruct Hdir as [<-|[<-|[<-|[<-|[]]]]]; reflexivity.
Qed.

Lemma forallb_same_items {A} (P : A -> bool) (l l' : list A) :
  (forall a, In a l <-> In a l') -> forallb P l = forallb P l'.
Proof.
  intros H. destruct (forallb P l) eqn:E, (forallb P l') eqn:E'; try reflexivity.
  - rewrite forallb_forall in E. rewrite <- E'. symmetry. apply forallb_forall.
    intros a Ha. apply E, H, Ha.
  - rewrite forallb_forall in E'. rewrite <- E. apply forallb_forall.
    intros a Ha. apply E', H, Ha.
Qed.

Lemma forallb_andb {A} (P R : A -> bool) (l : list A) :
  forallb (fun a => P a && R a) l = forallb P l && forallb R l.
Proof.
  induction l as [|a l IH]; [reflexivity|]. cbn [forallb]. rewrite IH.
  destruct (P a), (R a), (forallb P l), (forallb R l); reflexivity.
Qed.

(** The bounds test of one axis refuses exactly the requests with a
    coordinate outside. *)
Lemma check_bounds_spec (dim : nat) (g pts : list Q) :
  g <> [] ->
  scipy.check_bounds dim g pts =
  if spec.all_within g pts then Ok tt else Error (spec.out_of_bounds dim).
Proof.
  intros Hg. destruct g as [|first g']; [done|].
  unfold scipy.check_bounds, spec.all_within, spec.within.
  rewrite forallb_andb. reflexivity.
Qed.

Lemma tabulate3_first_items (zs : list Q) (n p : nat) (v : Q) :
  (0 < n)%nat -> (0 < p)%nat ->
  In v (tabulate3 (length zs) n p
          (fun i _ _ => nth (if Nat.eqb (length zs) 1 then 0%nat else i) zs 0%Q))
  <-> In v zs.
Proof.
  intros Hn Hp. split.
  - intros H. apply tabulate3_In in H as (i & j & k & Hi & _ & _ & ->).
    destruct (lookup_lt_is_Some_2 zs i Hi) as [zi Hzi].
    rewrite (nth_stride _ _ _ Hzi).
    apply list_elem_of_In. eapply list_elem_of_lookup_2. eassumption.
  - intros H. apply list_elem_of_In, list_elem_of_lookup_1 in H as [i Hi].
    pose proof (lookup_lt_Some _ _ _ Hi) as Hlt.
    apply list_elem_of_In. apply (list_elem_of_lookup_2 _ ((i * n + 0) * p + 0)).
    rewrite tabulate3_lookup by assumption. now rewrite (nth_stride _ _ _ Hi).
Qed.

Lemma tabulate3_second_items (ys : list Q) (m p : nat) (v : Q) :
  (0 < m)%nat -> (0 < p)%nat ->
  In v (tabulate3 m (length ys) p
          (fun _ j _ => nth (if Nat.eqb (length ys) 1 then 0%nat else j) ys 0%Q))
  <-> In v ys.
Proof.
  intros Hm Hp. split.
  - intros H. apply tabulate3_In in H as (i & j & k & _ & Hj & _ & ->).
    destruct (lookup_lt_is_Some_2 ys j Hj) as [yj Hyj].
    rewrite (nth_stride _ _ _ Hyj).
    apply list_elem_of_In. eapply list_elem_of_lookup_2. eassumption.
  - intros H. apply list_elem_of_In, list_elem_of_lookup_1 in H as [j Hj].
    pose proof (lookup_lt_Some _ _ _ Hj) as Hlt.
    apply list_elem_of_In.
    apply (list_elem_of_lookup_2 _ ((0 * length ys + j) * p + 0)).
    rewrite tabulate3_lookup by assumption. now rewrite (nth_stride _ _ _ Hj).
Qed.

Lemma tabulate3_third_items (xs : list Q) (m n : nat) (v : Q) :
  (0 < m)%nat -> (0 < n)%nat ->
  In v (tabulate3 m n (length xs)
          (fun _ _ k => nth (if Nat.eqb (length xs) 1 then 0%nat else k) xs 0%Q))
  <-> In v xs.
Proof.
  intros Hm Hn. split.
  - intros H. apply tabulate3_In in H as (i & j & k & _ & _ & Hk & ->).
    destruct (lookup_lt_is_Some_2 xs k Hk) as [xk Hxk].
    rewrite (nth_stride _ _ _ Hxk).
    apply list_elem_of_In. eapply list_elem_of_lookup_2. eassumption.
  - intros H. apply list_elem_of_In, list_elem_of_lookup_1 in H as [k Hk].
    pose proof (lookup_lt_Some _ _ _ Hk) as Hlt.
    apply list_elem_of_In.
    apply (list_elem_of_lookup_2 _ ((0 * n + 0) * length xs + k)).
    rewrite tabulate3_lookup by assumption. now rewrite (nth_stride _ _ _ Hk).
Qed.

Lemma length_pos_not_nil {A} (l : list A) : l <> [] -> (0 < length l)%nat.
Proof. destruct l; [done|simpl; lia]. Qed.

(** X2. No extrapolation: when requested coordinates (none of the three
    sequences empty) are not all within the axes of the dose grid,
    [dicom_dose_interpolate] raises the ValueError of scipy that names the
    first axis, in the order z, y, x, with a coordinate outside. *)
Theorem interpolation_out_of_bounds (ds : Dataset) (zs ys xs : list Q)
    (f : scipy.RegularGridInterpolator) :
  scipy.new (z_axis ds, y_axis ds, x_axis ds) (dose_from_dataset ds) = Ok f ->
  z_axis ds <> [] -> y_axis ds <> [] -> x_axis ds <> [] ->
  zs <> [] -> ys <> [] -> xs <> [] ->
  spec.all_within (z_axis ds) zs && spec.all_within (y_axis ds) ys
    && spec.all_within (x_axis ds) xs = false ->
  dicom_dose_interpolate (Vector zs, Vector ys, Vector xs) ds =
  Error (spec.out_of_bounds (spec.first_outside ds zs ys xs)).
Proof.
  intros Hnew Hz Hy Hx Hzs Hys Hxs Hout.
  pose proof (new_ok _ _ _ Hnew) as Hf.
  apply length_pos_not_nil in Hzs, Hys, Hxs.
  unfold dicom_dose_interpolate. cbn [index_first index_second index_third bind].
  unfold zyx_and_dose_from_dataset, xyz_axes_from_dataset in *.
  cbn [fst snd] in *. rewrite Hnew. cbn [bind].
  unfold scipy.call. subst f. cbn [scipy.grid shape3].
  destruct (broadcast_shape_outer (length zs) (length ys) (length xs)) as [-> Hsh].
  cbn [bind]. rewrite Hsh. cbn [bind].
  rewrite broadcast_first, broadcast_second, broadcast_third.
  rewrite !check_bounds_spec by assumption.
  unfold spec.all_within at 1 2 3.
  rewrite (forallb_same_items (spec.within (z_axis ds)) _ zs) by (intros a; now apply tabulate3_first_items).
  rewrite (forallb_same_items (spec.within (y_axis ds)) _ ys) by (intros a; now apply tabulate3_second_items).
  rewrite (forallb_same_items (spec.within (x_axis ds)) _ xs) by (intros a; now apply tabulate3_third_items).
  unfold spec.first_outside. unfold spec.all_within in *.
  destruct (forallb (spec.within (z_axis ds)) zs); [|reflexivity].
  destruct (forallb (spec.within (y_axis ds)) ys); [|reflexivity].
  destruct (forallb (spec.within (x_axis ds)) xs); [discriminate|reflexivity].
Qed.

End InterpolationErrors.

(** X2, witness: y = 2 on the grid with y in {0, 1}. *)
Lemma interpolation_out_of_bounds_witness :
  dose.dicom_dose_interpolate
    (np.Vector [0%Q], np.Vector [2%Q], np.Vector [0%Q]) sample.cube =
  Error (spec.out_of_bounds 1).
Proof.
  refine (interpolation_out_of_bounds sample.cube [0%Q] [2%Q] [0%Q]
            (scipy.mkInterpolator
               ([0; 1]%Q, [0; 1]%Q, [0; 1]%Q)
               (dose.dose_from_dataset sample.cube))
            _ _ _ _ _ _ _ _); try discriminate; vm_compute; reflexivity.
Defined.

(** ** Interpolation at the points of the grid *)

Section GridNodes.
Import np dose.

Lemma Qle_bool_false (a b : Q) : Qle_bool a b = false <-> (b < a)%Q.
Proof.
  split.
  - intros H. apply Qnot_le_lt. intros Hle. apply Qle_bool_iff in Hle. congruence.
  - intros H. destruct (Qle_bool a b) eqn:E; [|reflexivity].
    apply Qle_bool_iff in E. lra.
Qed.

Lemma strictly_ascending_cons (a : Q) (g : list Q) :
  scipy.strictly_ascending (a :: g) = true ->
  scipy.strictly_ascending g = true /\ forall b, In b g -> (a < b)%Q.
Proof.
  revert a. induction g as [|b g IH]; intros a H.
  - split; [reflexivity|]. intros b [].
  - cbn [scipy.strictly_ascending] in H. apply andb_true_iff in H as [Hab Hg].
    apply negb_true_iff, Qle_bool_false in Hab.
    split; [exact Hg|]. intros c [<-|Hc]; [exact Hab|].
    destruct (IH b Hg) as [_ Hb]. specialize (Hb c Hc). lra.
Qed.

Lemma ascending_lookup_lt (g : list Q) (i j : nat) (a b : Q) :
  scipy.strictly_ascending g = true ->
  g !! i = Some a -> g !! j = Some b -> (i < j)%nat -> (a < b)%Q.
Proof.
  revert i j. induction g as [|c g IH]; intros i j Hg Hi Hj Hlt; [discriminate|].
  destruct (strictly_ascending_cons c g Hg) as [Hg' Hc].
  destruct j as [|j]; [lia|]. cbn in Hj.
  destruct i as [|i].
  - cbn in Hi. injection Hi as <-. apply Hc.
    apply list_elem_of_In. eapply list_elem_of_lookup_2. eassumption.
  - cbn in Hi. apply (IH i j); [assumption..|lia].
Qed.

Lemma searchsorted_at (g : list Q) (i : nat) (v : Q) :
  scipy.strictly_ascending g = true -> g !! i = Some v ->
  scipy.searchsorted g v = i.
Proof.
  revert i. induction g as [|a g IH]; intros i Hg Hi; [discriminate|].
  destruct (strictly_ascending_cons a g Hg) as [Hg' Ha].
  cbn [scipy.searchsorted]. destruct i as [|i].
  - cbn in Hi. injection Hi as <-.
    assert (H : Qle_bool a a = true) by (apply Qle_bool_iff; lra).
    now rewrite H.
  - cbn in Hi.
    assert (H : Qle_bool v a = false).
    { apply Qle_bool_false, Ha, list_elem_of_In.
      eapply list_elem_of_lookup_2. eassumption. }
    rewrite H. f_equal. now apply IH.
Qed.

Lemma last_lookup_default (g : list Q) (d : Q) :
  g <> [] -> g !! (length g - 1)%nat = Some (List.last g d).
Proof.
  induction g as [|a g IH]; [done|]. intros _.
  destruct g as [|b g]; [reflexivity|].
  change (List.last (a :: b :: g) d) with (List.last (b :: g) d).
  rewrite <- IH by discriminate. cbn [length].
  replace (S (S (length g)) - 1)%nat with (S (S (length g) - 1)) by lia.
  reflexivity.
Qed.

(** A point of an ascending axis lies within the axis. *)
Lemma ascending_within (g : list Q) (i : nat) (v : Q) :
  scipy.strictly_ascending g = true -> g !! i = Some v -> spec.within g v = true.
Proof.
  intros Hg Hi. destruct g as [|first g']; [discriminate|].
  unfold spec.within.
  assert (H0 : (first :: g') !! 0%nat = Some first) by reflexivity.
  assert (Hne : first :: g' <> []) by discriminate.
  set (g := first :: g') in *.
  pose proof (lookup_lt_Some _ _ _ Hi) as Hlt.
  pose proof (last_lookup_default g first Hne) as Hlast.
  apply andb_true_iff. split; apply Qle_bool_iff.
  - destruct i as [|i]; [rewrite H0 in Hi; injection Hi as <-; apply Qle_refl|].
    apply Qlt_le_weak. apply (ascending_lookup_lt g 0 (S i)); [assumption..|lia].
  - destruct (Nat.eq_dec i (length g - 1)) as [->|Hneq].
    + rewrite Hlast in Hi. injection Hi as <-. apply Qle_refl.
    + apply Qlt_le_weak.
      apply (ascending_lookup_lt g i (length g - 1)); [assumption..|lia].
Qed.

(** At a point of the axis the cell found is the one below or the one
    above, and the fraction is 0 or 1. *)
Lemma find_index_at (g : list Q) (i : nat) (v : Q) :
  scipy.strictly_ascending g = true -> (2 <= length g)%nat -> g !! i = Some v ->
  exists c t,
    scipy.find_index g v = Some (c, t)
    /\ (((t == 0)%Q /\ c = i) \/ ((t == 1)%Q /\ S c = i)).
Proof.
  intros Hg Hlen Hi. unfold scipy.find_index.
  rewrite (searchsorted_at g i v Hg Hi).
  pose proof (lookup_lt_Some _ _ _ Hi) as Hlt.
  destruct i as [|i].
  - replace (Nat.min (0 - 1) (length g - 2)) with 0%nat by lia.
    rewrite Hi.
    destruct (lookup_lt_is_Some_2 g 1 ltac:(lia)) as [hi Hhi]. rewrite Hhi.
    pose proof (ascending_lookup_lt g 0 1 v hi Hg Hi Hhi ltac:(lia)) as Hv.
    destruct (Qeq_bool (hi - v) 0) eqn:E; [apply Qeq_bool_iff in E; lra|].
    eexists _, _. split; [reflexivity|]. left. split; [|reflexivity].
    field. lra.
  - replace (Nat.min (S i - 1) (length g - 2)) with i by lia.
    rewrite Hi.
    destruct (lookup_lt_is_Some_2 g i ltac:(lia)) as [lo Hlo]. rewrite Hlo.
    pose proof (ascending_lookup_lt g i (S i) lo v Hg Hlo Hi ltac:(lia)) as Hv.
    destruct (Qeq_bool (v - lo) 0) eqn:E; [apply Qeq_bool_iff in E; lra|].
    eexists _, _. split; [reflexivity|]. right. split; [|reflexivity].
    field. lra.
Qed.

(** With fractions 0 or 1 one corner of the cell has weight 1 and the others
    weight 0. *)
Lemma corner_sum (val : nat -> nat -> nat -> Q) (c0 c1 c2 i j k : nat) (t0 t1 t2 : Q) :
  (((t0 == 0)%Q /\ c0 = i) \/ ((t0 == 1)%Q /\ S c0 = i)) ->
  (((t1 == 0)%Q /\ c1 = j) \/ ((t1 == 1)%Q /\ S c1 = j)) ->
  (((t2 == 0)%Q /\ c2 = k) \/ ((t2 == 1)%Q /\ S c2 = k)) ->
  (fold_left
     (fun acc '(e0, e1, e2) =>
        (acc + val (scipy.edge c0 e0) (scipy.edge c1 e1) (scipy.edge c2 e2)
               * (scipy.weight e0 t0 * scipy.weight e1 t1 * scipy.weight e2 t2))%Q)
     scipy.corners 0%Q == val i j k)%Q.
Proof.
  intros H0 H1 H2.
  cbn [fold_left scipy.corners scipy.edge scipy.weight].
  destruct H0 as [[E0 <-]|[E0 <-]], H1 as [[E1 <-]|[E1 <-]], H2 as [[E2 <-]|[E2 <-]];
    rewrite E0, E1, E2; ring.
Qed.

Lemma new_ok_axes (p0 p1 p2 : list Q) (vals : array3 Q) (f : scipy.RegularGridInterpolator) :
  scipy.new (p0, p1, p2) vals = Ok f ->
  scipy.strictly_ascending p0 = true /\ scipy.strictly_ascending p1 = true
  /\ scipy.strictly_ascending p2 = true
  /\ shape3 vals = (length p0, length p1, length p2).
Proof.
  unfold scipy.new. destruct (shape3 vals) as [[d0 d1] d2].
  unfold scipy.check_axis.
  destruct (scipy.strictly_ascending p0); [|discriminate]. cbn [negb].
  destruct (Nat.eqb_spec d0 (length p0)) as [->|]; [|discriminate]. cbn [negb bind].
  destruct (scipy.strictly_ascending p1); [|discriminate]. cbn [negb].
  destruct (Nat.eqb_spec d1 (length p1)) as [->|]; [|discriminate]. cbn [negb bind].
  destruct (scipy.strictly_ascending p2); [|discriminate]. cbn [negb].
  destruct (Nat.eqb_spec d2 (length p2)) as [->|]; [|discriminate].
  intros _. now repeat split.
Qed.

(** X3. At a point of the dose grid the interpolation returns the dose
    stored there: for axes of at least two points, requesting the single
    point (z[i], y[j], x[k]) gives pixel (i, j, k) times the dose grid
    scaling. *)
Theorem interpolation_at_grid_node (ds : Dataset) (f : scipy.RegularGridInterpolator)
    (i j k : nat) (zi yj xk : Q) (px : Z) :
  scipy.new (z_axis ds, y_axis ds, x_axis ds) (dose_from_dataset ds) = Ok f ->
  (2 <= length (z_axis ds))%nat -> (2 <= length (y_axis ds))%nat ->
  (2 <= length (x_axis ds))%nat ->
  z_axis ds !! i = Some zi -> y_axis ds !! j = Some yj -> x_axis ds !! k = Some xk ->
  item3 (pixel_array ds) i j k = Some px ->
  exists r q,
    dicom_dose_interpolate (Vector [zi], Vector [yj], Vector [xk]) ds = Ok r
    /\ squeeze r = mkNdarray [] [Some q]
    /\ (q == inject_Z px * DoseGridScaling ds)%Q.
Proof.
  intros Hnew Lz Ly Lx Hz Hy Hx Hpx.
  destruct (new_ok_axes _ _ _ _ _ Hnew) as (Az & Ay & Ax & Hsh).
  destruct (interpolate_point ds zi yj xk f Hnew) as (r & Hr & Hsq);
    [eapply ascending_within; eassumption..|].
  destruct (find_index_at _ _ _ Az Lz Hz) as (c0 & t0 & F0 & D0).
  destruct (find_index_at _ _ _ Ay Ly Hy) as (c1 & t1 & F1 & D1).
  destruct (find_index_at _ _ _ Ax Lx Hx) as (c2 & t2 & F2 & D2).
  pose proof (new_ok _ _ _ Hnew) as ->.
  eexists r, _. split; [exact Hr|]. split.
  - rewrite Hsq. unfold scipy.evaluate_linear. cbn [scipy.grid scipy.values].
    rewrite F0, F1, F2. reflexivity.
  - rewrite (corner_sum
               (fun a b c => nth (offset3 (shape3 (dose_from_dataset ds)) a b c)
                               (data3 (dose_from_dataset ds)) 0%Q)
               c0 c1 c2 i j k t0 t1 t2 D0 D1 D2).
    unfold item3 in Hpx. unfold dose_from_dataset. cbn [shape3 data3].
    destruct (shape3 (pixel_array ds)) as [[d0 d1] d2] eqn:Es.
    destruct (Nat.ltb i d0 && Nat.ltb j d1 && Nat.ltb k d2); [|discriminate].
    erewrite nth_lookup_Some; [reflexivity|].
    match goal with |- map ?g ?l !! _ = _ => change (map g l) with (g <$> l) end.
    rewrite list_lookup_fmap, Hpx. reflexivity.
Qed.

End GridNodes.

(** X3, witness: the point (z, y, x) = (1, 0, 1) of the 2 x 2 x 2 grid holds
    pixel 6, a dose of 3. *)
Lemma interpolation_at_grid_node_witness :
  exists r q,
    dose.dicom_dose_interpolate
      (np.Vector [1%Q], np.Vector [0%Q], np.Vector [1%Q]) sample.cube = Ok r
    /\ np.squeeze r = np.mkNdarray [] [Some q]
    /\ (q == 3)%Q.
Proof.
  destruct (interpolation_at_grid_node sample.cube
              (scipy.mkInterpolator
                 ([0; 1]%Q, [0; 1]%Q, [0; 1]%Q)
                 (dose.dose_from_dataset sample.cube))
              1 0 1 1%Q 0%Q 1%Q 6%Z)
    as (r & q & Hr & Hs & Hq); try reflexivity; try (cbn; lia).
  exists r, q. split; [exact Hr|]. split; [exact Hs|].
  rewrite Hq. reflexivity.
Defined.

(** ** Depth doses and profiles along a line *)

Section Lines.
Import np dose.
Context (Plan : Type).
Context (require_gantries_be_zero : Plan -> result unit).
Context (get_surface_entry_point_with_fallback : Plan -> result Point.t).

(** An array with one axis longer than 1 is, item by item, the list of its
    items along that axis. *)
Lemma items_first {A} (r : array3 A) (l : list A) :
  shape3 r = (length l, 1%nat, 1%nat) -> length (data3 r) = length l ->
  (forall i a, l !! i = Some a -> item3 r i 0 0 = Some a) -> data3 r = l.
Proof.
  intros Hsh Hlen Hitem. apply list_eq. intros i.
  destruct (l !! i) as [a|] eqn:E.
  - specialize (Hitem i a E). unfold item3 in Hitem. rewrite Hsh in Hitem.
    apply lookup_lt_Some, Nat.ltb_lt in E. rewrite E in Hitem.
    cbn [andb offset3 Nat.ltb Nat.leb] in Hitem.
    match type of Hitem with _ !! ?o = _ => replace o with i in Hitem by lia end.
    exact Hitem.
  - apply lookup_ge_None in E. apply lookup_ge_None. lia.
Qed.

Lemma items_second {A} (r : array3 A) (l : list A) :
  shape3 r = (1%nat, length l, 1%nat) -> length (data3 r) = length l ->
  (forall j a, l !! j = Some a -> item3 r 0 j 0 = Some a) -> data3 r = l.
Proof.
  intros Hsh Hlen Hitem. apply list_eq. intros j.
  destruct (l !! j) as [a|] eqn:E.
  - specialize (Hitem j a E). unfold item3 in Hitem. rewrite Hsh in Hitem.
    apply lookup_lt_Some, Nat.ltb_lt in E. rewrite E in Hitem.
    cbn [andb offset3 Nat.ltb Nat.leb] in Hitem.
    match type of Hitem with _ !! ?o = _ => replace o with j in Hitem by lia end.
    exact Hitem.
  - apply lookup_ge_None in E. apply lookup_ge_None. lia.
Qed.

Lemma items_third {A} (r : array3 A) (l : list A) :
  shape3 r = (1%nat, 1%nat, length l) -> length (data3 r) = length l ->
  (forall k a, l !! k = Some a -> item3 r 0 0 k = Some a) -> data3 r = l.
Proof.
  intros Hsh Hlen Hitem. apply list_eq. intros k.
  destruct (l !! k) as [a|] eqn:E.
  - specialize (Hitem k a E). unfold item3 in Hitem. rewrite Hsh in Hitem.
    apply lookup_lt_Some, Nat.ltb_lt in E. rewrite E in Hitem.
    cbn [andb offset3 Nat.ltb Nat.leb] in Hitem.
    match type of Hitem with _ !! ?o = _ => replace o with k in Hitem by lia end.
    exact Hitem.
  - apply lookup_ge_None in E. apply lookup_ge_None. lia.
Qed.

Lemma Forall_within_In (g : list Q) (c : Q) (l : list Q) (v : Q) :
  Forall (fun d => spec.within g (d + c) = true) l ->
  In v (map (fun d => (d + c)%Q) l) -> spec.within g v = true.
Proof.
  intros H Hv. apply in_map_iff in Hv as (d & <- & Hd).
  rewrite Forall_forall in H. apply H. now apply list_elem_of_In.
Qed.

(** X4. [depth_dose] for a sequence of depths: for a gantry-zero plan with
    an entry point whose z and x lie within the grid, and depths that stay
    within the y axis when added to the y of the entry point, the result is
    the list of the doses interpolated at (z, depth + y, x), one per depth
    and in their order (a 0-d array for a single depth). *)
Theorem depth_dose_curve (depths : list Q) (ds : Dataset) (plan : Plan)
    (entry : Point.t) (f : scipy.RegularGridInterpolator) :
  require_gantries_be_zero plan = Ok tt ->
  get_surface_entry_point_with_fallback plan = Ok entry ->
  scipy.new (z_axis ds, y_axis ds, x_axis ds) (dose_from_dataset ds) = Ok f ->
  spec.within (z_axis ds) (Point.z entry) = true ->
  spec.within (x_axis ds) (Point.x entry) = true ->
  depths <> [] ->
  Forall (fun d => spec.within (y_axis ds) (d + Point.y entry) = true) depths ->
  depth_dose Plan require_gantries_be_zero get_surface_entry_point_with_fallback
    (Vector depths) ds plan =
  Ok (mkNdarray
        (if Nat.eqb (length depths) 1 then [] else [length depths])
        (map (fun d => scipy.evaluate_linear f
                         (Point.z entry, (d + Point.y entry)%Q, Point.x entry))
             depths)).
Proof.
  intros Hg He Hnew Hz Hx Hne Hy.
  unfold depth_dose. rewrite Hg, He. cbn [bind add_scalar].
  destruct (interpolate_vectors ds [Point.z entry]
              (map (fun v => (v + Point.y entry)%Q) depths) [Point.x entry] f Hnew)
    as (r & -> & Hsh & Hlen & Hitem).
  - now apply within_not_nil in Hz.
  - destruct depths as [|d depths]; [done|].
    apply Forall_inv in Hy. now apply within_not_nil in Hy.
  - now apply within_not_nil in Hx.
  - intros zi yj xk [<-|[]] Hyj [<-|[]]. repeat split; try assumption.
    eapply Forall_within_In; eassumption.
  - cbn [bind]. f_equal. unfold squeeze. rewrite Hsh.
    rewrite length_map in *. cbn [length] in *.
    f_equal.
    + cbn. destruct (Nat.eqb (length depths) 1); reflexivity.
    + apply items_second.
      * now rewrite length_map.
      * rewrite length_map. lia.
      * intros j a Hj.
        match type of Hj with map ?g ?l !! _ = _ => change (map g l) with (g <$> l) in Hj end.
        rewrite list_lookup_fmap in Hj.
        destruct (depths !! j) as [d|] eqn:Ed; [|discriminate].
        injection Hj as <-.
        apply (Hitem 0%nat j 0%nat); [reflexivity| |reflexivity].
        match goal with |- map ?g ?l !! _ = _ => change (map g l) with (g <$> l) end.
        now rewrite list_lookup_fmap, Ed.
Qed.

(** X5. [profile] in the direction 'inplane' (or 'inline') varies z: for a
    gantry-zero plan whose entry point, moved down by the depth, lies within
    the grid, and displacements that stay within the z axis when added to
    the z of the entry point, the result is the list of the doses
    interpolated at (displacement + z, depth + y, x). *)
Theorem profile_inplane_curve (displacements : list Q) (depth : Q)
    (direction : string) (ds : Dataset) (plan : Plan)
    (entry : Point.t) (f : scipy.RegularGridInterpolator) :
  direction = "inplane" \/ direction = "inline" ->
  require_gantries_be_zero plan = Ok tt ->
  get_surface_entry_point_with_fallback plan = Ok entry ->
  scipy.new (z_axis ds, y_axis ds, x_axis ds) (dose_from_dataset ds) = Ok f ->
  spec.within (y_axis ds) (depth + Point.y entry) = true ->
  spec.within (x_axis ds) (Point.x entry) = true ->
  displacements <> [] ->
  Forall (fun d => spec.within (z_axis ds) (d + Point.z entry) = true) displacements ->
  profile Plan require_gantries_be_zero get_surface_entry_point_with_fallback
    (Vector displacements) depth direction ds plan =
  Ok (mkNdarray
        (if Nat.eqb (length displacements) 1 then [] else [length displacements])
        (map (fun d => scipy.evaluate_linear f
                         ((d + Point.z entry)%Q, (depth + Point.y entry)%Q,
                          Point.x entry))
             displacements)).
Proof.
  intros Hdir Hg He Hnew Hy Hx Hne Hz.
  unfold profile. rewrite Hg, He. cbn [bind].
  assert (Hd : str_in_pair direction "inplane" "inline" = true)
    by (destruct Hdir as [->| ->]; reflexivity).
  rewrite Hd. cbn [bind add_scalar].
  destruct (interpolate_vectors ds
              (map (fun v => (v + Point.z entry)%Q) displacements)
              [(depth + Point.y entry)%Q] [Point.x entry] f Hnew)
    as (r & -> & Hsh & Hlen & Hitem).
  - destruct displacements as [|d l]; [done|].
    apply Forall_inv in Hz. now apply within_not_nil in Hz.
  - now apply within_not_nil in Hy.
  - now apply within_not_nil in Hx.
  - intros zi yj xk Hzi [<-|[]] [<-|[]]. repeat split; try assumption.
    eapply Forall_within_In; eassumption.
  - cbn [bind]. f_equal. unfold squeeze. rewrite Hsh.
    rewrite length_map in *. cbn [length] in *.
    f_equal.
    + cbn. destruct (Nat.eqb (length displacements) 1); reflexivity.
    + apply items_first.
      * now rewrite length_map.
      * rewrite length_map. lia.
      * intros i a Hi.
        match type of Hi with map ?g ?l !! _ = _ => change (map g l) with (g <$> l) in Hi end.
        rewrite list_lookup_fmap in Hi.
        destruct (displacements !! i) as [d|] eqn:Ed; [|discriminate].
        injection Hi as <-.
        apply (Hitem i 0%nat 0%nat); [|reflexivity|reflexivity].
        match goal with |- map ?g ?l !! _ = _ => change (map g l) with (g <$> l) end.
        now rewrite list_lookup_fmap, Ed.
Qed.

(** X6. [profile] in the direction 'crossplane' (or 'crossline') varies x:
    under the same conditions, with the displacements added to the x of the
    entry point, the result is the list of the doses interpolated at
    (z, depth + y, displacement + x). *)
Theorem profile_crossplane_curve (displacements : list Q) (depth : Q)
    (direction : string) (ds : Dataset) (plan : Plan)
    (entry : Point.t) (f : scipy.RegularGridInterpolator) :
  direction = "crossplane" \/ direction = "crossline" ->
  require_gantries_be_zero plan = Ok tt ->
  get_surface_entry_point_with_fallback plan = Ok entry ->
  scipy.new (z_axis ds, y_axis ds, x_axis ds) (dose_from_dataset ds) = Ok f ->
  spec.within (z_axis ds) (Point.z entry) = true ->
  spec.within (y_axis ds) (depth + Point.y entry) = true ->
  displacements <> [] ->
  Forall (fun d => spec.within (x_axis ds) (d + Point.x entry) = true) displacements ->
  profile Plan require_gantries_be_zero get_surface_entry_point_with_fallback
    (Vector displacements) depth direction ds plan =
  Ok (mkNdarray
        (if Nat.eqb (length displacements) 1 then [] else [length displacements])
        (map (fun d => scipy.evaluate_linear f
                         (Point.z entry, (depth + Point.y entry)%Q,
                          (d + Point.x entry)%Q))
             displacements)).
Proof.
  intros Hdir Hg He Hnew Hz Hy Hne Hx.
  unfold profile. rewrite Hg, He. cbn [bind].
  assert (Hd : str_in_pair direction "inplane" "inline" = false)
    by (destruct Hdir as [->| ->]; reflexivity).
  assert (Hd' : str_in_pair direction "crossplane" "crossline" = true)
    by (destruct Hdir as [->| ->]; reflexivity).
  rewrite Hd, Hd'. cbn [bind add_scalar].
  destruct (interpolate_vectors ds [Point.z entry] [(depth + Point.y entry)%Q]
              (map (fun v => (v + Point.x entry)%Q) displacements) f Hnew)
    as (r & -> & Hsh & Hlen & Hitem).
  - now apply within_not_nil in Hz.
  - now apply within_not_nil in Hy.
  - destruct displacements as [|d l]; [done|].
    apply Forall_inv in Hx. now apply within_not_nil in Hx.
  - intros zi yj xk [<-|[]] [<-|[]] Hxk. repeat split; try assumption.
    eapply Forall_within_In; eassumption.
  - cbn [bind]. f_equal. unfold squeeze. rewrite Hsh.
    rewrite length_map in *. cbn [length] in *.
    f_equal.
    + cbn. destruct (Nat.eqb (length displacements) 1); reflexivity.
    + apply items_third.
      * now rewrite length_map.
      * rewrite length_map. lia.
      * intros k a Hk.
        match type of Hk with map ?g ?l !! _ = _ => change (map g l) with (g <$> l) in Hk end.
        rewrite list_lookup_fmap in Hk.
        destruct (displacements !! k) as [d|] eqn:Ed; [|discriminate].
        injection Hk as <-.
        apply (Hitem 0%nat 0%nat k); [reflexivity|reflexivity|].
        match goal with |- map ?g ?l !! _ = _ => change (map g l) with (g <$> l) end.
        now rewrite list_lookup_fmap, Ed.
Qed.

End Lines.

(** X4, witness: three depths below the entry point (1/2, 0, 1/2) of the
    sample plan. *)
Lemma depth_dose_curve_witness :
  let f := scipy.mkInterpolator ([0; 1]%Q, [0; 1]%Q, [0; 1]%Q)
             (dose.dose_from_dataset sample.cube) in
  dose.depth_dose sample.Plan sample.require_gantries_be_zero
    sample.get_surface_entry_point_with_fallback
    (np.Vector [0; 1 # 2; 1]%Q) sample.cube sample.plan =
  Ok (np.mkNdarray [3%nat]
        (map (fun d => scipy.evaluate_linear f ((1 # 2)%Q, (d + 0)%Q, (1 # 2)%Q))
             [0; 1 # 2; 1]%Q)).
Proof.
  intros f.
  refine (depth_dose_curve sample.Plan sample.require_gantries_be_zero
            sample.get_surface_entry_point_with_fallback
            [0; 1 # 2; 1]%Q sample.cube sample.plan
            (Point.mk (1 # 2) 0 (1 # 2)) f _ _ _ _ _ _ _);
    try reflexivity; try discriminate.
  repeat constructor.
Defined.

(** X5, witness: two displacements along z. *)
Lemma profile_inplane_curve_witness :
  let f := scipy.mkInterpolator ([0; 1]%Q, [0; 1]%Q, [0; 1]%Q)
             (dose.dose_from_dataset sample.cube) in
  dose.profile sample.Plan sample.require_gantries_be_zero
    sample.get_surface_entry_point_with_fallback
    (np.Vector [-(1 # 2); 1 # 4]%Q) (1 # 4) "inline" sample.cube sample.plan =
  Ok (np.mkNdarray [2%nat]
        (map (fun d => scipy.evaluate_linear f
                         ((d + (1 # 2))%Q, ((1 # 4) + 0)%Q, (1 # 2)%Q))
             [-(1 # 2); 1 # 4]%Q)).
Proof.
  intros f.
  refine (profile_inplane_curve sample.Plan sample.require_gantries_be_zero
            sample.get_surface_entry_point_with_fallback
            [-(1 # 2); 1 # 4]%Q (1 # 4) "inline" sample.cube sample.plan
            (Point.mk (1 # 2) 0 (1 # 2)) f _ _ _ _ _ _ _ _);
    try reflexivity; try discriminate.
  - now right.
  - repeat constructor.
Defined.

(** X6, witness: a single displacement along x gives a 0-d array. *)
Lemma profile_crossplane_curve_witness :
  let f := scipy.mkInterpolator ([0; 1]%Q, [0; 1]%Q, [0; 1]%Q)
             (dose.dose_from_dataset sample.cube) in
  dose.profile sample.Plan sample.require_gantries_be_zero
    sample.get_surface_entry_point_with_fallback
    (np.Vector [(1 # 4)%Q]) (1 # 4) "crossplane" sample.cube sample.plan =
  Ok (np.mkNdarray []
        [scipy.evaluate_linear f ((1 # 2)%Q, ((1 # 4) + 0)%Q, ((1 # 4) + (1 # 2))%Q)]).
Proof.
  intros f.
  refine (profile_crossplane_curve sample.Plan sample.require_gantries_be_zero
            sample.get_surface_entry_point_with_fallback
            [(1 # 4)%Q] (1 # 4) "crossplane" sample.cube sample.plan
            (Point.mk (1 # 2) 0 (1 # 2)) f _ _ _ _ _ _ _ _);
    try reflexivity; try discriminate.
  - now left.
  - repeat constructor.
Defined.

(** ** The content of the structure mask *)

Section MaskArrays.
Import np dose.

Lemma offset3_lt (d0 d1 d2 i j k : nat) :
  (i < d0)%nat -> (j < d1)%nat -> (k < d2)%nat ->
  (offset3 (d0, d1, d2) i j k < d0 * d1 * d2)%nat.
Proof.
  intros Hi Hj Hk. cbn [offset3].
  assert (H1 : (i * d1 + j < d0 * d1)%nat) by nia.
  set (a := (i * d1 + j)%nat) in *. set (b := (d0 * d1)%nat) in *.
  nia.
Qed.

Lemma voxel_zeros (sh : nat * nat * nat) (i j k : nat) :
  spec.voxel (zeros sh) i j k = false.
Proof.
  unfold spec.voxel, zeros. destruct sh as [[d0 d1] d2]. cbn [shape3 data3].
  generalize (offset3 (d0, d1, d2) i j k) as o. generalize (d0 * d1 * d2)%nat as n.
  induction n as [|n IH]; intros [|o]; cbn; auto.
Qed.

(** [a[:, :, k] |= plane] changes slice [k] only, and keeps the shape and
    the number of items. *)
Lemma or_plane_voxel (m : array3 bool) (d0 d1 d2 di : nat) (plane : list bool)
    (i j k : nat) :
  shape3 m = (d0, d1, d2) -> (i < d0)%nat -> (j < d1)%nat -> (k < d2)%nat ->
  spec.voxel (or_plane m di plane) i j k =
  spec.voxel m i j k || (Nat.eqb k di && nth (i * d1 + j) plane false).
Proof.
  intros Hsh Hi Hj Hk. unfold spec.voxel at 1, or_plane. rewrite Hsh.
  cbn [shape3 data3]. rewrite ?Hsh.
  erewrite nth_lookup_Some; [|cbn [offset3]; now apply tabulate3_lookup].
  unfold spec.voxel. rewrite Hsh.
  destruct (Nat.eqb k di); [reflexivity|]. now rewrite orb_false_r.
Qed.

Lemma or_plane_shape (m : array3 bool) (d0 d1 d2 di : nat) (plane : list bool) :
  shape3 m = (d0, d1, d2) ->
  shape3 (or_plane m di plane) = (d0, d1, d2)
  /\ length (data3 (or_plane m di plane)) = (d0 * d1 * d2)%nat.
Proof.
  intros Hsh. unfold or_plane. rewrite Hsh. cbn [shape3 data3].
  split; [first [reflexivity|assumption]|apply tabulate3_length].
Qed.

Lemma flat_map_lookup {A B} (g : A -> list B) (len : nat) (l : list A)
    (i j : nat) (a : A) :
  (forall a, length (g a) = len) -> l !! i = Some a -> (j < len)%nat ->
  flat_map g l !! (i * len + j)%nat = g a !! j.
Proof.
  intros Hg. revert i. induction l as [|b l IH]; intros i Hi Hj; [discriminate|].
  cbn [flat_map]. destruct i as [|i].
  - cbn in Hi. injection Hi as ->. cbn [Nat.mul Nat.add].
    apply lookup_app_l. now rewrite Hg.
  - cbn in Hi. rewrite lookup_app_r by (rewrite Hg; cbn; lia).
    rewrite Hg. replace (S i * len + j - len)%nat with (i * len + j)%nat by (cbn; lia).
    now apply IH.
Qed.

(** The containment test of the grid points, listed row by row. *)
Lemma plane_nth (contains_point : list (Q * Q) -> Q * Q -> bool)
    (polygon : list (Q * Q)) (x_dose y_dose : list Q) (i j : nat) (xv yv : Q) :
  y_dose !! i = Some yv -> x_dose !! j = Some xv ->
  nth (i * length x_dose + j) (map (contains_point polygon) (grid_points x_dose y_dose))
      false =
  contains_point polygon (xv, yv).
Proof.
  intros Hy Hx. apply nth_lookup_Some.
  match goal with |- map ?g ?l !! _ = _ => change (map g l) with (g <$> l) end.
  rewrite list_lookup_fmap. unfold grid_points.
  rewrite (flat_map_lookup _ (length x_dose) _ _ _ yv);
    [|intros; apply length_map|assumption|now apply lookup_lt_Some in Hx].
  match goal with |- _ <$> (map ?g ?l !! _) = _ => change (map g l) with (g <$> l) end.
  now rewrite list_lookup_fmap, Hx.
Qed.

Lemma map_result_total {B C} (f : B -> result C) (g : B -> C) (l : list B) :
  (forall b, In b l -> f b = Ok (g b)) -> map_result f l = Ok (map g l).
Proof.
  induction l as [|b l IH]; intros H; [reflexivity|].
  cbn [map_result map]. rewrite (H b) by now left. cbn [bind].
  rewrite IH by (intros; apply H; now right). reflexivity.
Qed.

(** The vertices of a contour with as many x as y coordinates. *)
Lemma structure_polygon_zip (x_structure y_structure : list (list Q)) (si : nat)
    (cx cy : list Q) :
  x_structure !! si = Some cx -> y_structure !! si = Some cy ->
  length cx = length cy ->
  structure_polygon x_structure y_structure si = Ok (zip cx cy).
Proof.
  intros Hx Hy Hlen. unfold structure_polygon.
  unfold list_getitem at 1. rewrite Hx. cbn [bind].
  rewrite (map_result_total _ (fun i => (nth i cx 0%Q, nth i cy 0%Q))).
  - f_equal. apply list_eq. intros i.
    rewrite lookup_zip_with.
    destruct (cx !! i) as [xv|] eqn:Ex.
    + pose proof (lookup_lt_Some _ _ _ Ex) as Hi.
      destruct (lookup_lt_is_Some_2 cy i ltac:(lia)) as [yv Ey].
      rewrite Ey. cbn. rewrite map_seq_lookup by assumption.
      now rewrite (nth_lookup_Some _ _ _ _ Ex), (nth_lookup_Some _ _ _ _ Ey).
    + cbn. apply lookup_ge_None. rewrite length_map, length_seq.
      now apply lookup_ge_None in Ex.
  - intros i Hi. apply in_seq in Hi. unfold list_getitem. rewrite Hx, Hy. cbn [bind].
    destruct (lookup_lt_is_Some_2 cx i ltac:(lia)) as [xv Ex].
    destruct (lookup_lt_is_Some_2 cy i ltac:(lia)) as [yv Ey].
    rewrite Ex, Ey. cbn [bind].
    now rewrite (nth_lookup_Some _ _ _ _ Ex), (nth_lookup_Some _ _ _ _ Ey).
Qed.

(** A loop whose iterations each switch on some entries of the mask
    switches on the entries that one of them does. *)
Lemma for_mask_accumulate {B} (items : list B)
    (body : B -> array3 bool -> result (array3 bool))
    (c : B -> nat -> nat -> nat -> bool) (d0 d1 d2 : nat) :
  (forall b m, In b items -> shape3 m = (d0, d1, d2) ->
     length (data3 m) = (d0 * d1 * d2)%nat ->
     exists m', body b m = Ok m'
       /\ shape3 m' = (d0, d1, d2)
       /\ length (data3 m') = (d0 * d1 * d2)%nat
       /\ forall i j k, (i < d0)%nat -> (j < d1)%nat -> (k < d2)%nat ->
            spec.voxel m' i j k = spec.voxel m i j k || c b i j k) ->
  forall m, shape3 m = (d0, d1, d2) -> length (data3 m) = (d0 * d1 * d2)%nat ->
    exists m', for_mask items body m = Ok m'
      /\ shape3 m' = (d0, d1, d2)
      /\ length (data3 m') = (d0 * d1 * d2)%nat
      /\ forall i j k, (i < d0)%nat -> (j < d1)%nat -> (k < d2)%nat ->
           spec.voxel m' i j k =
           spec.voxel m i j k || existsb (fun b => c b i j k) items.
Proof.
  induction items as [|b items IH]; intros Hbody m Hsh Hlen.
  - exists m. cbn [for_mask existsb]. repeat split; try assumption.
    intros. now rewrite orb_false_r.
  - cbn [for_mask].
    destruct (Hbody b m (or_introl eq_refl) Hsh Hlen) as (m1 & -> & Hsh1 & Hlen1 & Hv1).
    cbn [bind].
    destruct (IH (fun b' m' H => Hbody b' m' (or_intror H)) m1 Hsh1 Hlen1)
      as (m2 & Hm2 & Hsh2 & Hlen2 & Hv2).
    exists m2. repeat split; try assumption.
    intros i j k Hi Hj Hk. rewrite Hv2, Hv1 by assumption.
    cbn [existsb]. now rewrite orb_assoc.
Qed.

End MaskArrays.

Section MaskContent.
Import np dose.
Context (contains_point : list (Q * Q) -> Q * Q -> bool).
Context (x_structure y_structure z_structure : list (list Q)).
Context (x_dose y_dose z_dose : list Q).
Context (zvals : list Q).
Hypothesis Hfirst : first_items z_structure = Ok zvals.
Hypothesis Hshape : spec.well_shaped x_structure y_structure z_structure.

(** What the iteration for contour [si] at the z value [b] switches on. *)
#[local] Abbreviation in_contour b si i j k :=
  (Nat.eqb k (hd 0%nat (where_eq z_dose b))
   && contains_point
        (zip (nth si x_structure []) (nth si y_structure []))
        (nth j x_dose 0%Q, nth i y_dose 0%Q)).

Lemma contour_lookup (si : nat) (z0 : Q) :
  zvals !! si = Some z0 ->
  exists cx cy cz,
    x_structure !! si = Some cx /\ y_structure !! si = Some cy
    /\ z_structure !! si = Some cz /\ cz !! 0%nat = Some z0
    /\ length cx = length cy.
Proof.
  intros Hz0. destruct Hshape as (Hlen & _ & Hxy).
  pose proof (map_result_length _ _ _ Hfirst) as Hl.
  pose proof (lookup_lt_Some _ _ _ Hz0) as Hsi.
  destruct (lookup_lt_is_Some_2 z_structure si ltac:(lia)) as [cz Hcz].
  destruct (first_items_lookup _ _ _ _ Hfirst Hcz) as (z0' & Hc0 & Hz0').
  assert (z0' = z0) by congruence. subst z0'.
  destruct (lookup_lt_is_Some_2 x_structure si ltac:(lia)) as [cx Hcx].
  destruct (Forall2_lookup_l _ _ _ _ _ Hxy Hcx) as (cy & Hcy & Hxylen).
  now exists cx, cy, cz.
Qed.

Lemma mask_contour_exact (b : Q) (si di : nat) (m : array3 bool) :
  In si (where_eq zvals b) -> where_eq z_dose b = [di] ->
  shape3 m = (length y_dose, length x_dose, length z_dose) ->
  exists m',
    mask_contour contains_point x_structure y_structure z_structure
      x_dose y_dose z_dose b si m = Ok m'
    /\ shape3 m' = (length y_dose, length x_dose, length z_dose)
    /\ length (data3 m') = (length y_dose * length x_dose * length z_dose)%nat
    /\ forall i j k,
         (i < length y_dose)%nat -> (j < length x_dose)%nat ->
         (k < length z_dose)%nat ->
         spec.voxel m' i j k = spec.voxel m i j k || in_contour b si i j k.
Proof.
  intros Hsi Hdi Hsh. apply where_eq_In in Hsi as (z0 & Hz0 & Hz0b).
  destruct (contour_lookup si z0 Hz0) as (cx & cy & cz & Hcx & Hcy & Hcz & Hc0 & Hlen).
  assert (Hin : In di (where_eq z_dose b)) by (rewrite Hdi; now left).
  apply where_eq_In in Hin as (zd & Hzd & Hzdb).
  unfold mask_contour. rewrite Hdi. cbn [int_of_array bind].
  unfold list_getitem at 1. rewrite Hcz. cbn [bind].
  unfold list_getitem at 1. rewrite Hc0. cbn [bind].
  unfold list_getitem at 1. rewrite Hzd. cbn [bind].
  assert (Heq : Qeq_bool z0 zd = true).
  { apply Qeq_bool_trans with b; [assumption|]. now apply Qeq_bool_sym. }
  rewrite Heq. cbn [negb].
  rewrite (structure_polygon_zip _ _ _ cx cy Hcx Hcy Hlen). cbn [bind].
  eexists. split; [reflexivity|].
  destruct (or_plane_shape m _ _ _ di
              (map (contains_point (zip cx cy)) (grid_points x_dose y_dose)) Hsh)
    as [Hs Hl].
  split; [exact Hs|]. split; [exact Hl|].
  intros i j k Hi Hj Hk.
  rewrite (or_plane_voxel m _ _ _ di _ i j k Hsh Hi Hj Hk).
  destruct (lookup_lt_is_Some_2 y_dose i Hi) as [yv Hyv].
  destruct (lookup_lt_is_Some_2 x_dose j Hj) as [xv Hxv].
  rewrite (plane_nth contains_point (zip cx cy) x_dose y_dose i j xv yv Hyv Hxv).
  rewrite ?Hdi. cbn [hd].
  rewrite (nth_lookup_Some _ _ _ _ Hcx), (nth_lookup_Some _ _ _ _ Hcy).
  now rewrite (nth_lookup_Some _ _ _ _ Hxv), (nth_lookup_Some _ _ _ _ Hyv).
Qed.

Lemma mask_slice_exact (b : Q) (m : array3 bool) :
  (exists di, where_eq z_dose b = [di]) ->
  shape3 m = (length y_dose, length x_dose, length z_dose) ->
  length (data3 m) = (length y_dose * length x_dose * length z_dose)%nat ->
  exists m',
    mask_slice contains_point x_structure y_structure z_structure
      x_dose y_dose z_dose b m = Ok m'
    /\ shape3 m' = (length y_dose, length x_dose, length z_dose)
    /\ length (data3 m') = (length y_dose * length x_dose * length z_dose)%nat
    /\ forall i j k,
         (i < length y_dose)%nat -> (j < length x_dose)%nat ->
         (k < length z_dose)%nat ->
         spec.voxel m' i j k =
         spec.voxel m i j k
         || existsb (fun si => in_contour b si i j k) (where_eq zvals b).
Proof.
  intros [di Hdi] Hsh Hlen.
  unfold mask_slice, _get_indices. rewrite Hfirst. cbn [bind].
  apply (for_mask_accumulate (where_eq zvals b)
           (mask_contour contains_point x_structure y_structure z_structure
              x_dose y_dose z_dose b)
           (fun si i j k => in_contour b si i j k)); [|assumption..].
  intros si m0 Hsi Hsh0 _. now apply (mask_contour_exact b si di).
Qed.

Lemma mask_loop_exact :
  (forall b, In b zvals -> exists di, where_eq z_dose b = [di]) ->
  exists mask,
    for_mask zvals
      (mask_slice contains_point x_structure y_structure z_structure
         x_dose y_dose z_dose)
      (zeros (length y_dose, length x_dose, length z_dose)) = Ok mask
    /\ shape3 mask = (length y_dose, length x_dose, length z_dose)
    /\ length (data3 mask) = (length y_dose * length x_dose * length z_dose)%nat
    /\ forall i j k,
         (i < length y_dose)%nat -> (j < length x_dose)%nat ->
         (k < length z_dose)%nat ->
         spec.voxel mask i j k =
         existsb (fun b => existsb (fun si => in_contour b si i j k)
                             (where_eq zvals b)) zvals.
Proof.
  intros Hone.
  destruct (for_mask_accumulate zvals
              (mask_slice contains_point x_structure y_structure z_structure
                 x_dose y_dose z_dose)
              (fun b i j k =>
                 existsb (fun si => in_contour b si i j k) (where_eq zvals b))
              (length y_dose) (length x_dose) (length z_dose))
    with (m := zeros (length y_dose, length x_dose, length z_dose))
    as (mask & Hm & Hs & Hl & Hv).
  - intros b m Hb Hsh Hlen. apply mask_slice_exact; [now apply Hone|assumption..].
  - reflexivity.
  - cbn [zeros data3]. apply repeat_length.
  - exists mask. split; [exact Hm|]. split; [exact Hs|]. split; [exact Hl|].
    intros i j k Hi Hj Hk. rewrite Hv by assumption.
    now rewrite voxel_zeros.
Qed.

(** The entries switched on are those of the points inside a contour of
    their slice. *)
Lemma switched_on_covered (i j k : nat) (yv xv zv : Q) :
  (forall b, In b zvals -> exists di, where_eq z_dose b = [di]) ->
  y_dose !! i = Some yv -> x_dose !! j = Some xv -> z_dose !! k = Some zv ->
  existsb (fun b => existsb (fun si => in_contour b si i j k) (where_eq zvals b)) zvals =
  spec.covered contains_point x_structure y_structure z_structure zv (xv, yv).
Proof.
  intros Hone Hy Hx Hz. apply eq_true_iff_eq. unfold spec.covered.
  rewrite (nth_lookup_Some _ _ _ _ Hx), (nth_lookup_Some _ _ _ _ Hy).
  split; intros H; apply existsb_exists in H; apply existsb_exists.
  - destruct H as (b & Hb & H). apply existsb_exists in H as (si & Hsi & H).
    apply andb_true_iff in H as [Hk Hc]. apply Nat.eqb_eq in Hk.
    apply where_eq_In in Hsi as (z0 & Hz0 & Hz0b).
    destruct (Hone b Hb) as [di Hdi]. rewrite Hdi in Hk. cbn [hd] in Hk. subst di.
    assert (Hin : In k (where_eq z_dose b)) by (rewrite Hdi; now left).
    apply where_eq_In in Hin as (zd & Hzd & Hzdb).
    assert (zd = zv) by congruence. subst zd.
    destruct (contour_lookup si z0 Hz0) as (cx & cy & cz & Hcx & Hcy & Hcz & Hc0 & _).
    exists (cx, cy, cz). split.
    + apply list_elem_of_In. apply (list_elem_of_lookup_2 _ si).
      apply lookup_zip_with_Some. exists (cx, cy), cz.
      split; [reflexivity|]. split; [|assumption].
      apply lookup_zip_with_Some. now exists cx, cy.
    + destruct cz as [|z0' cz']; [discriminate|]. cbn in Hc0. injection Hc0 as ->.
      rewrite (nth_lookup_Some _ _ _ _ Hcx), (nth_lookup_Some _ _ _ _ Hcy) in Hc.
      apply andb_true_iff. split; [|exact Hc].
      apply Qeq_bool_trans with b; [assumption|]. now apply Qeq_bool_sym.
  - destruct H as ([[cx cy] cz] & Hin & H).
    apply list_elem_of_In, list_elem_of_lookup_1 in Hin as [si Hsi].
    apply lookup_zip_with_Some in Hsi as ([cx' cy'] & cz' & Heq & Hxy & Hcz).
    injection Heq as <- <- <-.
    apply lookup_zip_with_Some in Hxy as (cx' & cy' & Heq & Hcx & Hcy).
    injection Heq as <- <-.
    destruct cz as [|z0 cz']; [discriminate|].
    apply andb_true_iff in H as [Hz0 Hc].
    destruct (first_items_lookup _ _ _ _ Hfirst Hcz) as (z0' & Hc0 & Hz0').
    cbn in Hc0. injection Hc0 as <-.
    assert (Hb : In z0 zvals).
    { apply list_elem_of_In. eapply list_elem_of_lookup_2. eassumption. }
    exists z0. split; [exact Hb|].
    apply existsb_exists. exists si. split.
    + apply where_eq_In. exists z0. split; [assumption|apply Qeq_bool_refl].
    + destruct (Hone z0 Hb) as [di Hdi].
      assert (Hk : In k (where_eq z_dose z0)).
      { apply where_eq_In. exists zv. split; [assumption|now apply Qeq_bool_sym]. }
      rewrite Hdi in Hk. destruct Hk as [->|[]]. rewrite Hdi. cbn [hd].
      rewrite Nat.eqb_refl. cbn [andb].
      now rewrite (nth_lookup_Some _ _ _ _ Hcx), (nth_lookup_Some _ _ _ _ Hcy).
Qed.

End MaskContent.

Section MaskResults.
Import np dose.
Context (Struct : Type).
Context (pull_structure :
  string -> Struct -> result (list (list Q) * list (list Q) * list (list Q))).
Context (contains_point : list (Q * Q) -> Q * Q -> bool).

Lemma zvals_on_one_slice (z_structure : list (list Q)) (z_dose zvals : list Q) :
  first_items z_structure = Ok zvals ->
  Forall (spec.on_one_slice z_dose) z_structure ->
  forall b, In b zvals -> exists di, where_eq z_dose b = [di].
Proof.
  intros Hfirst Hone b Hb.
  apply list_elem_of_In, list_elem_of_lookup_1 in Hb as [si Hsi].
  pose proof (map_result_length _ _ _ Hfirst) as Hl.
  pose proof (lookup_lt_Some _ _ _ Hsi) as Hlt.
  destruct (lookup_lt_is_Some_2 z_structure si ltac:(lia)) as [cz Hcz].
  destruct (first_items_lookup _ _ _ _ Hfirst Hcz) as (z0 & Hc0 & Hz0).
  assert (z0 = b) by congruence. subst z0.
  pose proof (Forall_lookup_1 _ _ _ _ Hone Hcz) as H.
  destruct cz as [|z0 cz']; [discriminate|].
  cbn in Hc0. injection Hc0 as ->. exact H.
Qed.

Lemma item3_voxel (m : array3 bool) (d0 d1 d2 i j k : nat) :
  shape3 m = (d0, d1, d2) -> length (data3 m) = (d0 * d1 * d2)%nat ->
  (i < d0)%nat -> (j < d1)%nat -> (k < d2)%nat ->
  item3 m i j k = Some (spec.voxel m i j k).
Proof.
  intros Hsh Hlen Hi Hj Hk. unfold item3, spec.voxel. rewrite Hsh.
  apply Nat.ltb_lt in Hi as Hi', Hj as Hj', Hk as Hk'.
  rewrite Hi', Hj', Hk'. cbn [andb].
  pose proof (offset3_lt d0 d1 d2 i j k Hi Hj Hk) as Ho.
  destruct (lookup_lt_is_Some_2 (data3 m) (offset3 (d0, d1, d2) i j k)) as [b Hb];
    [lia|].
  rewrite Hb. f_equal. symmetry. now apply nth_lookup_Some.
Qed.

(** The content of the mask, for well-shaped contours that each lie on one
    slice. *)
Lemma structure_mask_content (structure_name : string) (dcm_struct : Struct)
    (dcm_dose : Dataset) (x_structure y_structure z_structure : list (list Q)) :
  pull_structure structure_name dcm_struct =
    Ok (x_structure, y_structure, z_structure) ->
  spec.well_shaped x_structure y_structure z_structure ->
  Forall (spec.on_one_slice (z_axis dcm_dose)) z_structure ->
  exists mask,
    get_dose_grid_structure_mask Struct pull_structure contains_point
      structure_name dcm_struct dcm_dose = Ok mask
    /\ spec.grid_mask dcm_dose mask
    /\ forall i j k yv xv zv,
         y_axis dcm_dose !! i = Some yv -> x_axis dcm_dose !! j = Some xv ->
         z_axis dcm_dose !! k = Some zv ->
         item3 mask i j k =
         Some (spec.covered contains_point x_structure y_structure z_structure
                 zv (xv, yv)).
Proof.
  intros Hpull Hshape Hone.
  unfold get_dose_grid_structure_mask, xyz_axes_from_dataset.
  rewrite Hpull. cbn [bind].
  destruct Hshape as (Hlen & Hne & Hxy).
  destruct (first_items_ok _ Hne) as [zvals Hfirst]. rewrite Hfirst. cbn [bind].
  pose proof (zvals_on_one_slice _ _ _ Hfirst Hone) as Hone'.
  destruct (mask_loop_exact contains_point x_structure y_structure z_structure
              (x_axis dcm_dose) (y_axis dcm_dose) (z_axis dcm_dose) zvals
              Hfirst (conj Hlen (conj Hne Hxy)) Hone')
    as (mask & Hm & Hs & Hl & Hv).
  exists mask. split; [exact Hm|]. split; [now split|].
  intros i j k yv xv zv Hy Hx Hz.
  pose proof (lookup_lt_Some _ _ _ Hy) as Hi.
  pose proof (lookup_lt_Some _ _ _ Hx) as Hj.
  pose proof (lookup_lt_Some _ _ _ Hz) as Hk.
  rewrite (item3_voxel mask _ _ _ i j k Hs Hl Hi Hj Hk). f_equal.
  rewrite Hv by assumption.
  now apply (switched_on_covered contains_point x_structure y_structure z_structure
               (x_axis dcm_dose) (y_axis dcm_dose) (z_axis dcm_dose) zvals
               Hfirst (conj Hlen (conj Hne Hxy))).
Qed.

(** X7. The mask is the union of the contours, slice by slice: when the
    contours are well shaped and the z of every contour is the z of exactly
    one slice of the dose grid, [get_dose_grid_structure_mask] returns a
    mask of shape (rows, columns, slices) whose entry (i, j, k) tells
    whether the grid point (x[j], y[i]) lies inside one of the contours
    drawn at z[k].  Several contours on a slice are united. *)
Theorem structure_mask_is_union (structure_name : string) (dcm_struct : Struct)
    (dcm_dose : Dataset) (x_structure y_structure z_structure : list (list Q)) :
  pull_structure structure_name dcm_struct =
    Ok (x_structure, y_structure, z_structure) ->
  spec.well_shaped x_structure y_structure z_structure ->
  Forall (spec.on_one_slice (z_axis dcm_dose)) z_structure ->
  exists mask,
    get_dose_grid_structure_mask Struct pull_structure contains_point
      structure_name dcm_struct dcm_dose = Ok mask
    /\ spec.grid_mask dcm_dose mask
    /\ forall i j k yv xv zv,
         y_axis dcm_dose !! i = Some yv -> x_axis dcm_dose !! j = Some xv ->
         z_axis dcm_dose !! k = Some zv ->
         item3 mask i j k =
         Some (spec.covered contains_point x_structure y_structure z_structure
                 zv (xv, yv)).
Proof.
  intros Hpull Hshape Hone.
  exact (structure_mask_content structure_name dcm_struct dcm_dose
           x_structure y_structure z_structure Hpull Hshape Hone).
Qed.

(** The iteration for a z that is not the z of exactly one slice raises at
    its first contour. *)
Lemma mask_slice_not_single (x_structure y_structure z_structure : list (list Q))
    (x_dose y_dose z_dose zvals : list Q) (k : nat) (zk : Q) (mask : array3 bool) :
  first_items z_structure = Ok zvals ->
  zvals !! k = Some zk ->
  length (where_eq z_dose zk) <> 1%nat ->
  mask_slice contains_point x_structure y_structure z_structure
    x_dose y_dose z_dose zk mask = Error spec.size_1_error.
Proof.
  intros Hfirst Hk Hn. unfold mask_slice, _get_indices. rewrite Hfirst. cbn [bind].
  destruct (where_eq zvals zk) as [|si rest] eqn:E.
  - assert (Hin : In k (where_eq zvals zk)).
    { apply where_eq_In. exists zk. split; [assumption|apply Qeq_bool_refl]. }
    rewrite E in Hin. destruct Hin.
  - cbn [for_mask]. unfold mask_contour.
    destruct (where_eq z_dose zk) as [|d [|d' l]]; [reflexivity| |reflexivity].
    now cbn in Hn.
Qed.

(** X8. A contour must lie on exactly one slice: with well-shaped contours,
    a contour whose z equals the z of no slice of the dose grid, or of more
    than one, makes [get_dose_grid_structure_mask] raise the TypeError of
    [int] on an array that does not hold exactly one index. *)
Theorem structure_mask_needs_one_slice (structure_name : string)
    (dcm_struct : Struct) (dcm_dose : Dataset)
    (x_structure y_structure z_structure : list (list Q))
    (k : nat) (contour : list Q) (z_contour : Q) :
  pull_structure structure_name dcm_struct =
    Ok (x_structure, y_structure, z_structure) ->
  spec.well_shaped x_structure y_structure z_structure ->
  z_structure !! k = Some contour ->
  contour !! 0%nat = Some z_contour ->
  length (where_eq (z_axis dcm_dose) z_contour) <> 1%nat ->
  get_dose_grid_structure_mask Struct pull_structure contains_point
    structure_name dcm_struct dcm_dose = Error spec.size_1_error.
Proof.
  intros Hpull Hshape Hk Hz Hn.
  unfold get_dose_grid_structure_mask, xyz_axes_from_dataset.
  rewrite Hpull. cbn [bind].
  destruct (first_items_ok _ (proj1 (proj2 Hshape))) as [zvals Hfirst].
  rewrite Hfirst. cbn [bind].
  destruct (first_items_lookup _ _ _ _ Hfirst Hk) as (z' & Hz' & Hzk).
  assert (z' = z_contour) by congruence. subst z'.
  apply (for_mask_raises_exactly _ _ k z_contour _ Hzk).
  - intros mask. now apply (mask_slice_not_single _ _ _ _ _ _ zvals k).
  - intros b mask _.
    exact (body_ok_or contains_point x_structure y_structure z_structure
             (x_axis dcm_dose) (y_axis dcm_dose) (z_axis dcm_dose)
             zvals Hfirst Hshape b mask).
Qed.

Lemma or_plane_same_shape (m : array3 bool) (di : nat) (plane : list bool) :
  shape3 (or_plane m di plane) = shape3 m.
Proof. unfold or_plane. destruct (shape3 m) as [[d0 d1] d2]. reflexivity. Qed.

Lemma mask_contour_same_shape (x_structure y_structure z_structure : list (list Q))
    (x_dose y_dose z_dose : list Q) (b : Q) (si : nat) (m m' : array3 bool) :
  mask_contour contains_point x_structure y_structure z_structure
    x_dose y_dose z_dose b si m = Ok m' ->
  shape3 m' = shape3 m.
Proof.
  unfold mask_contour.
  destruct (int_of_array (where_eq z_dose b)) as [di|]; [|discriminate]. cbn [bind].
  destruct (list_getitem z_structure si) as [zs|]; [|discriminate]. cbn [bind].
  destruct (list_getitem zs 0) as [z0|]; [|discriminate]. cbn [bind].
  destruct (list_getitem z_dose di) as [zd|]; [|discriminate]. cbn [bind].
  destruct (negb (Qeq_bool z0 zd)); [discriminate|].
  destruct (structure_polygon x_structure y_structure si) as [polygon|];
    [|discriminate].
  cbn [bind]. intros H. injection H as <-. apply or_plane_same_shape.
Qed.

Lemma for_mask_same_shape {B} (items : list B)
    (body : B -> array3 bool -> result (array3 bool)) :
  (forall b m m', body b m = Ok m' -> shape3 m' = shape3 m) ->
  forall m m', for_mask items body m = Ok m' -> shape3 m' = shape3 m.
Proof.
  intros Hbody. induction items as [|b items IH]; intros m m' H.
  - cbn in H. now injection H as <-.
  - cbn [for_mask] in H. destruct (body b m) as [m1|] eqn:E; [|discriminate].
    cbn [bind] in H. rewrite (IH _ _ H). now apply (Hbody b).
Qed.

(** Whatever the contours, a mask that is returned has the shape (rows,
    columns, slices) of the dose grid. *)
Lemma structure_mask_shape (structure_name : string) (dcm_struct : Struct)
    (dcm_dose : Dataset) (mask : array3 bool) :
  get_dose_grid_structure_mask Struct pull_structure contains_point
    structure_name dcm_struct dcm_dose = Ok mask ->
  shape3 mask =
  (length (y_axis dcm_dose), length (x_axis dcm_dose), length (z_axis dcm_dose)).
Proof.
  unfold get_dose_grid_structure_mask, xyz_axes_from_dataset.
  destruct (pull_structure structure_name dcm_struct) as [[[xs ys] zs]|];
    [|discriminate].
  cbn [bind]. destruct (first_items zs) as [zvals|]; [|discriminate]. cbn [bind].
  intros H. apply for_mask_same_shape in H; [exact H|].
  intros b m m' Hb. unfold mask_slice in Hb.
  destruct (_get_indices zs b) as [idx|]; [|discriminate]. cbn [bind] in Hb.
  apply for_mask_same_shape in Hb; [exact Hb|].
  intros si m0 m0'. apply mask_contour_same_shape.
Qed.

(** X9. The dose volume histogram needs a grid with as many slices as rows
    as columns: for a dataset that the interpolation accepts (its pixel
    array has the shape (slices, rows, columns)) and whose axes are not all
    of the same length, [create_dvh] raises for every structure; where the
    mask is built, it has the shape (rows, columns, slices), and indexing
    the dose with it raises IndexError. *)
Theorem create_dvh_needs_equal_axes (structure : string) (dcm_struct : Struct)
    (dcm_dose : Dataset) (f : scipy.RegularGridInterpolator) :
  scipy.new (z_axis dcm_dose, y_axis dcm_dose, x_axis dcm_dose)
    (dose_from_dataset dcm_dose) = Ok f ->
  ~ (length (z_axis dcm_dose) = length (y_axis dcm_dose)
     /\ length (y_axis dcm_dose) = length (x_axis dcm_dose)) ->
  is_error (create_dvh Struct pull_structure contains_point
              structure dcm_struct dcm_dose)
  /\ forall mask,
       get_dose_grid_structure_mask Struct pull_structure contains_point
         structure dcm_struct dcm_dose = Ok mask ->
       shape3 mask =
         (length (y_axis dcm_dose), length (x_axis dcm_dose),
          length (z_axis dcm_dose))
       /\ find_dose_within_structure Struct pull_structure contains_point
            structure dcm_struct dcm_dose =
          Error (IndexError "boolean index did not match indexed array")
       /\ create_dvh Struct pull_structure contains_point
            structure dcm_struct dcm_dose =
          Error (IndexError "boolean index did not match indexed array").
Proof.
  intros Hnew Hneq.
  destruct (new_ok_axes _ _ _ _ _ Hnew) as (_ & _ & _ & Hsh).
  assert (Hall : forall mask,
            get_dose_grid_structure_mask Struct pull_structure contains_point
              structure dcm_struct dcm_dose = Ok mask ->
            shape3 mask =
              (length (y_axis dcm_dose), length (x_axis dcm_dose),
               length (z_axis dcm_dose))
            /\ find_dose_within_structure Struct pull_structure contains_point
                 structure dcm_struct dcm_dose =
               Error (IndexError "boolean index did not match indexed array")).
  { intros mask Hmask. pose proof (structure_mask_shape _ _ _ _ Hmask) as Hs.
    split; [exact Hs|].
    unfold find_dose_within_structure. rewrite Hmask. cbn [bind].
    unfold boolean_index. rewrite Hsh, Hs. unfold shape_eqb.
    destruct (Nat.eqb_spec (length (z_axis dcm_dose)) (length (y_axis dcm_dose)));
      [|reflexivity].
    destruct (Nat.eqb_spec (length (y_axis dcm_dose)) (length (x_axis dcm_dose)));
      [|reflexivity].
    exfalso. apply Hneq. now split. }
  split.
  - unfold create_dvh.
    destruct (get_dose_grid_structure_mask Struct pull_structure contains_point
                structure dcm_struct dcm_dose) as [mask|e] eqn:E.
    + destruct (Hall mask eq_refl) as [_ ->]. exact I.
    + unfold find_dose_within_structure. rewrite E. exact I.
  - intros mask Hmask. destruct (Hall mask Hmask) as [Hs Hf].
    split; [exact Hs|]. split; [exact Hf|].
    unfold create_dvh. now rewrite Hf.
Qed.

End MaskResults.

Lemma square_well_shaped (z : Q) :
  let '(xs, ys, zs) := sample.square z in spec.well_shaped xs ys zs.
Proof.
  cbn. split; [reflexivity|]. split.
  - constructor; [discriminate|constructor].
  - constructor; [reflexivity|constructor].
Qed.

(** X7, witness: the square drawn at z = 0 on the 2 x 2 x 2 grid covers the
    points of the first slice and none of the second. *)
Lemma structure_mask_is_union_witness :
  exists mask,
    dose.get_dose_grid_structure_mask sample.Struct sample.pull_structure
      sample.even_odd "PTV" sample.structures sample.cube = Ok mask
    /\ np.item3 mask 1 0 0 = Some true
    /\ np.item3 mask 1 0 1 = Some false.
Proof.
  destruct (structure_mask_is_union sample.Struct sample.pull_structure
              sample.even_odd "PTV" sample.structures sample.cube
              [[-(1 # 2); 3 # 2; 3 # 2; -(1 # 2)]%Q]
              [[-(1 # 2); -(1 # 2); 3 # 2; 3 # 2]%Q]
              [[0; 0; 0; 0]%Q])
    as (mask & Hm & _ & Hitem).
  - reflexivity.
  - exact (square_well_shaped 0).
  - constructor; [|constructor]. exists 0%nat. reflexivity.
  - exists mask. split; [exact Hm|]. split.
    + rewrite (Hitem 1%nat 0%nat 0%nat 1%Q 0%Q 0%Q) by reflexivity. vm_compute. reflexivity.
    + rewrite (Hitem 1%nat 0%nat 1%nat 1%Q 0%Q 1%Q) by reflexivity. vm_compute. reflexivity.
Defined.

(** X8, witness: a dose grid with two slices at z = 0. *)
Lemma structure_mask_needs_one_slice_witness :
  dose.get_dose_grid_structure_mask sample.Struct sample.pull_structure
    sample.even_odd "PTV" sample.structures
    (dose.mkDataset (dose.pixel_array sample.cube) (1 # 2)
       [0; 1]%Q [0; 1]%Q [0; 0]%Q) =
  Error spec.size_1_error.
Proof.
  refine (structure_mask_needs_one_slice sample.Struct sample.pull_structure
            sample.even_odd "PTV" sample.structures _
            [[-(1 # 2); 3 # 2; 3 # 2; -(1 # 2)]%Q]
            [[-(1 # 2); -(1 # 2); 3 # 2; 3 # 2]%Q]
            [[0; 0; 0; 0]%Q] 0%nat [0; 0; 0; 0]%Q 0%Q _ _ _ _ _).
  - reflexivity.
  - exact (square_well_shaped 0).
  - reflexivity.
  - reflexivity.
  - vm_compute. discriminate.
Defined.

(** X9, witness: the grid of 2 slices, 2 rows and 3 columns. *)
Lemma create_dvh_needs_equal_axes_witness :
  dose.create_dvh sample.Struct sample.pull_structure sample.even_odd
    "PTV" sample.structures sample.slab =
  Error (IndexError "boolean index did not match indexed array").
Proof.
  destruct (create_dvh_needs_equal_axes sample.Struct sample.pull_structure
              sample.even_odd "PTV" sample.structures sample.slab
              (scipy.mkInterpolator
                 ([0; 1]%Q, [0; 1]%Q, [0; 1; 2]%Q)
                 (dose.dose_from_dataset sample.slab)))
    as [_ H].
  - vm_compute. reflexivity.
  - cbn. intros [_ H]. discriminate.
  - destruct (dose.get_dose_grid_structure_mask sample.Struct sample.pull_structure
                sample.even_odd "PTV" sample.structures sample.slab)
      as [mask|e] eqn:E; [|vm_compute in E; discriminate].
    exact (proj2 (proj2 (H mask eq_refl))).
Defined.

(** ** A structure without a grid point, and the contours of a slice *)

Section EmptyMask.
Import np dose.
Context (Struct : Type).
Context (pull_structure :
  string -> Struct -> result (list (list Q) * list (list Q) * list (list Q))).
Context (contains_point : list (Q * Q) -> Q * Q -> bool).

Lemma select_all_false {A} (items : list A) (mask : list bool) :
  Forall (fun b => b = false) mask -> select items mask = [].
Proof.
  revert items. induction mask as [|b mask IH]; intros [|a items] H;
    try reflexivity.
  apply Forall_cons in H as [-> H]. cbn [select]. now apply IH.
Qed.

(** X10. A structure that encloses no point of the grid gives no error but
    a curve of nan: when the mask fits the pixel array and has no true
    entry, [create_dvh] returns normally and plots 101 percentages that are
    all nan (0 voxels out of 0), over the bins of the range (0, 1). *)
Theorem create_dvh_of_empty_mask (structure : string) (dcm_struct : Struct)
    (dcm_dose : Dataset) (mask : array3 bool) :
  get_dose_grid_structure_mask Struct pull_structure contains_point
    structure dcm_struct dcm_dose = Ok mask ->
  shape3 (pixel_array dcm_dose) = shape3 mask ->
  Forall (fun b => b = false) (data3 mask) ->
  find_dose_within_structure Struct pull_structure contains_point
    structure dcm_struct dcm_dose = Ok []
  /\ exists mids,
       create_dvh Struct pull_structure contains_point structure dcm_struct dcm_dose =
         Ok (tt, [plt.plot mids (repeat None 101) structure; plt.title "DVH";
                  plt.xlabel "Dose (Gy)"; plt.ylabel "Relative Volume (%)"])
       /\ length mids = 101%nat
       /\ mids !! 0%nat = Some 0%Q
       /\ Forall (fun mid => (0 <= mid <= 1)%Q) mids.
Proof.
  intros Hmask Hshape Hfalse.
  assert (Hfind : find_dose_within_structure Struct pull_structure contains_point
                    structure dcm_struct dcm_dose = Ok []).
  { unfold find_dose_within_structure. rewrite Hmask. cbn [bind].
    unfold boolean_index, dose_from_dataset. cbn [shape3 data3].
    rewrite Hshape, shape_eqb_refl. now rewrite select_all_false. }
  split; [exact Hfind|].
  unfold create_dvh. rewrite Hfind. cbn [bind].
  destruct (dvh_curve []) as [[mids pcts]|e] eqn:E; [|vm_compute in E; discriminate].
  assert (Hp : pcts = repeat None 101)
    by (vm_compute in E; injection E as _ <-; vm_compute; reflexivity).
  assert (Hm : length mids = 101%nat /\ mids !! 0%nat = Some 0%Q
               /\ forallb (fun mid => Qle_bool 0 mid && Qle_bool mid 1) mids = true).
  { vm_compute in E. injection E as <- _. vm_compute. repeat split. }
  destruct Hm as (Hl & H0 & Hall).
  exists mids. cbn [bind]. subst pcts. split; [reflexivity|].
  split; [exact Hl|]. split; [exact H0|].
  apply Forall_forall. intros mid Hmid. rewrite forallb_forall in Hall.
  apply list_elem_of_In, Hall, andb_true_iff in Hmid as [H1 H2].
  apply Qle_bool_iff in H1, H2. now split.
Qed.

End EmptyMask.

(** X10, witness: the square that lies between the grid points. *)
Lemma create_dvh_of_empty_mask_witness :
  dose.find_dose_within_structure sample.Struct sample.pull_structure
    sample.even_odd "SPECK" sample.structures sample.cube = Ok [].
Proof.
  refine (proj1 (create_dvh_of_empty_mask sample.Struct sample.pull_structure
                   sample.even_odd "SPECK" sample.structures sample.cube
                   (np.zeros (2, 2, 2)%nat) _ _ _)).
  - vm_compute. reflexivity.
  - reflexivity.
  - repeat constructor.
Defined.

Section GetIndices.
Import np dose.

Lemma where_eq_from_ascending (s : nat) (a : list Q) (v : Q) :
  (forall p q ip iq,
     where_eq_from s a v !! p = Some ip -> where_eq_from s a v !! q = Some iq ->
     (p < q)%nat -> (ip < iq)%nat)
  /\ Forall (fun i => (s <= i)%nat) (where_eq_from s a v).
Proof.
  revert s. induction a as [|x a IH]; intros s.
  - split; [intros p q ip iq H; discriminate|constructor].
  - cbn [where_eq_from]. destruct (IH (S s)) as [Hs Hf].
    assert (Hf' : Forall (fun i => (s <= i)%nat) (where_eq_from (S s) a v)).
    { eapply Forall_impl; [exact Hf|]. intros i Hi. cbv beta in *. lia. }
    destruct (Qeq_bool x v); [|now split].
    split; [|constructor; [lia|exact Hf']].
    intros p q ip iq Hp Hq Hlt. destruct q as [|q]; [lia|]. cbn in Hq.
    destruct p as [|p].
    + cbn in Hp. injection Hp as <-.
      pose proof (Forall_lookup_1 _ _ _ _ Hf Hq) as H. cbv beta in H. lia.
    + cbn in Hp. apply (Hs p q); [assumption..|lia].
Qed.

Lemma first_items_empty_contour (z_list : list (list Q)) :
  In [] z_list -> first_items z_list = Error (IndexError "list index out of range").
Proof.
  induction z_list as [|c z_list IH]; intros H; [destruct H|].
  unfold first_items in *. cbn [map_result].
  destruct c as [|z0 c'].
  - reflexivity.
  - destruct H as [H|H]; [discriminate|].
    cbn [list_getitem bind]. change ((z0 :: c') !! 0%nat) with (Some z0).
    cbn [bind]. now rewrite IH.
Qed.

(** X11. [_get_indices] returns the indices of the contours whose first z
    equals the given z, each once and in ascending order; a contour without
    a point makes it raise IndexError. *)
Theorem get_indices_spec (z_list : list (list Q)) (z_val : Q) :
  (In [] z_list ->
   _get_indices z_list z_val = Error (IndexError "list index out of range"))
  /\ (~ In [] z_list ->
      exists indices,
        _get_indices z_list z_val = Ok indices
        /\ (forall p q ip iq,
              indices !! p = Some ip -> indices !! q = Some iq ->
              (p < q)%nat -> (ip < iq)%nat)
        /\ forall i,
             In i indices <->
             exists contour z0,
               z_list !! i = Some contour /\ contour !! 0%nat = Some z0
               /\ (z0 == z_val)%Q).
Proof.
  split.
  - intros H. unfold _get_indices. now rewrite first_items_empty_contour.
  - intros Hne.
    assert (Hall : Forall (fun c => c <> []) z_list).
    { apply Forall_forall. intros c Hc ->. apply Hne. now apply list_elem_of_In. }
    destruct (first_items_ok _ Hall) as [zvals Hz].
    unfold _get_indices. rewrite Hz. cbn [bind].
    exists (where_eq zvals z_val). split; [reflexivity|]. split.
    + apply where_eq_from_ascending.
    + intros i. rewrite where_eq_In. split.
      * intros (z0 & Hz0 & Heq).
        pose proof (map_result_length _ _ _ Hz) as Hl.
        pose proof (lookup_lt_Some _ _ _ Hz0) as Hlt.
        destruct (lookup_lt_is_Some_2 z_list i ltac:(lia)) as [c Hc].
        destruct (first_items_lookup _ _ _ _ Hz Hc) as (z0' & Hc0 & Hz0').
        assert (z0' = z0) by congruence. subst z0'.
        exists c, z0. repeat split; try assumption. now apply Qeq_bool_iff.
      * intros (c & z0 & Hc & Hc0 & Heq).
        destruct (first_items_lookup _ _ _ _ Hz Hc) as (z0' & Hc0' & Hz0').
        assert (z0' = z0) by congruence. subst z0'.
        exists z0. split; [assumption|]. now apply Qeq_bool_iff.
Qed.

End GetIndices.

(** ** The facade: what the views build *)

Section Runs.
Import pinnacle.
#[local] Open Scope facade_scope.

Lemma mbind_ok {A B} (m : M A) (k : A -> M B) (st st' : state) (a : A) :
  m st = (Ok a, st') -> mbind m k st = k a st'.
Proof. intros H. unfold mbind. now rewrite H. Qed.

Lemma mbind_error {A B} (m : M A) (k : A -> M B) (st st' : state) (e : exn) :
  m st = (Error e, st') -> mbind m k st = (Error e, st').
Proof. intros H. unfold mbind. now rewrite H. Qed.

Lemma run_dict_get (l : ref) (d : dict) (key : string) (st : state) :
  heap st !! l = Some (ODict d) ->
  dict_get (Some l) key st = (getitem d key, st).
Proof. intros H. unfold dict_get, mbind, deref. rewrite H. reflexivity. Qed.

Lemma run_dict_set (l : ref) (d : dict) (key : string) (v : pyval) (st : state) :
  heap st !! l = Some (ODict d) ->
  dict_set (Some l) key v st =
  (Ok tt, mkState (self st) (<[l := ODict (<[key := v]> d)]> (heap st)) (trace st)).
Proof. intros H. unfold dict_set, mbind, deref. rewrite H. reflexivity. Qed.

Lemma lookup_last {A} (h : list A) (x : A) : (h ++ [x]) !! length h = Some x.
Proof. now apply list_lookup_middle. Qed.

Lemma insert_last {A} (h : list A) (x y : A) : <[length h := y]> (h ++ [x]) = h ++ [y].
Proof.
  rewrite insert_app_r_alt by lia. now rewrite Nat.sub_diag.
Qed.


End Runs.

Ltac run_prim :=
  rewrite ?mbind_assoc; erewrite mbind_ok by reflexivity; cbv beta.

Ltac run_get d :=
  rewrite ?mbind_assoc; unfold pinnacle.mbind at 1;
  rewrite (run_dict_get _ d) by (cbn [pinnacle.heap]; apply lookup_last);
  unfold getitem at 1.

Ltac run_set d :=
  rewrite ?mbind_assoc; unfold pinnacle.mbind at 1;
  rewrite (run_dict_set _ d) by (cbn [pinnacle.heap]; apply lookup_last);
  cbn [pinnacle.self pinnacle.heap pinnacle.trace]; rewrite insert_last.

Section Records.
Import pinnacle.
#[local] Open Scope facade_scope.
Context (pinn_to_dict : string -> result dict).
Context (repr : pyval -> string).

(** The first access of [patient_info], step by step. *)
Lemma patient_info_run (st : state) (d : dict)
    (last first middle : pyval) (dobstr : string) :
  _patient_info (self st) = None ->
  pinn_to_dict (path_join (_path (self st)) "Patient") = Ok d ->
  d !! "LastName" = Some last -> d !! "FirstName" = Some first ->
  d !! "MiddleName" = Some middle -> d !! "DateOfBirth" = Some (PStr dobstr) ->
  patient_info pinn_to_dict repr st =
  (Ok (Some (length (heap st))),
   mkState
     (mkPinnacle (_path (self st)) (Some (length (heap st)))
        (_plans (self st)) (_images (self st)))
     (heap st ++ [ODict (spec.with_name_and_dob repr d last first middle dobstr)])
     (trace st ++ spec.reads_patient (_path (self st)))).
Proof.
  intros Hnone Hread Hlast Hfirst Hmiddle Hdob.
  destruct st as [[path pi pl im] h tr].
  cbn [self heap trace _path _patient_info _plans _images] in *.
  subst pi. unfold patient_info.
  run_prim. cbn [self _patient_info]. run_prim. cbn [negb].
  run_prim. run_prim. cbn [self _path heap trace].
  rewrite Hread. run_prim. run_prim. run_prim.
  cbn [self _path heap trace _plans _images length].
  run_get d. rewrite Hlast. run_get d. rewrite Hfirst. run_get d. rewrite Hmiddle.
  run_set d.
  run_get (<["FullName" := PStr (full_name repr last first middle)]> d).
  rewrite lookup_insert_ne by discriminate. rewrite Hdob.
  run_prim. cbn [dob_of_value].
  run_set (<["FullName" := PStr (full_name repr last first middle)]> d).
  run_prim. unfold ret. cbn [self _patient_info].
  unfold spec.reads_patient. now rewrite <- app_assoc.
Qed.

(** X12. The first access of [patient_info] reads the Patient file once and
    returns the record with two fields set: FullName, the last, first and
    middle name each followed by a caret, and DOB, the date of birth in its
    normalised form; every other field is as the reader returned it. *)
Theorem patient_info_builds_record (st : state) (d : dict)
    (last first middle : pyval) (dobstr : string) :
  _patient_info (self st) = None ->
  pinn_to_dict (path_join (_path (self st)) "Patient") = Ok d ->
  d !! "LastName" = Some last -> d !! "FirstName" = Some first ->
  d !! "MiddleName" = Some middle -> d !! "DateOfBirth" = Some (PStr dobstr) ->
  exists st' l record,
    patient_info pinn_to_dict repr st = (Ok (Some l), st')
    /\ heap st' !! l = Some (ODict record)
    /\ record !! "FullName" =
       Some (PStr (str_add (py_str repr last)
                     (str_add "^" (str_add (py_str repr first)
                        (str_add "^" (str_add (py_str repr middle) "^"))))))
    /\ record !! "DOB" = Some (PStr (dob_of dobstr))
    /\ (forall key, key <> "FullName" -> key <> "DOB" -> record !! key = d !! key)
    /\ trace st' = trace st ++ spec.reads_patient (_path (self st))
    /\ _plans (self st') = _plans (self st)
    /\ _images (self st') = _images (self st).
Proof.
  intros Hnone Hread Hlast Hfirst Hmiddle Hdob.
  eexists _, _, _. split; [apply patient_info_run; eassumption|].
  cbn [heap trace self _plans _images]. split; [apply lookup_last|].
  unfold spec.with_name_and_dob. split.
  - rewrite lookup_insert_ne by discriminate. now rewrite lookup_insert_eq.
  - split; [now rewrite lookup_insert_eq|]. split; [|now repeat split].
    intros key H1 H2. now rewrite !lookup_insert_ne by congruence.
Qed.

(** X13. A first access of [patient_info] that fails.  When the reader of
    the Patient file raises, the exception passes on and nothing is kept, so
    the next access reads again.  When the record lacks the last name, the
    access raises KeyError, but the record has been assigned already: if it
    holds anything, the next access returns it as the reader gave it,
    without FullName and DOB being set and without reading again. *)
Theorem patient_info_failed_access (st : state) :
  _patient_info (self st) = None ->
  (forall e,
     pinn_to_dict (path_join (_path (self st)) "Patient") = Error e ->
     patient_info pinn_to_dict repr st =
     (Error e, spec.logged st (spec.reads_patient (_path (self st)))))
  /\ (forall d,
        pinn_to_dict (path_join (_path (self st)) "Patient") = Ok d ->
        d !! "LastName" = None ->
        let l := length (heap st) in
        let st1 :=
          mkState
            (mkPinnacle (_path (self st)) (Some l) (_plans (self st)) (_images (self st)))
            (heap st ++ [ODict d])
            (trace st ++ spec.reads_patient (_path (self st))) in
        patient_info pinn_to_dict repr st = (Error (KeyError "LastName"), st1)
        /\ (size d <> 0%nat ->
            patient_info pinn_to_dict repr st1 = (Ok (Some l), st1))).
Proof.
  intros Hnone.
  destruct st as [[path pi pl im] h tr].
  cbn [self heap trace _path _patient_info _plans _images] in *. subst pi.
  split.
  - intros e Hread. unfold patient_info.
    run_prim. cbn [self _patient_info]. run_prim. cbn [negb].
    run_prim. run_prim. cbn [self _path heap trace].
    rewrite Hread. rewrite ?mbind_assoc. erewrite mbind_error by reflexivity.
    unfold spec.logged, spec.reads_patient. cbn [self heap trace].
    now rewrite <- app_assoc.
  - intros d Hread Hlast. split.
    + unfold patient_info.
      run_prim. cbn [self _patient_info]. run_prim. cbn [negb].
      run_prim. run_prim. cbn [self _path heap trace].
      rewrite Hread. run_prim. run_prim. run_prim.
      cbn [self _path heap trace _plans _images length].
      run_get d. rewrite Hlast.
      unfold spec.reads_patient. now rewrite <- app_assoc.
    + intros Hsize.
      apply patient_info_loaded. cbn [self _patient_info].
      apply truthy_loaded_dict with (d := d); [|assumption].
      cbn [heap]. apply lookup_last.
Qed.

End Records.

(** X12, witness: the sample record of Jane Doe, born 1990/1/2. *)
Lemma patient_info_builds_record_witness :
  exists st' l record,
    pinnacle.patient_info sample.pinn_to_dict sample.repr (pinnacle.init "/data") =
      (Ok (Some l), st')
    /\ pinnacle.heap st' !! l = Some (pinnacle.ODict record)
    /\ record !! "FullName" = Some (PStr "Doe^Jane^^")
    /\ record !! "DOB" = Some (PStr "19900102").
Proof.
  destruct (patient_info_builds_record sample.pinn_to_dict sample.repr
              (pinnacle.init "/data")
              (sample.patient [] [sample.image_set 0; sample.image_set 1;
                                  sample.image_set 2])
              (PStr "Doe") (PStr "Jane") (PStr "") "1990/1/2")
    as (st' & l & record & H & Hl & Hname & Hdob & _);
    try (vm_compute; reflexivity).
  exists st', l, record. split; [exact H|]. split; [exact Hl|].
  split; [exact Hname|exact Hdob].
Defined.

(** X13, witness: a record that holds a first name only. *)
Lemma patient_info_failed_access_witness :
  let read := fun _ : string => Ok (<["FirstName" := PStr "Jane"]> (∅ : dict)) in
  exists st1,
    pinnacle.patient_info read sample.repr (pinnacle.init "/data") =
      (Error (KeyError "LastName"), st1)
    /\ pinnacle.patient_info read sample.repr st1 = (Ok (Some 0%nat), st1).
Proof.
  intros read.
  destruct (proj2 (patient_info_failed_access read sample.repr
                     (pinnacle.init "/data") eq_refl)
              (<["FirstName" := PStr "Jane"]> (∅ : dict)) eq_refl)
    as [H1 H2]; [vm_compute; reflexivity|].
  eexists. split; [exact H1|]. apply H2. vm_compute. discriminate.
Defined.

Section Lists.
Import pinnacle.
#[local] Open Scope facade_scope.
Context (pinn_to_dict : string -> result dict).
Context (repr : pyval -> string).

Lemma run_append_plan (l : ref) (ps : list PinnaclePlan) (p : PinnaclePlan)
    (st : state) :
  heap st !! l = Some (OPlans ps) ->
  append_plan (Some l) p st =
  (Ok tt, mkState (self st) (<[l := OPlans (ps ++ [p])]> (heap st)) (trace st)).
Proof. intros H. unfold append_plan, mbind, deref. rewrite H. reflexivity. Qed.

Lemma run_append_image (l : ref) (ims : list PinnacleImage) (im : PinnacleImage)
    (st : state) :
  heap st !! l = Some (OImages ims) ->
  append_image (Some l) im st =
  (Ok tt, mkState (self st) (<[l := OImages (ims ++ [im])]> (heap st)) (trace st)).
Proof. intros H. unfold append_image, mbind, deref. rewrite H. reflexivity. Qed.

Lemma state_same_heap (st : state) (l : ref) (o : obj) :
  heap st !! l = Some o ->
  mkState (self st) (<[l := o]> (heap st)) (trace st) = st.
Proof. intros H. rewrite list_insert_id by assumption. now destruct st. Qed.

(** The loop of [plans], lines 138-141: one plan object per entry, appended
    in the order of the entries. *)
Lemma for_each_append_plans (path : string) (l : ref) (entries : list pyval)
    (ps : list PinnaclePlan) :
  Forall2 (spec.plan_for repr path) entries ps ->
  forall (st : state) (ps0 : list PinnaclePlan),
    _path (self st) = path -> _plans (self st) = Some l ->
    heap st !! l = Some (OPlans ps0) ->
    for_each entries
      (fun plan =>
         plan_id <~ lift (subscript_str plan "PlanID") ;;
         s <~ get_self ;;
         append_plan (_plans s)
           (mkPlan (path_join (_path s) (str_add "Plan_" (py_str repr plan_id))) plan))
      st =
    (Ok tt, mkState (self st) (<[l := OPlans (ps0 ++ ps)]> (heap st)) (trace st)).
Proof.
  induction 1 as [|entry p entries ps (plan_id & Hid & ->) _ IH];
    intros st ps0 Hpath Hplans Hl.
  - cbn [for_each]. unfold ret. rewrite app_nil_r. now rewrite state_same_heap.
  - cbn [for_each]. rewrite Hid. run_prim. run_prim.
    rewrite Hplans, Hpath.
    erewrite mbind_ok by (eapply run_append_plan; eassumption).
    rewrite IH with (ps0 := ps0 ++ [mkPlan (path_join path
                                     (str_add "Plan_" (py_str repr plan_id))) entry]);
      cbn [self heap trace]; try assumption.
    + rewrite list_insert_insert_eq. now rewrite <- app_assoc.
    + apply list_lookup_insert_eq. now apply lookup_lt_Some in Hl.
Qed.

(** The loop of [images], lines 151-153. *)
Lemma for_each_append_images (l : ref) (entries : list pyval) :
  forall (st : state) (ims0 : list PinnacleImage),
    _images (self st) = Some l ->
    heap st !! l = Some (OImages ims0) ->
    for_each entries
      (fun image =>
         s <~ get_self ;;
         append_image (_images s) (mkImage (_path s) image))
      st =
    (Ok tt,
     mkState (self st)
       (<[l := OImages (ims0 ++ map (mkImage (_path (self st))) entries)]> (heap st))
       (trace st)).
Proof.
  induction entries as [|entry entries IH]; intros st ims0 Himages Hl.
  - cbn [for_each map]. unfold ret. rewrite app_nil_r. now rewrite state_same_heap.
  - cbn [for_each map]. run_prim. rewrite Himages.
    erewrite mbind_ok by (eapply run_append_image; eassumption).
    rewrite IH with (ims0 := ims0 ++ [mkImage (_path (self st)) entry]);
      cbn [self heap trace]; try assumption.
    + rewrite list_insert_insert_eq. now rewrite <- app_assoc.
    + apply list_lookup_insert_eq. now apply lookup_lt_Some in Hl.
Qed.

(** X14. The first access of [plans] on an instance that has read nothing
    yet: it reads the patient record once and builds one plan object per
    entry of PlanList, in the order of the entries, each with the entry and
    the path of the directory Plan_<PlanID> below the path of the
    instance. *)
Theorem plans_builds_list (st : state) (d : dict)
    (last first middle : pyval) (dobstr : string)
    (entries : list pyval) (ps : list PinnaclePlan) :
  _plans (self st) = None -> _patient_info (self st) = None ->
  pinn_to_dict (path_join (_path (self st)) "Patient") = Ok d ->
  d !! "LastName" = Some last -> d !! "FirstName" = Some first ->
  d !! "MiddleName" = Some middle -> d !! "DateOfBirth" = Some (PStr dobstr) ->
  d !! "PlanList" = Some (PList entries) ->
  Forall2 (spec.plan_for repr (_path (self st))) entries ps ->
  exists st' l,
    plans pinn_to_dict repr st = (Ok (Some l), st')
    /\ heap st' !! l = Some (OPlans ps)
    /\ length ps = length entries
    /\ trace st' = trace st ++ spec.reads_patient (_path (self st)).
Proof.
  intros Hplans Hnone Hread Hlast Hfirst Hmiddle Hdob Hlist Hps.
  destruct st as [[path pi pl im] h tr].
  cbn [self heap trace _path _patient_info _plans _images] in *. subst pi pl.
  unfold plans.
  run_prim. cbn [self _plans]. run_prim. cbn [negb].
  run_prim. run_prim. cbn [self _path heap trace _patient_info _images length].
  rewrite ?mbind_assoc.
  erewrite mbind_ok by (apply patient_info_run; cbn [self _path _patient_info];
                        first [reflexivity|eassumption]).
  cbv beta. cbn [self heap trace _path _plans _images].
  run_get (spec.with_name_and_dob repr d last first middle dobstr).
  unfold spec.with_name_and_dob at 1.
  rewrite !lookup_insert_ne by discriminate. rewrite Hlist.
  run_prim. cbn [iterate].
  rewrite ?mbind_assoc.
  erewrite mbind_ok.
  2:{ apply (for_each_append_plans path (length h) entries ps Hps) with (ps0 := []);
        cbn [self heap _path _plans]; [reflexivity|reflexivity|].
      rewrite lookup_app_l by (rewrite length_app; cbn; lia). apply lookup_last. }
  cbv beta. run_prim. unfold ret. cbn [self _plans heap trace app].
  eexists _, _. split; [reflexivity|]. cbn [heap trace].
  split; [|split; [symmetry; eapply Forall2_length; eassumption|reflexivity]].
  apply list_lookup_insert_eq. rewrite !length_app. cbn. lia.
Qed.

(** X15. The first access of [images] on an instance that has read nothing
    yet: it reads the patient record once and builds one image object per
    entry of ImageSetList, in the order of the entries, each with the entry
    and the path of the instance. *)
Theorem images_builds_list (st : state) (d : dict)
    (last first middle : pyval) (dobstr : string) (entries : list pyval) :
  _images (self st) = None -> _patient_info (self st) = None ->
  pinn_to_dict (path_join (_path (self st)) "Patient") = Ok d ->
  d !! "LastName" = Some last -> d !! "FirstName" = Some first ->
  d !! "MiddleName" = Some middle -> d !! "DateOfBirth" = Some (PStr dobstr) ->
  d !! "ImageSetList" = Some (PList entries) ->
  exists st' l,
    images pinn_to_dict repr st = (Ok (Some l), st')
    /\ heap st' !! l = Some (OImages (map (mkImage (_path (self st))) entries))
    /\ trace st' = trace st ++ spec.reads_patient (_path (self st)).
Proof.
  intros Himages Hnone Hread Hlast Hfirst Hmiddle Hdob Hlist.
  destruct st as [[path pi pl im] h tr].
  cbn [self heap trace _path _patient_info _plans _images] in *. subst pi im.
  unfold images.
  run_prim. cbn [self _images]. run_prim. cbn [negb].
  run_prim. run_prim. cbn [self _path heap trace _patient_info _plans length].
  rewrite ?mbind_assoc.
  erewrite mbind_ok by (apply patient_info_run; cbn [self _path _patient_info];
                        first [reflexivity|eassumption]).
  cbv beta. cbn [self heap trace _path _plans _images].
  run_get (spec.with_name_and_dob repr d last first middle dobstr).
  unfold spec.with_name_and_dob at 1.
  rewrite !lookup_insert_ne by discriminate. rewrite Hlist.
  run_prim. cbn [iterate].
  rewrite ?mbind_assoc.
  erewrite mbind_ok.
  2:{ apply (for_each_append_images (length h) entries) with (ims0 := []);
        cbn [self heap _images]; [reflexivity|].
      rewrite lookup_app_l by (rewrite length_app; cbn; lia). apply lookup_last. }
  cbv beta. run_prim. unfold ret. cbn [self _images _path heap trace app].
  eexists _, _. split; [reflexivity|]. cbn [heap trace].
  split; [|reflexivity].
  apply list_lookup_insert_eq. rewrite !length_app. cbn. lia.
Qed.

End Lists.

(** X14, witness: a record with the plans 3 and 7. *)
Lemma plans_builds_list_witness :
  let plan3 := PDict (<["PlanID" := PInt 3]> ∅) in
  let plan7 := PDict (<["PlanID" := PInt 7]> ∅) in
  let read := fun _ : string => Ok (sample.patient [plan3; plan7] []) in
  exists st' l,
    pinnacle.plans read sample.repr (pinnacle.init "/data") = (Ok (Some l), st')
    /\ pinnacle.heap st' !! l =
       Some (pinnacle.OPlans [pinnacle.mkPlan "/data/Plan_3" plan3;
                              pinnacle.mkPlan "/data/Plan_7" plan7]).
Proof.
  intros plan3 plan7 read.
  destruct (plans_builds_list read sample.repr (pinnacle.init "/data")
              (sample.patient [plan3; plan7] [])
              (PStr "Doe") (PStr "Jane") (PStr "") "1990/1/2"
              [plan3; plan7]
              [pinnacle.mkPlan "/data/Plan_3" plan3;
               pinnacle.mkPlan "/data/Plan_7" plan7])
    as (st' & l & H & Hl & _); try (vm_compute; reflexivity).
  - constructor; [|constructor; [|constructor]].
    + exists (PInt 3). split; vm_compute; reflexivity.
    + exists (PInt 7). split; vm_compute; reflexivity.
  - exists st', l. split; [exact H|exact Hl].
Defined.

(** X15, witness: the sample record with its three image sets. *)
Lemma images_builds_list_witness :
  exists st' l,
    pinnacle.images sample.pinn_to_dict sample.repr (pinnacle.init "/data") =
      (Ok (Some l), st')
    /\ pinnacle.heap st' !! l =
       Some (pinnacle.OImages
               [pinnacle.mkImage "/data" (sample.image_set 0);
                pinnacle.mkImage "/data" (sample.image_set 1);
                pinnacle.mkImage "/data" (sample.image_set 2)]).
Proof.
  destruct (images_builds_list sample.pinn_to_dict sample.repr (pinnacle.init "/data")
              (sample.patient [] [sample.image_set 0; sample.image_set 1;
                                  sample.image_set 2])
              (PStr "Doe") (PStr "Jane") (PStr "") "1990/1/2"
              [sample.image_set 0; sample.image_set 1; sample.image_set 2])
    as (st' & l & H & Hl & _); try (vm_compute; reflexivity).
  exists st', l. split; [exact H|exact Hl].
Defined.

(** ** The export of images: a header that cannot be read *)

Section HeaderFailure.
Import pinnacle.
#[local] Open Scope facade_scope.
Context (pinn_to_dict : string -> result dict).
Context (image_info : PinnacleImage -> result (list pyval)).
Context (convert_image : PinnacleImage -> string -> result unit).
Context (repr : pyval -> string).

Lemma scan_header_failure (pre post : list PinnacleImage) (im : PinnacleImage)
    (series_uid export_path : string) (e : exn) (st : state) :
  (forall im', In im' pre -> exists v, first_series_uid image_info im' = Ok v) ->
  spec.scan_target image_info series_uid pre = None ->
  first_series_uid image_info im = Error e ->
  export_image_scan image_info convert_image (pre ++ im :: post)
    series_uid export_path st = (Error e, st).
Proof.
  intros Hpre Hnone Him. induction pre as [|im' pre IH].
  - cbn [app export_image_scan]. rewrite Him. reflexivity.
  - cbn [app export_image_scan].
    destruct (Hpre im' (or_introl eq_refl)) as [v Hv]. rewrite Hv. run_prim.
    unfold spec.scan_target in Hnone, IH.
    destruct (String.eqb_spec series_uid "") as [->|Hne].
    + cbn [String.length Nat.ltb Nat.leb andb].
      apply IH; [|reflexivity]. intros im0 H0. apply Hpre. now right.
    + cbn [List.find] in Hnone. unfold spec.series_uid_is at 1 in Hnone.
      rewrite Hv in Hnone.
      destruct (eq_str v series_uid); [discriminate|].
      rewrite andb_false_r.
      apply IH; [|assumption]. intros im0 H0. apply Hpre. now right.
Qed.

(** X16. The header of every image is read before the series UID is looked
    at: when the header of an image cannot be read ([image_info] raises, is
    empty, or has no SeriesUID) and no image before it has the requested
    series UID, [export_image] raises that exception without any call of
    [convert_image]; the explicit image is not converted either, also when
    no series UID was given. *)
Theorem export_image_header_failure (st st1 : state)
    (pre post : list PinnacleImage) (im : PinnacleImage)
    (image : option PinnacleImage) (series_uid export_path : string) (e : exn) :
  images_list pinn_to_dict repr st = (Ok (pre ++ im :: post), st1) ->
  (forall im', In im' pre -> exists v, first_series_uid image_info im' = Ok v) ->
  spec.scan_target image_info series_uid pre = None ->
  first_series_uid image_info im = Error e ->
  export_image pinn_to_dict image_info convert_image repr
    image series_uid export_path st = (Error e, st1)
  /\ exists evs, trace st1 = trace st ++ evs /\ spec.convert_calls evs = [].
Proof.
  intros Hlist Hpre Hnone Him. split.
  - unfold export_image. erewrite mbind_ok by exact Hlist.
    erewrite mbind_error; [reflexivity|].
    now apply scan_header_failure.
  - exact (images_list_quiet pinn_to_dict repr _ _ _ Hlist).
Qed.

End HeaderFailure.

(** X16, witness: the second image set has no header record, the explicit
    image is the first one, and no series UID is given. *)
Lemma export_image_header_failure_witness :
  let read := fun _ : string =>
    Ok (sample.patient [] [sample.image_set 0; PStr "lost"]) in
  let first := pinnacle.mkImage "/data" (sample.image_set 0) in
  exists st1,
    pinnacle.export_image read sample.image_info sample.convert_image sample.repr
      (Some first) "" "/out" (pinnacle.init "/data") =
    (Error (IndexError "list index out of range"), st1)
    /\ spec.convert_calls (pinnacle.trace st1) = [].
Proof.
  intros read first.
  pose (st1 := snd (pinnacle.images_list read sample.repr (pinnacle.init "/data"))).
  destruct (export_image_header_failure read sample.image_info sample.convert_image
              sample.repr (pinnacle.init "/data") st1
              [first] [] (pinnacle.mkImage "/data" (PStr "lost"))
              (Some first) "" "/out" (IndexError "list index out of range"))
    as [H _].
  - vm_compute. reflexivity.
  - intros im' [<-|[]]. eexists. vm_compute. reflexivity.
  - reflexivity.
  - vm_compute. reflexivity.
  - exists st1. split; [exact H|]. vm_compute. reflexivity.
Defined.

(** ** The date of birth of a year, a month and a day *)

Section YearMonthDay.
Import pinnacle.

Lemma digits_free (s : string) (c : ascii) :
  spec.digits s = true -> In c spec.dob_separators -> str_contains c s = false.
Proof.
  intros Hs Hc. induction s as [|a s IH]; [reflexivity|].
  cbn [spec.digits] in Hs. apply andb_true_iff in Hs as [Ha Hs].
  cbn [str_contains]. rewrite (IH Hs).
  destruct (Ascii.eqb_spec a c) as [->|]; [|reflexivity].
  cbn in Hc. destruct Hc as [<-|[<-|[<-|[]]]]; discriminate.
Qed.

Lemma str_contains_app (c : ascii) (a b : string) :
  str_contains c (str_add a b) = str_contains c a || str_contains c b.
Proof.
  induction a as [|x a IH]; [reflexivity|].
  change (str_add (String x a) b) with (String x (str_add a b)).
  cbn [str_contains]. rewrite IH. now destruct (Ascii.eqb x c).
Qed.

Lemma str_split_app (c : ascii) (a b : string) :
  str_contains c a = false ->
  str_split c (str_add a (String c b)) = a :: str_split c b.
Proof.
  induction a as [|x a IH]; intros H.
  - change (str_add "" (String c b)) with (String c b).
    cbn [str_split]. now rewrite Ascii.eqb_refl.
  - change (str_add (String x a) (String c b)) with (String x (str_add a (String c b))).
    cbn [str_contains] in H. cbn [str_split].
    destruct (Ascii.eqb x c); [discriminate|]. now rewrite IH.
Qed.

Lemma str_length_add (a b : string) :
  String.length (str_add a b) = (String.length a + String.length b)%nat.
Proof.
  induction a as [|x a IH]; [reflexivity|].
  change (str_add (String x a) b) with (String x (str_add a b)).
  cbn [String.length]. now rewrite IH.
Qed.

Lemma digits_add (a b : string) :
  spec.digits (str_add a b) = spec.digits a && spec.digits b.
Proof.
  induction a as [|x a IH]; [reflexivity|].
  change (str_add (String x a) b) with (String x (str_add a b)).
  cbn [spec.digits]. rewrite IH. now rewrite andb_assoc.
Qed.

Lemma zero_pad_digits (num : string) :
  spec.digits num = true -> spec.digits (spec.zero_pad num) = true.
Proof.
  intros H. unfold spec.zero_pad. destruct (Nat.eqb (String.length num) 1); [|exact H].
  cbn [spec.digits]. now rewrite H.
Qed.

Lemma zero_pad_length (num : string) :
  (1 <= String.length num <= 2)%nat -> String.length (spec.zero_pad num) = 2%nat.
Proof.
  intros H. unfold spec.zero_pad.
  destruct (Nat.eqb_spec (String.length num) 1) as [E|E]; cbn [String.length]; lia.
Qed.

(** X17. A date of birth written as a year of four digits, a month and a
    day of one or two digits each, separated by '-', by '/' or by spaces,
    becomes the eight digits of the year, the month and the day, month and
    day padded to two digits. *)
Theorem dob_of_year_month_day (year month day : string) (sep : ascii) :
  In sep spec.dob_separators ->
  spec.digits year = true -> spec.digits month = true -> spec.digits day = true ->
  String.length year = 4%nat ->
  (1 <= String.length month <= 2)%nat -> (1 <= String.length day <= 2)%nat ->
  let dobstr := str_add year (String sep (str_add month (String sep day))) in
  dob_of dobstr = str_add year (str_add (spec.zero_pad month) (spec.zero_pad day))
  /\ String.length (dob_of dobstr) = 8%nat
  /\ spec.digits (dob_of dobstr) = true.
Proof.
  intros Hsep Hy Hm Hd Ly Lm Ld dobstr.
  assert (Hsplit : dob_split dobstr = [year; month; day]).
  { assert (Hparts : forall c, In c spec.dob_separators ->
              str_contains c dobstr =
              Ascii.eqb sep c).
    { intros c Hc. unfold dobstr. rewrite str_contains_app. cbn [str_contains].
      rewrite str_contains_app. cbn [str_contains].
      rewrite !(digits_free _ c) by assumption.
      cbn [orb]. now destruct (Ascii.eqb sep c). }
    assert (Hs : str_split sep dobstr = [year; month; day]).
    { unfold dobstr. rewrite str_split_app by now apply digits_free.
      rewrite str_split_app by now apply digits_free.
      now rewrite str_split_absent by now apply digits_free. }
    unfold dob_split.
    rewrite (Hparts "-"%char) by (cbn; tauto).
    rewrite (Hparts "/"%char) by (cbn; tauto).
    cbn in Hsep. destruct Hsep as [<-|[<-|[<-|[]]]]; exact Hs. }
  assert (Hdob : dob_of dobstr =
                 str_add year (str_add (spec.zero_pad month) (spec.zero_pad day))).
  { unfold dob_of. rewrite Hsplit. cbn [fold_left]. rewrite !dob_step_pad.
    change (str_add "" (spec.zero_pad year)) with (spec.zero_pad year).
    unfold spec.zero_pad at 1. rewrite Ly. cbn [Nat.eqb].
    now rewrite str_add_assoc. }
  split; [exact Hdob|]. rewrite Hdob. split.
  - rewrite !str_length_add, !zero_pad_length by assumption. lia.
  - rewrite !digits_add, !zero_pad_digits by assumption. now rewrite Hy.
Qed.

End YearMonthDay.

(** X17, witness: the second of January 1990, written with spaces. *)
Lemma dob_of_year_month_day_witness :
  pinnacle.dob_of "1990 1 2" = "19900102"
  /\ String.length (pinnacle.dob_of "1990 1 2") = 8%nat
  /\ spec.digits (pinnacle.dob_of "1990 1 2") = true.
Proof.
  refine (dob_of_year_month_day "1990" "1" "2" " "%char _ _ _ _ _ _ _);
    try reflexivity; cbn; try lia. tauto.
Defined.

(** ** A plan list with an entry that has no PlanID *)

Section PartialPlans.
Import pinnacle.
#[local] Open Scope facade_scope.
Context (pinn_to_dict : string -> result dict).
Context (repr : pyval -> string).

Lemma mbind_ext {A B} (m : M A) (k k' : A -> M B) (st : state) :
  (forall a st', k a st' = k' a st') -> mbind m k st = mbind m k' st.
Proof.
  intros H. unfold mbind. destruct (m st) as [[a|e] st1]; [apply H|reflexivity].
Qed.

Lemma for_each_app {A} (items rest : list A) (body : A -> M unit) (st : state) :
  for_each (items ++ rest) body st =
  mbind (for_each items body) (fun _ => for_each rest body) st.
Proof.
  revert st. induction items as [|a items IH]; intros st; [reflexivity|].
  cbn [app for_each]. rewrite mbind_assoc.
  apply mbind_ext. intros u st'. apply IH.
Qed.

(** X18. An entry of PlanList without a PlanID makes the first access of
    [plans] raise, but the plan objects of the entries before it have been
    appended to the list already: if there is one, the next access returns
    that partial list, without an exception and without the entries that
    follow. *)
Theorem plans_keeps_partial_list (st : state) (d : dict)
    (last first middle : pyval) (dobstr : string)
    (good rest : list pyval) (bad : pyval) (ps : list PinnaclePlan) (e : exn) :
  _plans (self st) = None -> _patient_info (self st) = None ->
  pinn_to_dict (path_join (_path (self st)) "Patient") = Ok d ->
  d !! "LastName" = Some last -> d !! "FirstName" = Some first ->
  d !! "MiddleName" = Some middle -> d !! "DateOfBirth" = Some (PStr dobstr) ->
  d !! "PlanList" = Some (PList (good ++ bad :: rest)) ->
  Forall2 (spec.plan_for repr (_path (self st))) good ps ->
  subscript_str bad "PlanID" = Error e ->
  exists st1 l,
    plans pinn_to_dict repr st = (Error e, st1)
    /\ _plans (self st1) = Some l
    /\ heap st1 !! l = Some (OPlans ps)
    /\ (good <> [] -> plans pinn_to_dict repr st1 = (Ok (Some l), st1)).
Proof.
  intros Hplans Hnone Hread Hlast Hfirst Hmiddle Hdob Hlist Hps Hbad.
  destruct st as [[path pi pl im] h tr].
  cbn [self heap trace _path _patient_info _plans _images] in *. subst pi pl.
  assert (Hl : ((h ++ [OPlans []]) ++
                [ODict (spec.with_name_and_dob repr d last first middle dobstr)])
               !! length h = Some (OPlans [])).
  { rewrite lookup_app_l by (rewrite length_app; cbn; lia). apply lookup_last. }
  eexists _, (length h). split; [|split; [|split]].
  - unfold plans.
    run_prim. cbn [self _plans]. run_prim. cbn [negb].
    run_prim. run_prim. cbn [self _path heap trace _patient_info _images length].
    rewrite ?mbind_assoc.
    erewrite mbind_ok by (apply patient_info_run; cbn [self _path _patient_info];
                          first [reflexivity|eassumption]).
    cbv beta. cbn [self heap trace _path _plans _images].
    run_get (spec.with_name_and_dob repr d last first middle dobstr).
    unfold spec.with_name_and_dob at 1.
    rewrite !lookup_insert_ne by discriminate. rewrite Hlist.
    run_prim. cbn [iterate].
    rewrite ?mbind_assoc.
    erewrite mbind_error; [reflexivity|].
    rewrite for_each_app.
    erewrite mbind_ok.
    2:{ apply (for_each_append_plans repr path (length h) good ps Hps) with (ps0 := []);
          cbn [self heap _path _plans]; [reflexivity|reflexivity|exact Hl]. }
    cbn [for_each]. rewrite Hbad. rewrite ?mbind_assoc.
    erewrite mbind_error by reflexivity. reflexivity.
  - reflexivity.
  - cbn [heap app]. apply list_lookup_insert_eq. rewrite !length_app. cbn. lia.
  - intros Hgood. apply plans_loaded. cbn [self _plans].
    apply truthy_loaded_plans with (ps := ps).
    + cbn [heap app]. apply list_lookup_insert_eq. rewrite !length_app. cbn. lia.
    + intros ->. inversion Hps. now subst.
Qed.

End PartialPlans.

(** X18, witness: the plan 3, then an entry that is no record. *)
Lemma plans_keeps_partial_list_witness :
  let plan3 := PDict (<["PlanID" := PInt 3]> ∅) in
  let read := fun _ : string => Ok (sample.patient [plan3; PInt 0] []) in
  exists st1 l,
    pinnacle.plans read sample.repr (pinnacle.init "/data") =
      (Error (TypeError "'int' object is not subscriptable"), st1)
    /\ pinnacle.plans read sample.repr st1 = (Ok (Some l), st1)
    /\ pinnacle.heap st1 !! l =
       Some (pinnacle.OPlans [pinnacle.mkPlan "/data/Plan_3" plan3]).
Proof.
  intros plan3 read.
  destruct (plans_keeps_partial_list read sample.repr (pinnacle.init "/data")
              (sample.patient [plan3; PInt 0] [])
              (PStr "Doe") (PStr "Jane") (PStr "") "1990/1/2"
              [plan3] [] (PInt 0) [pinnacle.mkPlan "/data/Plan_3" plan3]
              (TypeError "'int' object is not subscriptable"))
    as (st1 & l & H & _ & Hl & Hnext); try (vm_compute; reflexivity).
  - constructor; [|constructor].
    exists (PInt 3). split; vm_compute; reflexivity.
  - exists st1, l. split; [exact H|]. split; [|exact Hl].
    apply Hnext. discriminate.
Defined.

(** ** The dose values under the mask *)

Section DoseUnderMask.
Import np dose.
Context (Struct : Type).
Context (pull_structure :
  string -> Struct -> result (list (list Q) * list (list Q) * list (list Q))).
Context (contains_point : list (Q * Q) -> Q * Q -> bool).




End DoseUnderMask.

